(** * ml-rhythm: the streaming audio-analysis core

    A shallow embedding of [backend/audio]: the real-time onset detector
    ([onset_detector.py]), the metronome detector ([metronome_detector.py]),
    the grid aligner ([grid_aligner.py]), calibration and classification
    ([calibration.py], [onset_classifier.py]) and the session pipeline with
    its report ([pipeline.py]).

    Python's [float] is read through the interface [PyFloat], which has two
    instances: IEEE binary64 ([Binary64], on Rocq's primitive floats, where
    rounding, infinities and NaN exist) and exact rationals ([Exact], the
    real-number reading of the same program text).  Every function of the
    source is translated once, over the interface.  A Python exception is
    the result [None]; a method of the metronome detector, whose object can
    be used after a call has raised, returns an [outcome] that keeps the
    object as the exception leaves it. *)

From Stdlib Require Import String ZArith QArith Qround Qabs Qminmax Lqa Lia Bool List.
From Stdlib Require Import Sorting.Sorted.
From Stdlib Require Import Floats.
Import ListNotations.

Set Implicit Arguments.

(** ** The exception monad *)

Definition bind {A B : Type} (m : option A) (k : A -> option B) : option B :=
  match m with
  | Some a => k a
  | None => None
  end.

Notation "x <- m ;; k" := (bind m (fun x => k))
  (at level 61, m at next level, right associativity).
Notation "' p <- m ;; k" := (bind m (fun p => k))
  (at level 61, p pattern, m at next level, right associativity).

Definition ret {A : Type} (a : A) : option A := Some a.

(** ** Calls on a mutable object *)

(** The outcome of a method call on an object of type [S]: the object after
    the call with the value returned, or the object as the exception left
    it. *)
Inductive outcome (S A : Type) : Type :=
| Returns (s : S) (a : A)
| Raises (s : S).

Arguments Returns {S A} s a.
Arguments Raises {S A} s.

(** The object after the call, and the call seen from a caller that does
    not handle the exception. *)
Definition after {S A : Type} (o : outcome S A) : S :=
  match o with
  | Returns s _ => s
  | Raises s => s
  end.

Definition returned {S A : Type} (o : outcome S A) : option (S * A) :=
  match o with
  | Returns s a => Some (s, a)
  | Raises _ => None
  end.

(** An expression evaluated within a method: if it raises, the object is
    left as it is at that point, [s]. *)
Definition evaluate {S A B : Type} (s : S) (e : option A) (k : A -> outcome S B)
  : outcome S B :=
  match e with
  | Some a => k a
  | None => Raises s
  end.

Notation "x <- e 'leaving' s ;; k" := (evaluate s e (fun x => k))
  (at level 61, e at next level, s at next level, right associativity).

(** ** Python floats *)

(** The operations of Python's [float] the source uses.  [fdiv] is [x / y]
    and raises [ZeroDivisionError] on a zero divisor; [int_div] is the true
    division [a / b] of two ints; [round_int] is [round(x)], which raises on
    NaN and on infinities; [round_nd n] is [round(x, n)]; [lit] reads a
    decimal literal. *)
Class PyFloat (F : Type) : Type := {
  lit : Q -> F;
  of_int : Z -> F;
  fadd : F -> F -> F;
  fsub : F -> F -> F;
  fmul : F -> F -> F;
  fdiv : F -> F -> option F;
  int_div : Z -> Z -> option F;
  flt : F -> F -> bool;
  fle : F -> F -> bool;
  fabs : F -> F;
  round_int : F -> option Z;
  round_nd : Z -> F -> F
}.

(** [max(a, b)] and [min(a, b)] of Python keep the first argument unless the
    second is strictly larger (smaller). *)
Definition py_max {F} `{PyFloat F} (a b : F) : F := if flt a b then b else a.
Definition py_min {F} `{PyFloat F} (a b : F) : F := if flt b a then b else a.

(** *** Rounding half to even *)

(** The integer nearest to [n / d] ([d > 0]), ties to the even one. *)
Definition round_half_even (n : Z) (d : positive) : Z :=
  let q := (n / Zpos d)%Z in
  let r := (n mod Zpos d)%Z in
  match (2 * r ?= Zpos d)%Z with
  | Lt => q
  | Gt => (q + 1)%Z
  | Eq => if Z.even q then q else (q + 1)%Z
  end.

Definition Qround_half_even (x : Q) : Z := round_half_even (Qnum x) (Qden x).

(** *** Exact rationals *)

Definition Qlt_bool (x y : Q) : bool := negb (Qle_bool y x).

Definition Qdiv_py (x y : Q) : option Q :=
  if Qeq_bool y 0 then None else Some (x / y).

Definition Qround_nd (n : Z) (x : Q) : Q :=
  inject_Z (Qround_half_even (x * inject_Z (10 ^ n))) / inject_Z (10 ^ n).

#[export] Instance Exact : PyFloat Q := {|
  lit := fun q => q;
  of_int := inject_Z;
  fadd := Qplus;
  fsub := Qminus;
  fmul := Qmult;
  fdiv := Qdiv_py;
  int_div := fun a b => Qdiv_py (inject_Z a) (inject_Z b);
  flt := Qlt_bool;
  fle := Qle_bool;
  fabs := Qabs;
  round_int := fun x => Some (Qround_half_even x);
  round_nd := Qround_nd
|}.

(** *** IEEE binary64 *)

Module B64.

(** The correctly rounded quotient of two integers, and the float nearest
    to a rational or to an integer. *)
Definition of_ratio (a : Z) (b : positive) : float :=
  match a with
  | Z0 => PrimFloat.zero
  | Zpos p => SF2Prim (SFdiv prec emax (S754_finite false p 0) (S754_finite false b 0))
  | Zneg p => SF2Prim (SFdiv prec emax (S754_finite true p 0) (S754_finite false b 0))
  end.

Definition of_Q (q : Q) : float := of_ratio (Qnum q) (Qden q).

Definition of_Z (z : Z) : float := SF2Prim (binary_normalize prec emax z 0 false).

(** The exact value of a finite float. *)
Definition to_Q (x : float) : option Q :=
  match Prim2SF x with
  | S754_zero _ => Some 0
  | S754_finite s m e =>
      let v := match e with
               | Zneg k => Zpos m # (2 ^ k)
               | _ => inject_Z (Zpos m * 2 ^ e)
               end in
      Some (if s then - v else v)
  | _ => None
  end.

(** Neither NaN nor an infinity. *)
Definition is_finite (x : float) : bool :=
  match Prim2SF x with
  | S754_zero _ | S754_finite _ _ _ => true
  | _ => false
  end.

Definition div (x y : float) : option float :=
  if PrimFloat.eqb y PrimFloat.zero then None else Some (PrimFloat.div x y).

(** [a / b] on ints: correctly rounded, [ZeroDivisionError] on [b = 0].
    (The [OverflowError] of a quotient beyond the float range, and of
    [float(n)] for such an [n], is not modelled: the result is an
    infinity.) *)
Definition int_div (a b : Z) : option float :=
  match b with
  | Z0 => None
  | Zpos p => Some (of_ratio a p)
  | Zneg p => Some (of_ratio (- a) p)
  end.

Definition round (x : float) : option Z :=
  option_map Qround_half_even (to_Q x).

(** [round(x, n)]: the exact value is rounded half to even at [n]
    decimals and read back as the nearest float; NaN and infinities are
    returned as they are, and a zero result keeps the sign of [x]. *)
Definition round_nd (n : Z) (x : float) : float :=
  match to_Q x with
  | None => x
  | Some q =>
      let r := Qround_half_even (q * inject_Z (10 ^ n)) in
      if (r =? 0)%Z then (if PrimFloat.get_sign x then PrimFloat.neg_zero else PrimFloat.zero)
      else of_Q (inject_Z r / inject_Z (10 ^ n))
  end.

End B64.

#[export] Instance Binary64 : PyFloat float := {|
  lit := B64.of_Q;
  of_int := B64.of_Z;
  fadd := PrimFloat.add;
  fsub := PrimFloat.sub;
  fmul := PrimFloat.mul;
  fdiv := B64.div;
  int_div := B64.int_div;
  flt := PrimFloat.ltb;
  fle := PrimFloat.leb;
  fabs := PrimFloat.abs;
  round_int := B64.round;
  round_nd := B64.round_nd
|}.


(** *** numpy reductions in binary64 *)

(** [float(np.sqrt(np.mean(frame**2)))].  numpy evaluates it on the float32
    array with pairwise summation; this rendition sums left to right in
    binary64.  The two agree wherever no rounding occurs and on the
    propagation of NaN and infinities. *)
Definition rms64 (frame : list float) : float :=
  PrimFloat.sqrt
    (PrimFloat.div
       (fold_left PrimFloat.add (map (fun x => PrimFloat.mul x x) frame) PrimFloat.zero)
       (B64.of_Z (Z.of_nat (length frame)))).

(** ** Loops, ranges, slices and sorting *)

(** A loop in the exception monad. *)
Fixpoint foldM {A B : Type} (f : A -> B -> option A) (a : A) (l : list B) : option A :=
  match l with
  | [] => ret a
  | b :: l' => a' <- f a b ;; foldM f a' l'
  end.

(** A list comprehension whose element expression may raise. *)
Fixpoint mapM {A B : Type} (f : A -> option B) (l : list A) : option (list B) :=
  match l with
  | [] => ret []
  | a :: l' => b <- f a ;; bs <- mapM f l' ;; ret (b :: bs)
  end.

(** A loop that appends the elements passing a test that may raise. *)
Fixpoint filterM {A : Type} (f : A -> option bool) (l : list A) : option (list A) :=
  match l with
  | [] => ret []
  | a :: l' => b <- f a ;; r <- filterM f l' ;; ret (if b then a :: r else r)
  end.

(** [a[-1]]: [IndexError] on the empty list. *)
Definition py_last {A : Type} (a : list A) : option A :=
  match a with
  | [] => None
  | x :: a' => Some (last a' x)
  end.

(** [sorted(l)]: a stable sort that compares with [<] only. *)
Fixpoint insert_sorted {F} `{PyFloat F} (x : F) (l : list F) : list F :=
  match l with
  | [] => [x]
  | y :: l' => if flt y x then y :: insert_sorted x l' else x :: y :: l'
  end.

Definition py_sorted {F} `{PyFloat F} (l : list F) : list F :=
  fold_right insert_sorted [] l.

(** *** Ranges and slices *)

(** [range(start, stop, step)] for a positive [step]. *)
Definition py_range (start stop step : Z) : list Z :=
  map (fun k => start + Z.of_nat k * step)%Z
      (seq 0 (Z.to_nat ((stop - start + step - 1) / step))).

(** [a[i : j]] for [0 <= i]. *)
Definition slice {A : Type} (a : list A) (i j : Z) : list A :=
  firstn (Z.to_nat (j - i)) (skipn (Z.to_nat i) a).

(** ** Onset detector ([onset_detector.py]) *)

Module Onset.
Section Detector.

Context {F : Type} `{PyFloat F}.

(** [float(np.sqrt(np.mean(frame**2)))], computed by numpy. *)
Variable np_rms : list F -> F.

Record RealtimeOnsetDetector : Type := {
  sample_rate : Z;
  min_interval_seconds : F;
  last_onset_time : option F;
  total_samples : Z;
  smoothed_rms : F;
  mean_rms : F;
  _above_threshold : bool;
  _peak_rms : F;
  _frame_count : Z
}.

(** The tuning attributes [__init__] sets and nothing changes. *)
Definition alpha_smooth : F := lit (3 # 10).
Definition alpha_mean_rise : F := lit (1 # 100).
Definition alpha_mean_fall : F := lit (5 # 100).
Definition threshold_ratio : F := lit (15 # 10).
Definition min_threshold : F := lit (1 # 1000).
Definition hysteresis_ratio : F := lit (4 # 10).
Definition _log_interval : Z := 200.

Definition frame_size : Z := 512.
Definition hop_size : Z := 256.

Definition init (sr : Z) (min_interval : F) : RealtimeOnsetDetector := {|
  sample_rate := sr;
  min_interval_seconds := min_interval;
  last_onset_time := None;
  total_samples := 0;
  smoothed_rms := lit 0;
  mean_rms := lit 0;
  _above_threshold := false;
  _peak_rms := lit 0;
  _frame_count := 0
|}.

(** Field updates. *)
Definition set_smoothed_rms (d : RealtimeOnsetDetector) (v : F) : RealtimeOnsetDetector :=
  {| sample_rate := sample_rate d; min_interval_seconds := min_interval_seconds d;
     last_onset_time := last_onset_time d; total_samples := total_samples d;
     smoothed_rms := v; mean_rms := mean_rms d;
     _above_threshold := _above_threshold d; _peak_rms := _peak_rms d;
     _frame_count := _frame_count d |}.

Definition set_mean_rms (d : RealtimeOnsetDetector) (v : F) : RealtimeOnsetDetector :=
  {| sample_rate := sample_rate d; min_interval_seconds := min_interval_seconds d;
     last_onset_time := last_onset_time d; total_samples := total_samples d;
     smoothed_rms := smoothed_rms d; mean_rms := v;
     _above_threshold := _above_threshold d; _peak_rms := _peak_rms d;
     _frame_count := _frame_count d |}.

Definition set_above_threshold (d : RealtimeOnsetDetector) (v : bool)
  : RealtimeOnsetDetector :=
  {| sample_rate := sample_rate d; min_interval_seconds := min_interval_seconds d;
     last_onset_time := last_onset_time d; total_samples := total_samples d;
     smoothed_rms := smoothed_rms d; mean_rms := mean_rms d;
     _above_threshold := v; _peak_rms := _peak_rms d;
     _frame_count := _frame_count d |}.

Definition set_peak_rms (d : RealtimeOnsetDetector) (v : F) : RealtimeOnsetDetector :=
  {| sample_rate := sample_rate d; min_interval_seconds := min_interval_seconds d;
     last_onset_time := last_onset_time d; total_samples := total_samples d;
     smoothed_rms := smoothed_rms d; mean_rms := mean_rms d;
     _above_threshold := _above_threshold d; _peak_rms := v;
     _frame_count := _frame_count d |}.

Definition set_frame_count (d : RealtimeOnsetDetector) (v : Z) : RealtimeOnsetDetector :=
  {| sample_rate := sample_rate d; min_interval_seconds := min_interval_seconds d;
     last_onset_time := last_onset_time d; total_samples := total_samples d;
     smoothed_rms := smoothed_rms d; mean_rms := mean_rms d;
     _above_threshold := _above_threshold d; _peak_rms := _peak_rms d;
     _frame_count := v |}.

Definition set_last_onset_time (d : RealtimeOnsetDetector) (v : option F)
  : RealtimeOnsetDetector :=
  {| sample_rate := sample_rate d; min_interval_seconds := min_interval_seconds d;
     last_onset_time := v; total_samples := total_samples d;
     smoothed_rms := smoothed_rms d; mean_rms := mean_rms d;
     _above_threshold := _above_threshold d; _peak_rms := _peak_rms d;
     _frame_count := _frame_count d |}.

Definition set_total_samples (d : RealtimeOnsetDetector) (v : Z) : RealtimeOnsetDetector :=
  {| sample_rate := sample_rate d; min_interval_seconds := min_interval_seconds d;
     last_onset_time := last_onset_time d; total_samples := v;
     smoothed_rms := smoothed_rms d; mean_rms := mean_rms d;
     _above_threshold := _above_threshold d; _peak_rms := _peak_rms d;
     _frame_count := _frame_count d |}.

(** The rising edge, once the gate is set: an onset at [pos / sample_rate]
    unless it follows the last one by less than [min_interval_seconds]. *)
Definition rising_edge (d : RealtimeOnsetDetector) (onsets : list F) (pos : Z)
  : option (RealtimeOnsetDetector * list F) :=
  onset_time <- int_div pos (sample_rate d) ;;
  let accept :=
    match last_onset_time d with
    | None => true
    | Some newest => fle (min_interval_seconds d) (fsub onset_time newest)
    end in
  if accept
  then ret (set_last_onset_time d (Some onset_time), onsets ++ [onset_time])
  else ret (d, onsets).

(** The exponential average of the RMS, and the asymmetric baseline: it
    rises slowly while the RMS is above it and falls faster otherwise. *)
Definition next_smoothed (d : RealtimeOnsetDetector) (rms : F) : F :=
  fadd (fmul alpha_smooth rms) (fmul (fsub (lit 1) alpha_smooth) (smoothed_rms d)).

Definition next_mean (d : RealtimeOnsetDetector) (rms : F) : F :=
  let alpha := if flt (mean_rms d) rms then alpha_mean_rise else alpha_mean_fall in
  fadd (fmul alpha rms) (fmul (fsub (lit 1) alpha) (mean_rms d)).

(** The threshold test of the loop body: the rising edge, the re-arming
    below the hysteresis level, or nothing. *)
Definition gate_step (d : RealtimeOnsetDetector) (onsets : list F) (pos : Z)
    (threshold : F) : option (RealtimeOnsetDetector * list F) :=
  if flt threshold (smoothed_rms d)
  then if negb (_above_threshold d)
       then rising_edge (set_above_threshold d true) onsets pos
       else ret (d, onsets)
  else if flt (smoothed_rms d) (fmul threshold hysteresis_ratio)
       then ret (set_above_threshold d false, onsets)
       else ret (d, onsets).

(** The end of the loop body: the baseline, the frame counter and the
    periodic diagnostic line, of which only the division can raise. *)
Definition baseline_step (d : RealtimeOnsetDetector) (rms : F) (pos : Z)
  : option RealtimeOnsetDetector :=
  let d' := set_frame_count (set_mean_rms d (next_mean d rms)) (_frame_count d + 1) in
  _ <- (if (_frame_count d' mod _log_interval =? 0)%Z
        then int_div pos (sample_rate d')
        else ret (lit 0)) ;;
  ret d'.

(** The body of the loop of [process_chunk] on one frame; [pos] is
    [self.total_samples + i], the frame's first sample counted from the
    start of the stream. *)
Definition frame_body (d : RealtimeOnsetDetector) (onsets : list F) (pos : Z)
    (frame : list F) : option (RealtimeOnsetDetector * list F) :=
  let rms := np_rms frame in
  let smoothed := next_smoothed d rms in
  let threshold := py_max min_threshold (fmul (mean_rms d) threshold_ratio) in
  let peak := if flt (_peak_rms d) rms then rms else _peak_rms d in
  r <- gate_step (set_peak_rms (set_smoothed_rms d smoothed) peak) onsets pos threshold ;;
  d' <- baseline_step (fst r) rms pos ;;
  ret (d', snd r).

(** One iteration, on the frame at offset [i] of [audio_chunk]. *)
Definition frame_step (audio_chunk : list F)
    (acc : RealtimeOnsetDetector * list F) (i : Z)
  : option (RealtimeOnsetDetector * list F) :=
  frame_body (fst acc) (snd acc) (total_samples (fst acc) + i)
             (slice audio_chunk i (i + frame_size)).

Definition chunk_offsets (audio_chunk : list F) : list Z :=
  py_range 0 (Z.of_nat (length audio_chunk) - frame_size + 1) hop_size.

Definition process_chunk (d : RealtimeOnsetDetector) (audio_chunk : list F)
  : option (RealtimeOnsetDetector * list F) :=
  '(d', onsets) <- foldM (frame_step audio_chunk) (d, []) (chunk_offsets audio_chunk) ;;
  ret (set_total_samples d' (total_samples d' + Z.of_nat (length audio_chunk)), onsets).

Definition reset (d : RealtimeOnsetDetector) : RealtimeOnsetDetector :=
  init (sample_rate d) (min_interval_seconds d).

(** Feeding chunks one at a time; the onsets of the calls, concatenated. *)
Fixpoint process_chunks (d : RealtimeOnsetDetector) (chunks : list (list F))
  : option (RealtimeOnsetDetector * list F) :=
  match chunks with
  | [] => ret (d, [])
  | c :: rest =>
      '(d1, o1) <- process_chunk d c ;;
      '(d2, o2) <- process_chunks d1 rest ;;
      ret (d2, o1 ++ o2)
  end.

(** What the threshold test keeps of the state it starts from. *)
Definition same_levels (d d' : RealtimeOnsetDetector) : Prop :=
  sample_rate d' = sample_rate d
  /\ smoothed_rms d' = smoothed_rms d
  /\ mean_rms d' = mean_rms d.

(** The result of a run with [o0] put before its onsets, and with the sample
    counter set to [v]. *)
Definition prepend (o0 : list F) (r : option (RealtimeOnsetDetector * list F))
  : option (RealtimeOnsetDetector * list F) :=
  option_map (fun x => (fst x, o0 ++ snd x)) r.

Definition at_total (v : Z) (r : option (RealtimeOnsetDetector * list F))
  : option (RealtimeOnsetDetector * list F) :=
  option_map (fun x => (set_total_samples (fst x) v, snd x)) r.

(** The frames the loop of [process_chunk] visits in a chunk fed after
    [base] samples: each with the position of its first sample in the
    stream. *)
Definition chunk_frames (base : Z) (audio_chunk : list F) : list (Z * list F) :=
  map (fun i => ((base + i)%Z, slice audio_chunk i (i + frame_size)))
      (chunk_offsets audio_chunk).

(** The frames of a sequence of chunks: those of each chunk, in turn. *)
Fixpoint stream_frames (base : Z) (chunks : list (list F)) : list (Z * list F) :=
  match chunks with
  | [] => []
  | c :: rest => chunk_frames base c ++ stream_frames (base + Z.of_nat (length c)) rest
  end.

(** The loop body run over a list of positioned frames. *)
Definition run_frames (acc : RealtimeOnsetDetector * list F) (frames : list (Z * list F))
  : option (RealtimeOnsetDetector * list F) :=
  foldM (fun a fr => frame_body (fst a) (snd a) (fst fr) (snd fr)) acc frames.

Definition total_length (chunks : list (list F)) : Z :=
  Z.of_nat (length (concat chunks)).

End Detector.

Arguments RealtimeOnsetDetector : clear implicits.

End Onset.

(** ** Metronome detector ([metronome_detector.py]) *)

Module Metronome.
Section Detector.

Context {F : Type} `{PyFloat F}.

(** [np.linalg.lstsq] on the design matrix with columns [indices] and ones:
    the least-squares slope and intercept, in that order.  The numerical
    routine is numpy's (LAPACK). *)
Variable np_lstsq : list Z -> list F -> F * F.

Record MetronomeDetector : Type := {
  onset_times : list F;
  locked : bool;
  bpm : option F;
  period : option F;
  reference_time : option F;
  click_times : list F;
  _click_indices : list Z;
  _clicks_since_refit : Z;
  _best_periodic_count : Z
}.

Definition MIN_PERIODIC_ONSETS : Z := 4.
Definition TOLERANCE_S : F := lit (25 # 1000).
Definition MIN_PERIOD_S : F := lit (25 # 100).
Definition MAX_PERIOD_S : F := lit (15 # 10).
Definition WINDOW_S : F := lit 6.
Definition REFIT_INTERVAL : Z := 4.

Definition init : MetronomeDetector := {|
  onset_times := [];
  locked := false;
  bpm := None;
  period := None;
  reference_time := None;
  click_times := [];
  _click_indices := [];
  _clicks_since_refit := 0;
  _best_periodic_count := 0
|}.

Definition len {A : Type} (l : list A) : Z := Z.of_nat (length l).

(** Field updates. *)
Definition set_onset_times (m : MetronomeDetector) (v : list F) : MetronomeDetector :=
  {| onset_times := v; locked := locked m; bpm := bpm m; period := period m;
     reference_time := reference_time m; click_times := click_times m;
     _click_indices := _click_indices m;
     _clicks_since_refit := _clicks_since_refit m;
     _best_periodic_count := _best_periodic_count m |}.

Definition set_locked (m : MetronomeDetector) (v : bool) : MetronomeDetector :=
  {| onset_times := onset_times m; locked := v; bpm := bpm m; period := period m;
     reference_time := reference_time m; click_times := click_times m;
     _click_indices := _click_indices m;
     _clicks_since_refit := _clicks_since_refit m;
     _best_periodic_count := _best_periodic_count m |}.

Definition set_period_reference (m : MetronomeDetector) (p r : F) : MetronomeDetector :=
  {| onset_times := onset_times m; locked := locked m; bpm := bpm m; period := Some p;
     reference_time := Some r; click_times := click_times m;
     _click_indices := _click_indices m;
     _clicks_since_refit := _clicks_since_refit m;
     _best_periodic_count := _best_periodic_count m |}.

Definition set_fit (m : MetronomeDetector) (p r b : F) : MetronomeDetector :=
  {| onset_times := onset_times m; locked := locked m; bpm := Some b; period := Some p;
     reference_time := Some r; click_times := click_times m;
     _click_indices := _click_indices m;
     _clicks_since_refit := _clicks_since_refit m;
     _best_periodic_count := _best_periodic_count m |}.

Definition set_clicks (m : MetronomeDetector) (ts : list F) (ks : list Z)
  : MetronomeDetector :=
  {| onset_times := onset_times m; locked := locked m; bpm := bpm m; period := period m;
     reference_time := reference_time m; click_times := ts;
     _click_indices := ks;
     _clicks_since_refit := _clicks_since_refit m;
     _best_periodic_count := _best_periodic_count m |}.

Definition set_clicks_since_refit (m : MetronomeDetector) (v : Z) : MetronomeDetector :=
  {| onset_times := onset_times m; locked := locked m; bpm := bpm m; period := period m;
     reference_time := reference_time m; click_times := click_times m;
     _click_indices := _click_indices m;
     _clicks_since_refit := v;
     _best_periodic_count := _best_periodic_count m |}.

Definition set_best_periodic_count (m : MetronomeDetector) (v : Z) : MetronomeDetector :=
  {| onset_times := onset_times m; locked := locked m; bpm := bpm m; period := period m;
     reference_time := reference_time m; click_times := click_times m;
     _click_indices := _click_indices m;
     _clicks_since_refit := _clicks_since_refit m;
     _best_periodic_count := v |}.

(** [MIN_PERIOD_S <= p <= MAX_PERIOD_S]. *)
Definition period_in_range (p : F) : bool :=
  fle MIN_PERIOD_S p && fle p MAX_PERIOD_S.

(** [_refit]: least squares of [click_times] against [_click_indices];
    the result is taken only when the fitted period is in range.  numpy
    raises when the two lists differ in length.  [period] and
    [reference_time] are assigned before the quotient [60.0 / period] is
    taken. *)
Definition _refit (m : MetronomeDetector) : outcome MetronomeDetector unit :=
  if (len (click_times m) <? 2)%Z then Returns m tt
  else if negb (len (_click_indices m) =? len (click_times m))%Z then Raises m
  else
    let '(new_period, new_reference) := np_lstsq (_click_indices m) (click_times m) in
    if period_in_range new_period
    then b <- fdiv (lit 60) new_period
              leaving set_period_reference m new_period new_reference ;;
         Returns (set_fit m new_period new_reference b) tt
    else Returns m tt.

(** [_compute_click_indices]: the list is built before it is assigned. *)
Definition _compute_click_indices (m : MetronomeDetector) (approx_period : F)
  : outcome MetronomeDetector unit :=
  match click_times m with
  | [] => Returns m tt
  | base :: _ =>
      ks <- mapM (fun t => q <- fdiv (fsub t base) approx_period ;; round_int q)
                 (click_times m)
            leaving m ;;
      Returns (set_clicks m (click_times m) ks) tt
  end.

(** The onsets of [times] within [TOLERANCE_S] of the grid through [ti]
    with the candidate [period]. *)
Definition aligned_onsets (times : list F) (ti period : F) : option (list F) :=
  filterM (fun t =>
             offset <- fdiv (fsub t ti) period ;;
             nearest_int <- round_int offset ;;
             let error_s := fmul (fabs (fsub offset (of_int nearest_int))) period in
             ret (fle error_s TOLERANCE_S))
          times.

(** The body of [for divisor in (1, 2, 3, 4)]; [best] is
    [(best_period, best_aligned)]. *)
Definition try_divisor (times : list F) (ti raw_interval : F)
    (best : option F * list F) (divisor : Z) : option (option F * list F) :=
  period <- fdiv raw_interval (of_int divisor) ;;
  if flt period MIN_PERIOD_S || flt MAX_PERIOD_S period then ret best
  else
    aligned <- aligned_onsets times ti period ;;
    if (len (snd best) <? len aligned)%Z then ret (Some period, aligned) else ret best.

(** The body of [for j in range(i + 1, len(times))], at [tj = times[j]]. *)
Definition try_pair (times : list F) (ti : F) (best : option F * list F) (tj : F)
  : option (option F * list F) :=
  foldM (try_divisor times ti (fsub tj ti)) best [1; 2; 3; 4]%Z.

(** [for i in range(len(times))] with its early [break]: [suffix] is
    [times[i:]]. *)
Fixpoint search (times suffix : list F) (best : option F * list F)
  : option (option F * list F) :=
  match suffix with
  | [] => ret best
  | ti :: rest =>
      best' <- foldM (try_pair times ti) best rest ;;
      if (6 <=? len (snd best'))%Z then ret best' else search times rest best'
  end.

(** [_try_lock].  The search changes nothing; [_best_periodic_count] is
    stored after it, [click_times] and [_click_indices] before the fit, and
    [locked] before the line that reports the lock. *)
Definition _try_lock (m : MetronomeDetector) : outcome MetronomeDetector bool :=
  newest <- py_last (onset_times m) leaving m ;;
  let cutoff := fsub newest WINDOW_S in
  let times := filter (fun t => fle cutoff t) (onset_times m) in
  if (len times <? MIN_PERIODIC_ONSETS)%Z then Returns m false
  else
    best <- search times times (None, []) leaving m ;;
    let best_aligned := snd best in
    let m1 := set_best_periodic_count m (len best_aligned) in
    match fst best with
    | None => Returns m1 false
    | Some bp =>
        (* the progress line divides 60.0 by best_period *)
        _ <- fdiv (lit 60) bp leaving m1 ;;
        if (MIN_PERIODIC_ONSETS <=? len best_aligned)%Z
        then
          let m2 := set_clicks m1 (py_sorted best_aligned) (_click_indices m1) in
          match _compute_click_indices m2 bp with
          | Raises m3 => Raises m3
          | Returns m3 _ =>
              match _refit m3 with
              | Raises m4 => Raises m4
              | Returns m4 _ =>
                  let m5 := set_locked m4 true in
                  (* the LOCKED line formats bpm, period and reference_time:
                     TypeError when the first fit was rejected *)
                  match bpm m5, period m5, reference_time m5 with
                  | Some _, Some _, Some _ => Returns m5 true
                  | _, _, _ => Raises m5
                  end
              end
          end
        else Returns m1 false
    end.

(** [add_onset]. *)
Definition add_onset (m : MetronomeDetector) (time_seconds : F)
  : outcome MetronomeDetector bool :=
  let m1 := set_onset_times m (onset_times m ++ [time_seconds]) in
  if locked m1 then Returns m1 false
  else if (len (onset_times m1) <? MIN_PERIODIC_ONSETS)%Z then Returns m1 false
  else _try_lock m1.

(** The two rejection tests of [track_onset]. *)
Definition error_ms (p offset : F) (nearest_int : Z) : F :=
  fmul (fmul (fabs (fsub offset (of_int nearest_int))) p) (lit 1000).

Definition track_tolerance_ms (p : F) : F :=
  py_min (fmul p (of_int 250)) (lit 50).

Definition too_close (m : MetronomeDetector) (p onset_time : F) : bool :=
  match py_last (click_times m) with
  | None => false
  | Some newest => flt (fsub onset_time newest) (fmul p (lit (1 # 2)))
  end.

(** The state after a click is recorded, before the periodic refit. *)
Definition record_click (m : MetronomeDetector) (onset_time : F) (nearest_int : Z)
  : MetronomeDetector :=
  set_clicks_since_refit
    (set_clicks m (click_times m ++ [onset_time]) (_click_indices m ++ [nearest_int]))
    (_clicks_since_refit m + 1).

(** [track_onset]. *)
Definition track_onset (m : MetronomeDetector) (onset_time : F)
  : outcome MetronomeDetector bool :=
  if negb (locked m) then Returns m false
  else
    match period m, reference_time m with
    | Some p, Some r =>
        offset <- fdiv (fsub onset_time r) p leaving m ;;
        nearest_int <- round_int offset leaving m ;;
        if flt (track_tolerance_ms p) (error_ms p offset nearest_int) then Returns m false
        else if too_close m p onset_time then Returns m false
        else
          let m1 := record_click m onset_time nearest_int in
          if (REFIT_INTERVAL <=? _clicks_since_refit m1)%Z
          then match _refit (set_clicks_since_refit m1 0) with
               | Returns m2 _ => Returns m2 true
               | Raises m2 => Raises m2
               end
          else Returns m1 true
    | _, _ => Returns m false
    end.

Definition total_onsets (m : MetronomeDetector) : Z := len (onset_times m).

Definition click_count (m : MetronomeDetector) : Z :=
  if locked m then len (click_times m) else _best_periodic_count m.

Definition grid_updated (m : MetronomeDetector) : bool :=
  (_clicks_since_refit m =? 0)%Z && (MIN_PERIODIC_ONSETS <? len (click_times m))%Z.

End Detector.

Arguments MetronomeDetector : clear implicits.

End Metronome.

(** *** Ordinary least squares in closed form *)

(** The slope and intercept numpy's [lstsq] approximates, by the normal
    equations; [(0, 0)] on a degenerate design. *)
Definition ols {F} `{PyFloat F} (indices : list Z) (times : list F) : F * F :=
  let n := of_int (Z.of_nat (length indices)) in
  let xs := map of_int indices in
  let sum := fold_left fadd in
  let sx := sum xs (lit 0) in
  let sy := sum times (lit 0) in
  let sxx := sum (map (fun x => fmul x x) xs) (lit 0) in
  let sxy := sum (map (fun xy => fmul (fst xy) (snd xy)) (combine xs times)) (lit 0) in
  match fdiv (fsub (fmul n sxy) (fmul sx sy)) (fsub (fmul n sxx) (fmul sx sx)) with
  | None => (lit 0, lit 0)
  | Some slope =>
      match fdiv (fsub sy (fmul slope sx)) n with
      | None => (lit 0, lit 0)
      | Some intercept => (slope, intercept)
      end
  end.

(** Feeding a list of onsets to [add_onset], and to [track_onset], by a
    caller that stops at the first exception. *)
Definition feed {F} `{PyFloat F} (lstsq : list Z -> list F -> F * F)
    (m : Metronome.MetronomeDetector F) (ts : list F)
  : option (Metronome.MetronomeDetector F) :=
  foldM (fun m t => option_map fst (returned (Metronome.add_onset lstsq m t))) m ts.

Definition track_all {F} `{PyFloat F} (lstsq : list Z -> list F -> F * F)
    (m : Metronome.MetronomeDetector F) (ts : list F)
  : option (Metronome.MetronomeDetector F) :=
  foldM (fun m t => option_map fst (returned (Metronome.track_onset lstsq m t))) m ts.

Definition or_else {A : Type} (o : option A) (a : A) : A :=
  match o with
  | Some x => x
  | None => a
  end.


(** ** Grid aligner ([grid_aligner.py]) *)

Module Grid.
Section Aligner.

Context {F : Type} `{PyFloat F}.

Record GridConfig : Type := {
  bpm : F;
  grid_resolution : string;
  reference_time : F
}.

Definition is_16th (g : GridConfig) : bool := String.eqb (grid_resolution g) "16th".

Definition beat_duration (g : GridConfig) : option F := fdiv (lit 60) (bpm g).

Definition grid_interval (g : GridConfig) : option F :=
  bd <- beat_duration g ;;
  if is_16th g then fdiv bd (of_int 4) else fdiv bd (of_int 2).

Definition subdivisions_per_beat (g : GridConfig) : Z := if is_16th g then 4 else 2.
Definition subdivisions_per_bar (g : GridConfig) : Z := 4 * subdivisions_per_beat g.

(** [round(relative / self.grid_interval)]. *)
Definition grid_index (g : GridConfig) (onset_time : F) : option Z :=
  let relative := fsub onset_time (reference_time g) in
  gi <- grid_interval g ;;
  q <- fdiv relative gi ;;
  round_int q.

(** [compute_deviation]: [(deviation_ms, nearest_grid_time, bar,
    beat_position)].  [//] and [%] on ints are Python's floored division
    and its remainder, which are [Z.div] and [Z.modulo]. *)
Definition compute_deviation (g : GridConfig) (onset_time : F)
  : option (F * F * Z * F) :=
  k <- grid_index g onset_time ;;
  gi <- grid_interval g ;;
  let nearest_grid_time := fadd (reference_time g) (fmul (of_int k) gi) in
  let deviation_ms := fmul (fsub onset_time nearest_grid_time) (lit 1000) in
  let bar := (k / subdivisions_per_bar g + 1)%Z in
  let position_in_bar := (k mod subdivisions_per_bar g)%Z in
  in_beat <- int_div position_in_bar (subdivisions_per_beat g) ;;
  let beat_position := fadd (lit 1) in_beat in
  ret (round_nd 1 deviation_ms, nearest_grid_time, bar, round_nd 2 beat_position).

End Aligner.

Arguments GridConfig : clear implicits.

End Grid.

(** ** Online classification ([calibration.py]) *)

Module Calibration.
Section Classifier.

Context {F : Type} `{PyFloat F}.

(** What librosa and numpy compute on arrays: the MFCC means and the
    spectral centroid of a window, [np.max(np.abs(w))], [np.sum(w ** 2)],
    [np.linalg.norm] and [np.dot].  They stand for the calls that return:
    librosa refuses a window that holds a NaN or an infinite sample, and
    that refusal is not part of the model. *)
Variable librosa_mfcc_mean : list F -> Z -> list F.
Variable librosa_centroid_mean : list F -> Z -> F.
Variable np_max_abs : list F -> F.
Variable np_sum_sq : list F -> F.
Variable np_norm : list F -> F.
Variable np_dot : list F -> list F -> F.

Definition WINDOW_SAMPLES : Z := 2048.

Record Features : Type := {
  mfcc : list F;
  spectral_centroid : F;
  energy_decay : F
}.

(** A stored profile; [p_energy_decay] is read with [.get(..., 0.5)]. *)
Record Profile : Type := {
  mfcc_mean : list F;
  p_spectral_centroid : F;
  p_energy_decay : option F;
  onset_count : Z
}.

(** The calibration dict: [None] is a key that is absent or holds a falsy
    value. *)
Record CalibrationData : Type := {
  metronome : option Profile;
  guitar : option Profile
}.

(** [_extract_window_features]: the inner [None] is the silent window. *)
Definition _extract_window_features (window : list F) (sample_rate : Z)
  : option (option Features) :=
  if flt (np_max_abs window) (lit (1 # 1000000)) then ret None
  else
    let mfcc_mean := librosa_mfcc_mean window sample_rate in
    let centroid_mean := librosa_centroid_mean window sample_rate in
    let mid := (Z.of_nat (length window) / 2)%Z in
    let first_energy := np_sum_sq (slice window 0 mid) in
    let second_energy := np_sum_sq (skipn (Z.to_nat mid) window) in
    decay <- (if flt (lit (1 # 10000000000)) first_energy
              then fdiv second_energy first_energy
              else ret (lit 1)) ;;
    ret (Some {| mfcc := mfcc_mean;
                 spectral_centroid := centroid_mean;
                 energy_decay := decay |}).

(** [_cosine_similarity]. *)
Definition _cosine_similarity (a b : list F) : option F :=
  let norm_a := np_norm a in
  let norm_b := np_norm b in
  if flt norm_a (lit (1 # 10000000000)) || flt norm_b (lit (1 # 10000000000))
  then ret (lit 0)
  else fdiv (np_dot a b) (fmul norm_a norm_b).

Definition decay_of (p : Profile) : F :=
  match p_energy_decay p with
  | Some d => d
  | None => lit (1 # 2)
  end.

(** [classify_onset]. *)
Definition classify_onset (audio_buffer : list F) (onset_sample sample_rate : Z)
    (calibration : CalibrationData) : option string :=
  let stop := (onset_sample + WINDOW_SAMPLES)%Z in
  if (Z.of_nat (length audio_buffer) <? stop)%Z || (onset_sample <? 0)%Z
  then ret "guitar"%string
  else
    let window := slice audio_buffer onset_sample stop in
    features <- _extract_window_features window sample_rate ;;
    match features with
    | None => ret "guitar"%string
    | Some features =>
        match metronome calibration, guitar calibration with
        | Some met_profile, Some gtr_profile =>
            let onset_mfcc := mfcc features in
            sim_met <- _cosine_similarity onset_mfcc (mfcc_mean met_profile) ;;
            sim_gtr <- _cosine_similarity onset_mfcc (mfcc_mean gtr_profile) ;;
            let onset_decay := energy_decay features in
            let decay_dist_met := fabs (fsub onset_decay (decay_of met_profile)) in
            let decay_dist_gtr := fabs (fsub onset_decay (decay_of gtr_profile)) in
            let score_met := fsub sim_met (fmul (lit (3 # 10)) decay_dist_met) in
            let score_gtr := fsub sim_gtr (fmul (lit (3 # 10)) decay_dist_gtr) in
            ret (if flt score_gtr score_met then "click" else "guitar")%string
        | _, _ => ret "guitar"%string
        end
    end.

End Classifier.

Arguments Features : clear implicits.
Arguments Profile : clear implicits.
Arguments CalibrationData : clear implicits.

End Calibration.

(** ** The post-lock decision of the pipeline ([pipeline.py]) *)

Module Pipeline.
Section Decision.

Context {F : Type} `{PyFloat F}.

Variable np_lstsq : list Z -> list F -> F * F.

(** [l.pop()]: [IndexError] on the empty list. *)
Definition py_pop {A : Type} (l : list A) : option (list A) :=
  match l with
  | [] => None
  | _ => Some (removelast l)
  end.

(** The spectral override of [process_audio]: the click [track_onset] has
    just recorded is taken back. *)
Definition undo_click (md : Metronome.MetronomeDetector F)
  : option (Metronome.MetronomeDetector F) :=
  ts <- py_pop (Metronome.click_times md) ;;
  ks <- py_pop (Metronome._click_indices md) ;;
  ret (Metronome.set_clicks_since_refit
         (Metronome.set_clicks md ts ks)
         (Z.max 0 (Metronome._clicks_since_refit md - 1))).

(** The branch of [process_audio] for an onset after the lock, up to the
    decision [is_click].  [spectral_class] is the result of
    [_classify_onset_spectral] when a calibration is present. *)
Definition post_lock_decision (md : Metronome.MetronomeDetector F) (onset_time : F)
    (spectral_class : option string)
  : option (Metronome.MetronomeDetector F * bool) :=
  '(md1, timing_is_click) <- returned (Metronome.track_onset np_lstsq md onset_time) ;;
  match spectral_class with
  | Some c =>
      if timing_is_click && String.eqb c "guitar"
      then md2 <- undo_click md1 ;; ret (md2, false)
      else if negb timing_is_click && String.eqb c "click"
      then ret (md1, false)
      else ret (md1, timing_is_click)
  | None => ret (md1, timing_is_click)
  end.

(** The states of the metronome detector a session can go through: the
    pipeline calls [add_onset] and [track_onset], and takes a click back.
    Every call has returned: the pipeline handles no exception, and one
    that is raised ends the session. *)
Inductive reachable : Metronome.MetronomeDetector F -> Prop :=
| reach_init : reachable Metronome.init
| reach_add_onset (m m' : Metronome.MetronomeDetector F) (t : F) (b : bool) :
    reachable m -> Metronome.add_onset np_lstsq m t = Returns m' b -> reachable m'
| reach_track_onset (m m' : Metronome.MetronomeDetector F) (t : F) (b : bool) :
    reachable m -> Metronome.track_onset np_lstsq m t = Returns m' b -> reachable m'
| reach_undo_click (m m' : Metronome.MetronomeDetector F) :
    reachable m -> undo_click m = Some m' -> reachable m'.

End Decision.
End Pipeline.

(** ** Concrete inputs *)

(** The detector the pipeline creates, and chunks of constant samples. *)
Definition detector0 : Onset.RealtimeOnsetDetector float :=
  Onset.init 44100 (lit (5 # 100)).

Definition ones (n : nat) : list float := repeat PrimFloat.one n.
Definition zeros (n : nat) : list float := repeat PrimFloat.zero n.

(** numpy's reductions on binary64 lists, left to right. *)
Definition max_abs64 (w : list float) : float :=
  fold_left (fun m x => if PrimFloat.ltb m (PrimFloat.abs x) then PrimFloat.abs x else m)
            w PrimFloat.zero.

Definition sum_sq64 (w : list float) : float :=
  fold_left PrimFloat.add (map (fun x => PrimFloat.mul x x) w) PrimFloat.zero.

Definition norm64 (v : list float) : float := PrimFloat.sqrt (sum_sq64 v).

Definition dot64 (a b : list float) : float :=
  fold_left PrimFloat.add
            (map (fun xy => PrimFloat.mul (fst xy) (snd xy)) (combine a b))
            PrimFloat.zero.

(** Stand-ins for librosa's MFCC and spectral centroid, where their values
    do not matter. *)
Definition flat_mfcc (w : list float) (sample_rate : Z) : list float := zeros 13.
Definition flat_centroid (w : list float) (sample_rate : Z) : float := PrimFloat.zero.

(** A window whose first half is silent, and two profiles with zero MFCC
    means that differ in energy decay. *)
Definition late_burst : list float := zeros 1024 ++ ones 1024.

Definition zero_mfcc_profiles : Calibration.CalibrationData float := {|
  Calibration.metronome :=
    Some {| Calibration.mfcc_mean := zeros 13;
            Calibration.p_spectral_centroid := PrimFloat.zero;
            Calibration.p_energy_decay := Some PrimFloat.one;
            Calibration.onset_count := 0 |};
  Calibration.guitar :=
    Some {| Calibration.mfcc_mean := zeros 13;
            Calibration.p_spectral_centroid := PrimFloat.zero;
            Calibration.p_energy_decay := Some PrimFloat.zero;
            Calibration.onset_count := 0 |}
|}.

(** A metronome at 120 BPM heard from 0.5 s on: the detector after the
    fourth click, and after three more clicks have been tracked. *)
Definition locked_at_120 : Metronome.MetronomeDetector Q :=
  Eval vm_compute in
    or_else (feed ols Metronome.init [1 # 2; 1; 3 # 2; 2]) Metronome.init.

Definition three_tracked : Metronome.MetronomeDetector Q :=
  Eval vm_compute in
    or_else (track_all ols locked_at_120 [5 # 2; 3; 7 # 2]) Metronome.init.

(** The same detector after one tracked click; and, from [three_tracked],
    after a late click at 4.02 s has triggered the refit, and after the
    pipeline has taken that click back. *)
Definition tracked_once : Metronome.MetronomeDetector Q :=
  Eval vm_compute in or_else (track_all ols locked_at_120 [5 # 2]) Metronome.init.

Definition refitted : Metronome.MetronomeDetector Q :=
  Eval vm_compute in or_else (track_all ols three_tracked [402 # 100]) Metronome.init.

Definition undone : Metronome.MetronomeDetector Q :=
  Eval vm_compute in or_else (Pipeline.undo_click refitted) Metronome.init.

(** The grid of that metronome in eighth notes. *)
Definition grid_at_120 : Grid.GridConfig Q :=
  {| Grid.bpm := 120; Grid.grid_resolution := "8th"; Grid.reference_time := 1 # 2 |}.



(** Four clicks of which the last comes 10 ms early: their least-squares
    period is 0.247 s. *)
Definition early_fourth : Metronome.MetronomeDetector Q :=
  Metronome.set_clicks Metronome.init [0; 25 # 100; 50 # 100; 74 # 100] [0; 1; 2; 3]%Z.



(** The state a NaN leaves behind. *)
Definition poisoned (d : Onset.RealtimeOnsetDetector float) : Prop :=
  Onset.smoothed_rms d = PrimFloat.nan /\ Onset.mean_rms d = PrimFloat.nan.

(** The invariant of the metronome detector, in the comparisons of the
    float type: a period, once set, passed the test
    [0.25 <= period <= 1.5]; and a locked detector has one index for every
    click. *)
Definition click_invariant {F} `{PyFloat F} (m : Metronome.MetronomeDetector F) : Prop :=
  (forall p, Metronome.period m = Some p ->
     fle (lit (25 # 100)) p = true /\ fle p (lit (15 # 10)) = true)
  /\ (Metronome.locked m = true ->
      length (Metronome.click_times m) = length (Metronome._click_indices m)).





(** ** Conversions and equality of floats *)

(** [int(x)] truncates toward zero and raises on NaN and on infinities;
    [x == y] is the equality of the float type (in binary64 NaN differs from
    itself and the two zeros are equal). *)
Class PyFloatConv (F : Type) : Type := {
  py_int : F -> option Z;
  feq : F -> F -> bool
}.

Definition Qtruncate (x : Q) : Z := Z.quot (Qnum x) (Zpos (Qden x)).

#[export] Instance ExactConv : PyFloatConv Q := {|
  py_int := fun x => Some (Qtruncate x);
  feq := Qeq_bool
|}.

#[export] Instance Binary64Conv : PyFloatConv float := {|
  py_int := fun x => option_map Qtruncate (B64.to_Q x);
  feq := PrimFloat.eqb
|}.

(** [a[i : j]] for any ints: a negative bound counts from the end, and both
    are clamped to the list. *)
Definition py_slice {A : Type} (a : list A) (i j : Z) : list A :=
  let n := Z.of_nat (length a) in
  let clamp := fun k => if (k <? 0)%Z then Z.max 0 (k + n) else Z.min k n in
  slice a (clamp i) (clamp j).

(** ** The supplementary classifier ([onset_classifier.py]) *)

Module Classifier.
Section Features.

Context {F : Type} `{PyFloat F}.

(** [np.sum(w ** 2)], computed by numpy. *)
Variable np_sum_sq : list F -> F.

(** [energy_decay_ratio].  The division is reached only with a first-half
    energy that is not below 1e-10. *)
Definition energy_decay_ratio (window : list F) : option F :=
  let mid := (Z.of_nat (length window) / 2)%Z in
  let first_half := np_sum_sq (slice window 0 mid) in
  let second_half := np_sum_sq (skipn (Z.to_nat mid) window) in
  if flt first_half (lit (1 # 10000000000)) then ret (lit 1)
  else fdiv second_half first_half.

End Features.
End Classifier.

(** ** Offline calibration ([calibration.py], [extract_profile]) *)

Module Offline.
Section Profile.

Context {F : Type} `{PyFloat F} `{PyFloatConv F}.

(** librosa's onset detector (onset times in seconds), the feature
    routines of [_extract_window_features], and [np.mean] over the rows of
    a matrix and over a vector. *)
Variable librosa_onset_detect : list F -> Z -> list F.
Variable librosa_mfcc_mean : list F -> Z -> list F.
Variable librosa_centroid_mean : list F -> Z -> F.
Variable np_max_abs : list F -> F.
Variable np_sum_sq : list F -> F.
Variable np_mean_rows : list (list F) -> list F.
Variable np_mean : list F -> F.

(** The profile returned when no onset gives a usable window. *)
Definition zero_profile : Calibration.Profile F := {|
  Calibration.mfcc_mean := repeat (lit 0) 13;
  Calibration.p_spectral_centroid := lit 0;
  Calibration.p_energy_decay := Some (lit 0);
  Calibration.onset_count := 0
|}.

(** The body of [for t in onset_times]; [acc] holds the features appended
    so far ([all_mfcc], [all_centroid] and [all_decay] grow together). *)
Definition window_features (audio : list F) (sample_rate : Z)
    (acc : list (Calibration.Features F)) (t : F)
  : option (list (Calibration.Features F)) :=
  start <- py_int (fmul t (of_int sample_rate)) ;;
  let stop := (start + Calibration.WINDOW_SAMPLES)%Z in
  if (Z.of_nat (length audio) <? stop)%Z then ret acc
  else
    features <- Calibration._extract_window_features
                  librosa_mfcc_mean librosa_centroid_mean np_max_abs np_sum_sq
                  (py_slice audio start stop) sample_rate ;;
    match features with
    | Some f => ret (acc ++ [f])
    | None => ret acc
    end.

(** [extract_profile]. *)
Definition extract_profile (audio : list F) (sample_rate : Z)
  : option (Calibration.Profile F) :=
  let onset_times := librosa_onset_detect audio sample_rate in
  if (Z.of_nat (length onset_times) =? 0)%Z then ret zero_profile
  else
    all <- foldM (window_features audio sample_rate) [] onset_times ;;
    if (Z.of_nat (length all) =? 0)%Z then ret zero_profile
    else
      ret {| Calibration.mfcc_mean := np_mean_rows (map (@Calibration.mfcc F) all);
             Calibration.p_spectral_centroid :=
               np_mean (map (@Calibration.spectral_centroid F) all);
             Calibration.p_energy_decay :=
               Some (np_mean (map (@Calibration.energy_decay F) all));
             Calibration.onset_count := Z.of_nat (length all) |}.

End Profile.
End Offline.

(** ** The session ([pipeline.py], [AudioPipeline]) *)

Module Session.
Section Pipeline.

Context {F : Type} `{PyFloat F} `{PyFloatConv F}.

Variable np_rms : list F -> F.
Variable np_lstsq : list Z -> list F -> F * F.
Variable librosa_mfcc_mean : list F -> Z -> list F.
Variable librosa_centroid_mean : list F -> Z -> F.
Variable np_max_abs : list F -> F.
Variable np_sum_sq : list F -> F.
Variable np_norm : list F -> F.
Variable np_dot : list F -> list F -> F.

Record NoteEvent : Type := {
  time_seconds : F;
  nearest_grid_time : F;
  deviation_ms : F;
  event_type : string;
  pitch : option string;
  bar : Z;
  beat_position : F
}.

(** The dicts [process_audio] returns, by their ["type"]. *)
Inductive Event : Type :=
| click_detected (time : F) (click_count total_onsets : Z)
| grid_established (bpm : F) (reference_time : option F)
| note_event (time deviation_ms : F) (bar : Z) (beat_position : F) (is_on_time : bool).

(** The [GridConfig] the pipeline builds: its [bpm] and [reference_time]
    are the attributes of the metronome detector, which are [None] until a
    fit is taken; its resolution is the pipeline's. *)
Record GridArgs : Type := {
  g_bpm : option F;
  g_reference_time : option F
}.

Record AudioPipeline : Type := {
  grid_resolution : string;
  sample_rate : Z;
  timing_threshold_ms : F;
  calibration : option (Calibration.CalibrationData F);
  audio_buffer : list F;
  grid_config : option GridArgs;
  note_events : list NoteEvent;
  metronome_detector : Metronome.MetronomeDetector F;
  onset_detector : Onset.RealtimeOnsetDetector F;
  _total_onset_count : Z
}.

(** [__init__]; a [calibration] that is [None] or an empty dict is
    [None]. *)
Definition init (grid_resolution : string) (sample_rate : Z) (timing_threshold_ms : F)
    (calibration : option (Calibration.CalibrationData F)) : AudioPipeline := {|
  grid_resolution := grid_resolution;
  sample_rate := sample_rate;
  timing_threshold_ms := timing_threshold_ms;
  calibration := calibration;
  audio_buffer := [];
  grid_config := None;
  note_events := [];
  metronome_detector := Metronome.init;
  onset_detector := Onset.init sample_rate (lit (5 # 100));
  _total_onset_count := 0
|}.

(** Field updates. *)
Definition set_audio_buffer (p : AudioPipeline) (v : list F) : AudioPipeline :=
  {| grid_resolution := grid_resolution p; sample_rate := sample_rate p;
     timing_threshold_ms := timing_threshold_ms p; calibration := calibration p;
     audio_buffer := v; grid_config := grid_config p; note_events := note_events p;
     metronome_detector := metronome_detector p; onset_detector := onset_detector p;
     _total_onset_count := _total_onset_count p |}.

Definition set_grid_config (p : AudioPipeline) (v : option GridArgs) : AudioPipeline :=
  {| grid_resolution := grid_resolution p; sample_rate := sample_rate p;
     timing_threshold_ms := timing_threshold_ms p; calibration := calibration p;
     audio_buffer := audio_buffer p; grid_config := v; note_events := note_events p;
     metronome_detector := metronome_detector p; onset_detector := onset_detector p;
     _total_onset_count := _total_onset_count p |}.

Definition set_note_events (p : AudioPipeline) (v : list NoteEvent) : AudioPipeline :=
  {| grid_resolution := grid_resolution p; sample_rate := sample_rate p;
     timing_threshold_ms := timing_threshold_ms p; calibration := calibration p;
     audio_buffer := audio_buffer p; grid_config := grid_config p; note_events := v;
     metronome_detector := metronome_detector p; onset_detector := onset_detector p;
     _total_onset_count := _total_onset_count p |}.

Definition set_metronome_detector (p : AudioPipeline)
    (v : Metronome.MetronomeDetector F) : AudioPipeline :=
  {| grid_resolution := grid_resolution p; sample_rate := sample_rate p;
     timing_threshold_ms := timing_threshold_ms p; calibration := calibration p;
     audio_buffer := audio_buffer p; grid_config := grid_config p;
     note_events := note_events p;
     metronome_detector := v; onset_detector := onset_detector p;
     _total_onset_count := _total_onset_count p |}.

Definition set_onset_detector (p : AudioPipeline)
    (v : Onset.RealtimeOnsetDetector F) : AudioPipeline :=
  {| grid_resolution := grid_resolution p; sample_rate := sample_rate p;
     timing_threshold_ms := timing_threshold_ms p; calibration := calibration p;
     audio_buffer := audio_buffer p; grid_config := grid_config p;
     note_events := note_events p;
     metronome_detector := metronome_detector p; onset_detector := v;
     _total_onset_count := _total_onset_count p |}.

Definition set_total_onset_count (p : AudioPipeline) (v : Z) : AudioPipeline :=
  {| grid_resolution := grid_resolution p; sample_rate := sample_rate p;
     timing_threshold_ms := timing_threshold_ms p; calibration := calibration p;
     audio_buffer := audio_buffer p; grid_config := grid_config p;
     note_events := note_events p;
     metronome_detector := metronome_detector p; onset_detector := onset_detector p;
     _total_onset_count := v |}.

(** The properties [is_grid_established] and [bpm]. *)
Definition is_grid_established (p : AudioPipeline) : bool :=
  Metronome.locked (metronome_detector p).

Definition bpm (p : AudioPipeline) : option F := Metronome.bpm (metronome_detector p).

(** [a != b] on two attributes that hold a float or [None]. *)
Definition opt_ne (a b : option F) : bool :=
  match a, b with
  | Some x, Some y => negb (feq x y)
  | None, None => false
  | _, _ => true
  end.

(** [_sync_grid]. *)
Definition _sync_grid (p : AudioPipeline) : AudioPipeline :=
  let md := metronome_detector p in
  match grid_config p, Metronome.period md, Metronome.reference_time md with
  | Some gc, Some _, Some _ =>
      if opt_ne (g_bpm gc) (Metronome.bpm md)
         || opt_ne (g_reference_time gc) (Metronome.reference_time md)
      then set_grid_config p (Some {| g_bpm := Metronome.bpm md;
                                      g_reference_time := Metronome.reference_time md |})
      else p
  | _, _, _ => p
  end.

(** [_classify_onset_spectral]. *)
Definition _classify_onset_spectral (p : AudioPipeline) (onset_time : F) : option string :=
  match calibration p with
  | None => ret "unknown"%string
  | Some cal =>
      onset_sample <- py_int (fmul onset_time (of_int (sample_rate p))) ;;
      Calibration.classify_onset librosa_mfcc_mean librosa_centroid_mean
        np_max_abs np_sum_sq np_norm np_dot
        (audio_buffer p) onset_sample (sample_rate p) cal
  end.

(** [_is_note_expected_near]; the product with a period that is [None]
    raises. *)
Definition _is_note_expected_near (p : AudioPipeline) (onset_time : F) : option bool :=
  match py_last (note_events p) with
  | None => ret false
  | Some newest =>
      match Metronome.period (metronome_detector p) with
      | None => None
      | Some period =>
          ret (flt (fsub onset_time (time_seconds newest)) (fmul period (lit 2)))
      end
  end.

(** [self.grid_config.compute_deviation(onset_time)]: [AttributeError]
    without a grid, [TypeError] on a BPM or reference time that is
    [None]. *)
Definition grid_deviation (p : AudioPipeline) (onset_time : F)
  : option (F * F * Z * F) :=
  gc <- grid_config p ;;
  b <- g_bpm gc ;;
  r <- g_reference_time gc ;;
  Grid.compute_deviation
    {| Grid.bpm := b; Grid.grid_resolution := grid_resolution p;
       Grid.reference_time := r |} onset_time.

(** The scoring of an onset against the grid, in both branches of
    [process_audio] that append a note. *)
Definition score_note (p : AudioPipeline) (events : list Event) (onset_time : F)
  : option (AudioPipeline * list Event) :=
  '(deviation, grid_time, bar_no, beat_pos) <- grid_deviation p onset_time ;;
  let note := {| time_seconds := onset_time;
                 nearest_grid_time := grid_time;
                 deviation_ms := deviation;
                 event_type := "note";
                 pitch := None;
                 bar := bar_no;
                 beat_position := beat_pos |} in
  ret (set_note_events p (note_events p ++ [note]),
       events ++ [note_event onset_time deviation bar_no beat_pos
                    (fle (fabs deviation) (timing_threshold_ms p))]).

(** The pre-lock branch of the loop of [process_audio]. *)
Definition before_lock (p : AudioPipeline) (events : list Event) (onset_time : F)
  : option (AudioPipeline * list Event) :=
  '(md, just_locked) <- returned (Metronome.add_onset np_lstsq (metronome_detector p)
                                     onset_time) ;;
  let p1 := set_metronome_detector p md in
  let events1 := events ++ [click_detected onset_time (Metronome.click_count md)
                              (Metronome.total_onsets md)] in
  if just_locked
  then
    let p2 := set_grid_config p1 (Some {| g_bpm := Metronome.bpm md;
                                          g_reference_time := Metronome.reference_time md |}) in
    (* round(None, 1) raises *)
    b <- Metronome.bpm md ;;
    ret (p2, events1 ++ [grid_established (round_nd 1 b) (Metronome.reference_time md)])
  else ret (p1, events1).

(** The post-lock branch.  The spectral class depends on the audio buffer
    and the calibration only, so it is computed ahead of
    [Pipeline.post_lock_decision], which calls [track_onset] and applies
    the override. *)
Definition after_lock (p : AudioPipeline) (events : list Event) (onset_time : F)
  : option (AudioPipeline * list Event) :=
  spectral_class <- match calibration p with
                    | Some _ => option_map Some (_classify_onset_spectral p onset_time)
                    | None => ret None
                    end ;;
  '(md, is_click) <- Pipeline.post_lock_decision np_lstsq (metronome_detector p)
                       onset_time spectral_class ;;
  let p1 := _sync_grid (set_metronome_detector p md) in
  if is_click
  then
    let events1 := events ++ [click_detected onset_time (Metronome.click_count md)
                                (_total_onset_count p1)] in
    near <- _is_note_expected_near p1 onset_time ;;
    if near then score_note p1 events1 onset_time else ret (p1, events1)
  else score_note p1 events onset_time.

(** The body of [for onset_time in onsets]. *)
Definition handle_onset (acc : AudioPipeline * list Event) (onset_time : F)
  : option (AudioPipeline * list Event) :=
  let p := set_total_onset_count (fst acc) (_total_onset_count (fst acc) + 1) in
  if negb (is_grid_established p)
  then before_lock p (snd acc) onset_time
  else after_lock p (snd acc) onset_time.

(** [process_audio]. *)
Definition process_audio (p : AudioPipeline) (chunk : list F)
  : option (AudioPipeline * list Event) :=
  let p0 := set_audio_buffer p (audio_buffer p ++ chunk) in
  '(d, onsets) <- Onset.process_chunk np_rms (onset_detector p0) chunk ;;
  foldM handle_onset (set_onset_detector p0 d, []) onsets.

(** A session: the chunks of the stream, in turn; the events of the calls,
    concatenated. *)
Fixpoint process_stream (p : AudioPipeline) (chunks : list (list F))
  : option (AudioPipeline * list Event) :=
  match chunks with
  | [] => ret (p, [])
  | c :: rest =>
      '(p1, e1) <- process_audio p c ;;
      '(p2, e2) <- process_stream p1 rest ;;
      ret (p2, e1 ++ e2)
  end.

(** *** The report *)

(** numpy on arrays: [np.mean], [np.std], [np.median], [np.max],
    [np.argmax], and the slope [np.polyfit(x, y, 1)[0]], which raises on
    arrays of different lengths. *)
Variable np_mean : list F -> F.
Variable np_std : list F -> F.
Variable np_median : list F -> F.
Variable np_max : list F -> F.
Variable np_argmax : list F -> Z.
Variable np_polyfit_slope : list F -> list F -> option F.

(** [a - b] on one-dimensional arrays, with numpy's broadcasting: equal
    lengths, or one of the two of length 1. *)
Definition np_sub (a b : list F) : option (list F) :=
  if (Z.of_nat (length a) =? Z.of_nat (length b))%Z
  then ret (map (fun xy => fsub (fst xy) (snd xy)) (combine a b))
  else match a, b with
       | [x], _ => ret (map (fun y => fsub x y) b)
       | _, [y] => ret (map (fun x => fsub x y) a)
       | _, _ => None
       end.

(** [int(np.sum(a <= bound))]. *)
Definition count_within (bound : F) (a : list F) : Z :=
  Z.of_nat (length (filter (fun x => fle x bound) a)).

(** [round(count / total * 100, 1)]. *)
Definition percent (count total : Z) : option F :=
  ratio <- int_div count total ;;
  ret (round_nd 1 (fmul ratio (of_int 100))).

(** The dict of [_compute_metronome_stats]: the error entry, or the
    statistics. *)
Inductive MetronomeStats : Type :=
| too_few_clicks (total_clicks : Z)
| click_stats (total_clicks : Z)
    (expected_interval_ms jitter_ms mean_error_ms max_error_ms drift_ms_per_beat
       tight_percent ok_percent : F).

(** [_compute_metronome_stats]. *)
Definition _compute_metronome_stats (p : AudioPipeline) : option MetronomeStats :=
  let md := metronome_detector p in
  let click_times := Metronome.click_times md in
  let click_indices := Metronome._click_indices md in
  match Metronome.period md, Metronome.reference_time md with
  | Some period, Some reference_time =>
      if (Z.of_nat (length click_times) <? 3)%Z
      then ret (too_few_clicks (Z.of_nat (length click_times)))
      else
        let indices := map of_int click_indices in
        let expected_ms := fmul period (lit 1000) in
        let expected_times := map (fun i => fadd reference_time (fmul i period)) indices in
        diffs <- np_sub click_times expected_times ;;
        let errors_ms := map (fun x => fmul x (lit 1000)) diffs in
        let abs_errors := map fabs errors_ms in
        drift <- (if (4 <=? Z.of_nat (length click_times))%Z
                  then slope <- np_polyfit_slope indices errors_ms ;;
                       ret (round_nd 2 slope)
                  else ret (lit 0)) ;;
        let tight_count := count_within (lit 2) abs_errors in
        let ok_count := count_within (lit 5) abs_errors in
        tight <- percent tight_count (Z.of_nat (length click_times)) ;;
        ok <- percent ok_count (Z.of_nat (length click_times)) ;;
        ret (click_stats (Z.of_nat (length click_times))
               (round_nd 1 expected_ms)
               (round_nd 2 (np_std errors_ms))
               (round_nd 2 (np_mean abs_errors))
               (round_nd 1 (np_max abs_errors))
               drift tight ok)
  | _, _ => ret (too_few_clicks (Z.of_nat (length click_times)))
  end.

(** [l[i]] for a Python int [i]: a negative index counts from the end,
    [IndexError] out of range. *)
Definition py_index {A : Type} (l : list A) (i : Z) : option A :=
  let n := Z.of_nat (length l) in
  if (0 <=? i)%Z then nth_error l (Z.to_nat i)
  else if (- n <=? i)%Z then nth_error l (Z.to_nat (n + i))
  else None.

(** The ["stats"] entry of the report; [worst_deviation_position] holds
    the bar and the beat position its string is formatted from. *)
Record Stats : Type := {
  total_notes : Z;
  mean_absolute_deviation_ms : F;
  mean_signed_deviation_ms : F;
  std_deviation_ms : F;
  median_deviation_ms : F;
  worst_deviation_ms : F;
  worst_deviation_position : Z * F;
  accuracy_percent : F
}.

(** The dict [generate_report] returns: one of its three error reports
    (the second with the two counts of its message), or the session
    report. *)
Inductive Report : Type :=
| no_audio_recorded
| no_metronome_detected (total_onsets click_count : Z)
| no_guitar_notes
| session_report (bpm : F) (grid_resolution : string) (total_bars : Z)
    (events : list NoteEvent) (click_times : list F) (stats : Stats)
    (metronome_stats : MetronomeStats).

(** [generate_report].  The call of [save_session], which writes the audio
    buffer to a file and changes nothing in the pipeline, is left out. *)
Definition generate_report (p : AudioPipeline) : option Report :=
  if (Z.of_nat (length (audio_buffer p)) =? 0)%Z then ret no_audio_recorded
  else if negb (is_grid_established p)
  then ret (no_metronome_detected (_total_onset_count p)
              (Metronome.click_count (metronome_detector p)))
  else if (Z.of_nat (length (note_events p)) =? 0)%Z then ret no_guitar_notes
  else
    let events := note_events p in
    let deviations := map deviation_ms events in
    let abs_devs := map fabs deviations in
    let worst_idx := np_argmax abs_devs in
    let on_time := count_within (timing_threshold_ms p) abs_devs in
    b <- Metronome.bpm (metronome_detector p) ;;
    newest <- py_last events ;;
    worst <- py_index deviations worst_idx ;;
    worst_note <- py_index events worst_idx ;;
    accuracy <- percent on_time (Z.of_nat (length events)) ;;
    metronome_stats <- _compute_metronome_stats p ;;
    ret (session_report (round_nd 1 b) (grid_resolution p) (bar newest) events
           (Metronome.click_times (metronome_detector p))
           {| total_notes := Z.of_nat (length events);
              mean_absolute_deviation_ms := round_nd 1 (np_mean abs_devs);
              mean_signed_deviation_ms := round_nd 1 (np_mean deviations);
              std_deviation_ms := round_nd 1 (np_std deviations);
              median_deviation_ms := round_nd 1 (np_median deviations);
              worst_deviation_ms := worst;
              worst_deviation_position := (bar worst_note, beat_position worst_note);
              accuracy_percent := accuracy |}
           metronome_stats).

End Pipeline.

Arguments NoteEvent : clear implicits.
Arguments Event : clear implicits.
Arguments GridArgs : clear implicits.
Arguments AudioPipeline : clear implicits.
Arguments MetronomeStats : clear implicits.
Arguments Stats : clear implicits.
Arguments Report : clear implicits.

End Session.

(** ** Notions used by the further properties *)

(** Successive onsets at least [gap] apart; [prev] is the onset before the
    first of [ts], if any. *)
Fixpoint spaced {F} `{PyFloat F} (gap : F) (prev : option F) (ts : list F) : Prop :=
  match ts with
  | [] => True
  | t :: rest =>
      match prev with
      | None => True
      | Some p => fle gap (fsub t p) = true
      end
      /\ spaced gap (Some t) rest
  end.

(** The newest onset after [ts] have followed [prev]. *)
Definition newest_of {A : Type} (prev : option A) (ts : list A) : option A :=
  match py_last ts with
  | Some t => Some t
  | None => prev
  end.

(** What one frame of the loop of [process_chunk] does to the onset list and
    to the configuration: nothing, or one onset at [pos / sample_rate] that
    passed the minimum-interval test. *)
Definition frame_effect {F} `{PyFloat F} (d d' : Onset.RealtimeOnsetDetector F)
    (o o' : list F) (pos : Z) : Prop :=
  Onset.sample_rate d' = Onset.sample_rate d
  /\ Onset.min_interval_seconds d' = Onset.min_interval_seconds d
  /\ ((o' = o /\ Onset.last_onset_time d' = Onset.last_onset_time d)
      \/ exists t,
           int_div pos (Onset.sample_rate d) = Some t
           /\ o' = o ++ [t]
           /\ Onset.last_onset_time d' = Some t
           /\ match Onset.last_onset_time d with
              | None => True
              | Some p => fle (Onset.min_interval_seconds d) (fsub t p) = true
              end).

(** A level meter on exact samples: the largest magnitude of the frame. *)
Definition peak_level (frame : list Q) : Q :=
  fold_left (fun m x => Qmax m (Qabs x)) frame 0.

(** The detector [Onset.init 44100 0.05] on exact samples. *)
Definition detectorQ : Onset.RealtimeOnsetDetector Q := Onset.init 44100 (5 # 100).

(** The fit of the metronome detector: before the lock nothing is fitted
    and no click is stored; after it, period, reference time and BPM are
    set, the period is in range and the BPM is [60 / period]. *)
Definition blank_fit {F} `{PyFloat F} (m : Metronome.MetronomeDetector F) : Prop :=
  Metronome.period m = None
  /\ Metronome.bpm m = None
  /\ Metronome.reference_time m = None
  /\ Metronome.click_times m = []
  /\ Metronome._click_indices m = []
  /\ Metronome._clicks_since_refit m = 0%Z
  /\ (0 <= Metronome._best_periodic_count m <= Metronome.total_onsets m)%Z.

Definition fit_set {F} `{PyFloat F} (m : Metronome.MetronomeDetector F) : Prop :=
  exists p r b,
    Metronome.period m = Some p
    /\ Metronome.reference_time m = Some r
    /\ Metronome.bpm m = Some b
    /\ Metronome.period_in_range p = true
    /\ fdiv (lit 60) p = Some b.

Definition fit_invariant {F} `{PyFloat F} (m : Metronome.MetronomeDetector F) : Prop :=
  if Metronome.locked m then fit_set m else blank_fit m.

(** The aligned onsets the periodicity search holds in [best] are among the
    candidate times. *)
Definition aligned_within {A : Type} (times : list A) (best : option A * list A) : Prop :=
  (forall x, In x (snd best) -> In x times)
  /\ (length (snd best) <= length times)%nat.

(** The grid the pipeline holds agrees with the fit of the detector: each
    field is the detector's attribute, or compares equal to it. *)
Definition grid_synced {F} `{PyFloat F} `{PyFloatConv F}
    (gc : Session.GridArgs F) (md : Metronome.MetronomeDetector F) : Prop :=
  (Session.g_bpm gc = Metronome.bpm md
   \/ Session.opt_ne (Session.g_bpm gc) (Metronome.bpm md) = false)
  /\ (Session.g_reference_time gc = Metronome.reference_time md
      \/ Session.opt_ne (Session.g_reference_time gc) (Metronome.reference_time md) = false).

(** The invariant of a session: the metronome detector is in a state a
    session can reach; before the lock there is no grid and no note, and
    the detector has logged every onset; from the lock on there is a grid,
    in agreement with the detector; and the onset detector has counted the
    samples of the buffer, at the sample rate of the pipeline. *)
Definition session_invariant {F} `{PyFloat F} `{PyFloatConv F}
    (np_lstsq : list Z -> list F -> F * F) (p : Session.AudioPipeline F) : Prop :=
  Pipeline.reachable np_lstsq (Session.metronome_detector p)
  /\ (if Metronome.locked (Session.metronome_detector p)
      then exists gc, Session.grid_config p = Some gc
                      /\ grid_synced gc (Session.metronome_detector p)
      else Session.grid_config p = None
           /\ Session.note_events p = []
           /\ Metronome.total_onsets (Session.metronome_detector p)
              = Session._total_onset_count p)
  /\ Onset.total_samples (Session.onset_detector p)
     = Z.of_nat (length (Session.audio_buffer p))
  /\ Onset.sample_rate (Session.onset_detector p) = Session.sample_rate p.

Definition is_note_event {F : Type} (e : Session.Event F) : bool :=
  match e with
  | Session.note_event _ _ _ _ _ => true
  | _ => false
  end.

(** The [is_on_time] flag of a [note_event], and the [note_event] that is
    sent for a stored note under a timing threshold. *)
Definition is_on_time_note {F : Type} (e : Session.Event F) : bool :=
  match e with
  | Session.note_event _ _ _ _ ok => ok
  | _ => false
  end.

Definition note_message {F} `{PyFloat F} (threshold : F) (n : Session.NoteEvent F)
  : Session.Event F :=
  Session.note_event (Session.time_seconds n) (Session.deviation_ms n)
    (Session.bar n) (Session.beat_position n)
    (fle (fabs (Session.deviation_ms n)) threshold).

(** What an event of [process_audio] tells about the call that returned
    it: [n0] is the onset count before the call, [p'] the pipeline after
    it, [was_locked] the lock before it. *)
Definition event_sound {F} `{PyFloat F} (was_locked : bool) (n0 : Z)
    (p' : Session.AudioPipeline F) (e : Session.Event F) : Prop :=
  match e with
  | Session.click_detected _ _ n => (n0 < n <= Session._total_onset_count p')%Z
  | Session.grid_established _ r =>
      was_locked = false /\ Session.is_grid_established p' = true /\ r <> None
  | Session.note_event _ _ _ _ _ => Session.is_grid_established p' = true
  end.

(** The attributes of the pipeline the loop over the onsets never
    assigns. *)
Definition same_setup {F : Type} (p p' : Session.AudioPipeline F) : Prop :=
  Session.grid_resolution p' = Session.grid_resolution p
  /\ Session.sample_rate p' = Session.sample_rate p
  /\ Session.timing_threshold_ms p' = Session.timing_threshold_ms p
  /\ Session.calibration p' = Session.calibration p
  /\ Session.audio_buffer p' = Session.audio_buffer p
  /\ Session.onset_detector p' = Session.onset_detector p.

(** ** Further concrete inputs *)

(** The detector locked at 120 BPM, on binary64 onsets. *)
Definition locked64_at_120 : Metronome.MetronomeDetector float :=
  Eval vm_compute in
    or_else (feed ols Metronome.init (map B64.of_Q [1 # 2; 1; 3 # 2; 2])) Metronome.init.

(** The detector of [locked_at_120] one onset before the lock. *)
Definition three_heard : Metronome.MetronomeDetector Q :=
  Eval vm_compute in
    or_else (feed ols Metronome.init [1 # 2; 1; 3 # 2]) Metronome.init.

(** Reductions on exact vectors: the sum of squares, the dot product, the
    mean, the column means of a matrix, and a norm (the 1-norm; the
    Euclidean norm of a rational vector need not be rational). *)
Definition sum_sq_Q (w : list Q) : Q := fold_left Qplus (map (fun x => x * x) w) 0.

Definition dot_Q (a b : list Q) : Q :=
  fold_left Qplus (map (fun xy => fst xy * snd xy) (combine a b)) 0.

Definition norm1_Q (v : list Q) : Q := fold_left Qplus (map Qabs v) 0.

Definition mean_Q (l : list Q) : Q :=
  fold_left Qplus l 0 / inject_Z (Z.of_nat (length l)).

Definition mean_rows_Q (rows : list (list Q)) : list Q :=
  match rows with
  | [] => []
  | r :: _ => map (fun j => mean_Q (map (fun row => nth j row 0) rows)) (seq 0 (length r))
  end.

(** Stand-ins for librosa on exact samples, where the values do not
    matter: constant MFCC means and centroid, and one onset at time 0. *)
Definition flat_mfcc_Q (w : list Q) (sample_rate : Z) : list Q := repeat 0 13.
Definition flat_centroid_Q (w : list Q) (sample_rate : Z) : Q := 0.
Definition onset_at_zero (audio : list Q) (sample_rate : Z) : list Q := [0].

(** A chunk of [n] exact samples of amplitude [a]. *)
Definition level (a : Q) (n : nat) : list Q := repeat a n.

(** A calibration dict without profiles, and a session with it in which
    the grid of [locked_at_120] is established and no audio has been
    received since. *)
Definition no_profiles : Calibration.CalibrationData Q :=
  {| Calibration.metronome := None; Calibration.guitar := None |}.

Definition established_at_120 : Session.AudioPipeline Q := {|
  Session.grid_resolution := "8th";
  Session.sample_rate := 44100;
  Session.timing_threshold_ms := 30;
  Session.calibration := Some no_profiles;
  Session.audio_buffer := [];
  Session.grid_config := Some {| Session.g_bpm := Some 120;
                                 Session.g_reference_time := Some (1 # 2) |};
  Session.note_events := [];
  Session.metronome_detector := locked_at_120;
  Session.onset_detector := detectorQ;
  Session._total_onset_count := 4
|}.

(** More reductions on exact vectors: the maximum, the index of the first
    maximum, the median, the slope of the least-squares line, and a measure
    of spread (the mean absolute deviation; the standard deviation of
    rationals need not be rational). *)
Definition max_Q (l : list Q) : Q :=
  match l with
  | [] => 0
  | x :: rest => fold_left Qmax rest x
  end.

Fixpoint argmax_from (best : Q) (best_index next_index : Z) (l : list Q) : Z :=
  match l with
  | [] => best_index
  | x :: rest =>
      if Qlt_bool best x then argmax_from x next_index (next_index + 1) rest
      else argmax_from best best_index (next_index + 1) rest
  end.

Definition argmax_Q (l : list Q) : Z :=
  match l with
  | [] => 0
  | x :: rest => argmax_from x 0 1 rest
  end.

Definition median_Q (l : list Q) : Q :=
  let s := py_sorted l in
  let n := length s in
  if Nat.even n then (nth (n / 2 - 1) s 0 + nth (n / 2) s 0) / 2 else nth (n / 2) s 0.

Definition spread_Q (l : list Q) : Q :=
  mean_Q (map (fun x => Qabs (x - mean_Q l)) l).

Definition slope_Q (x y : list Q) : option Q :=
  if negb (length x =? length y)%nat then None
  else
    let n := inject_Z (Z.of_nat (length x)) in
    let sum := fun l => fold_left Qplus l 0 in
    Qdiv_py (n * dot_Q x y - sum x * sum y) (n * dot_Q x x - sum x * sum x).

(** A practice session at 3072 samples per second.  Every chunk starts with
    256 samples of amplitude 0.004, which only its first frame sees, and is
    silent after that.  The first four chunks are half a second long: four
    clicks at 0, 0.5, 1 and 1.5 s.  The fifth and the sixth start at 2.25 s
    and at 8571 / 3072 s, between the clicks: two notes. *)
Definition click_chunk (n : nat) : list Q := level (4 # 1000) 256 ++ level 0 (n - 256).

Definition practice_stream : list (list Q) :=
  [click_chunk 1536; click_chunk 1536; click_chunk 1536; click_chunk 2304;
   click_chunk 1659; click_chunk 1536].

Definition practice_run : option (Session.AudioPipeline Q * list (Session.Event Q)) :=
  Eval vm_compute in
    Session.process_stream peak_level ols flat_mfcc_Q flat_centroid_Q peak_level
      sum_sq_Q norm1_Q dot_Q (Session.init "8th" 3072 30 None) practice_stream.

Definition practice_session : Session.AudioPipeline Q :=
  Eval vm_compute in or_else (option_map fst practice_run) (Session.init "8th" 3072 30 None).

Definition practice_events : list (Session.Event Q) :=
  Eval vm_compute in or_else (option_map snd practice_run) [].

(** * Properties *)

Unset Implicit Arguments.

(** ** Loops in the exception monad *)

Lemma foldM_inv {A B : Type} (P : A -> Prop) (f : A -> B -> option A) (l : list B) :
  (forall a b a', P a -> f a b = Some a' -> P a') ->
  forall a a', P a -> foldM f a l = Some a' -> P a'.
Proof.
  intros Step. induction l as [|b l IH]; intros a a' Pa E.
  - inversion E; subst; exact Pa.
  - cbn in E. destruct (f a b) as [a1|] eqn:Fa; cbn [bind] in E; [|discriminate].
    eapply IH; [eapply Step; eassumption | exact E].
Qed.

Lemma foldM_app {A B : Type} (f : A -> B -> option A) (l1 l2 : list B) (a : A) :
  foldM f a (l1 ++ l2) = bind (foldM f a l1) (fun a' => foldM f a' l2).
Proof.
  revert a; induction l1 as [|b l1 IH]; intros a; simpl; [reflexivity|].
  destruct (f a b) as [a'|]; simpl; [apply IH | reflexivity].
Qed.

(** ** The onset detector *)

Section OnsetFacts.

Context {F : Type} `{PyFloat F}.
Variable np_rms : list F -> F.

Local Abbreviation detector := (Onset.RealtimeOnsetDetector F).
Local Abbreviation frame_body := (Onset.frame_body np_rms).
Local Abbreviation run_frames := (Onset.run_frames np_rms).

Arguments Onset.frame_body : simpl never.
Arguments Onset.gate_step : simpl never.
Arguments Onset.baseline_step : simpl never.
Arguments Onset.rising_edge : simpl never.

Lemma rising_edge_onsets (d : detector) (o0 o : list F) (pos : Z) :
  Onset.rising_edge d (o0 ++ o) pos = Onset.prepend o0 (Onset.rising_edge d o pos).
Proof.
  unfold Onset.rising_edge, Onset.prepend.
  destruct (int_div pos (Onset.sample_rate d)) as [t|]; simpl; [|reflexivity].
  destruct (match Onset.last_onset_time d with
            | Some newest => fle (Onset.min_interval_seconds d) (fsub t newest)
            | None => true
            end); simpl; rewrite ?app_assoc; reflexivity.
Qed.

Lemma gate_step_onsets (d : detector) (o0 o : list F) (pos : Z) (th : F) :
  Onset.gate_step d (o0 ++ o) pos th = Onset.prepend o0 (Onset.gate_step d o pos th).
Proof.
  unfold Onset.gate_step.
  destruct (flt th (Onset.smoothed_rms d)).
  - destruct (negb (Onset._above_threshold d)); [apply rising_edge_onsets | reflexivity].
  - destruct (flt (Onset.smoothed_rms d) (fmul th Onset.hysteresis_ratio)); reflexivity.
Qed.

Lemma frame_body_onsets (d : detector) (o0 o : list F) (pos : Z) (fr : list F) :
  frame_body d (o0 ++ o) pos fr = Onset.prepend o0 (frame_body d o pos fr).
Proof.
  unfold Onset.frame_body. rewrite gate_step_onsets. unfold Onset.prepend.
  destruct (Onset.gate_step _ o pos _) as [[d2 o2]|]; simpl; [|reflexivity].
  destruct (Onset.baseline_step d2 (np_rms fr) pos); reflexivity.
Qed.

Lemma rising_edge_total (d : detector) (o : list F) (pos v : Z) :
  Onset.rising_edge (Onset.set_total_samples d v) o pos
  = Onset.at_total v (Onset.rising_edge d o pos).
Proof.
  unfold Onset.rising_edge, Onset.at_total; simpl.
  destruct (int_div pos (Onset.sample_rate d)) as [t|]; simpl; [|reflexivity].
  destruct (match Onset.last_onset_time d with
            | Some newest => fle (Onset.min_interval_seconds d) (fsub t newest)
            | None => true
            end); reflexivity.
Qed.

Lemma gate_step_total (d : detector) (o : list F) (pos v : Z) (th : F) :
  Onset.gate_step (Onset.set_total_samples d v) o pos th
  = Onset.at_total v (Onset.gate_step d o pos th).
Proof.
  unfold Onset.gate_step; simpl.
  destruct (flt th (Onset.smoothed_rms d)).
  - destruct (negb (Onset._above_threshold d)); [|reflexivity].
    apply (rising_edge_total (Onset.set_above_threshold d true)).
  - destruct (flt (Onset.smoothed_rms d) (fmul th Onset.hysteresis_ratio)); reflexivity.
Qed.

Lemma baseline_step_total (d : detector) (rms : F) (pos v : Z) :
  Onset.baseline_step (Onset.set_total_samples d v) rms pos
  = option_map (fun x => Onset.set_total_samples x v) (Onset.baseline_step d rms pos).
Proof.
  unfold Onset.baseline_step; simpl.
  destruct (if ((Onset._frame_count d + 1) mod Onset._log_interval =? 0)%Z
            then int_div pos (Onset.sample_rate d) else ret (lit 0)); reflexivity.
Qed.

Lemma frame_body_total (d : detector) (o : list F) (pos : Z) (fr : list F) (v : Z) :
  frame_body (Onset.set_total_samples d v) o pos fr = Onset.at_total v (frame_body d o pos fr).
Proof.
  unfold Onset.frame_body; simpl.
  change (Onset.set_peak_rms (Onset.set_smoothed_rms (Onset.set_total_samples d v) ?a) ?b)
    with (Onset.set_total_samples (Onset.set_peak_rms (Onset.set_smoothed_rms d a) b) v).
  rewrite gate_step_total. unfold Onset.at_total.
  destruct (Onset.gate_step _ o pos _) as [[d2 o2]|]; simpl; [|reflexivity].
  rewrite baseline_step_total.
  destruct (Onset.baseline_step d2 (np_rms fr) pos); reflexivity.
Qed.

Lemma set_total_samples_id (d : detector) :
  Onset.set_total_samples d (Onset.total_samples d) = d.
Proof. destruct d; reflexivity. Qed.

Lemma run_frames_cons (d : detector) (o : list F) (pos : Z) (fr : list F)
    (frames : list (Z * list F)) :
  run_frames (d, o) ((pos, fr) :: frames)
  = bind (frame_body d o pos fr) (fun a => run_frames a frames).
Proof. reflexivity. Qed.

Lemma run_frames_app (l1 l2 : list (Z * list F)) (a : detector * list F) :
  run_frames a (l1 ++ l2) = bind (run_frames a l1) (fun a' => run_frames a' l2).
Proof. apply foldM_app. Qed.

Lemma run_frames_onsets (frames : list (Z * list F)) (d : detector) (o0 o : list F) :
  run_frames (d, o0 ++ o) frames = Onset.prepend o0 (run_frames (d, o) frames).
Proof.
  revert d o; induction frames as [|[pos fr] frames IH]; intros d o.
  - reflexivity.
  - rewrite !run_frames_cons, frame_body_onsets. unfold Onset.prepend at 1.
    destruct (frame_body d o pos fr) as [[d1 o1]|]; simpl; [apply IH | reflexivity].
Qed.

Lemma run_frames_total (frames : list (Z * list F)) (d : detector) (o : list F) (v : Z) :
  run_frames (Onset.set_total_samples d v, o) frames = Onset.at_total v (run_frames (d, o) frames).
Proof.
  revert d o; induction frames as [|[pos fr] frames IH]; intros d o.
  - reflexivity.
  - rewrite !run_frames_cons, frame_body_total. unfold Onset.at_total at 1.
    destruct (frame_body d o pos fr) as [[d1 o1]|]; simpl; [apply IH | reflexivity].
Qed.

Lemma frame_body_keeps_total (d d' : detector) (o o' : list F) (pos : Z) (fr : list F) :
  frame_body d o pos fr = Some (d', o') ->
  Onset.total_samples d' = Onset.total_samples d.
Proof.
  intros E.
  pose proof (frame_body_total d o pos fr (Onset.total_samples d)) as T.
  rewrite set_total_samples_id, E in T; simpl in T.
  inversion T as [T']. rewrite T' at 1. reflexivity.
Qed.

(** The loop of [process_chunk] is the run over the chunk's frames. *)
Lemma loop_is_run (chunk : list F) (offs : list Z) (d : detector) (o : list F) :
  foldM (Onset.frame_step np_rms chunk) (d, o) offs
  = run_frames (d, o)
      (map (fun i => ((Onset.total_samples d + i)%Z,
                      slice chunk i (i + Onset.frame_size))) offs).
Proof.
  revert d o; induction offs as [|i offs IH]; intros d o; [reflexivity|].
  cbn [map foldM]. rewrite run_frames_cons.
  unfold Onset.frame_step at 1; cbn [fst snd].
  destruct (frame_body d o (Onset.total_samples d + i) _) as [[d1 o1]|] eqn:E; simpl;
    [|reflexivity].
  rewrite IH, (frame_body_keeps_total _ _ _ _ _ _ E). reflexivity.
Qed.

Lemma process_chunk_frames (d : detector) (chunk : list F) :
  Onset.process_chunk np_rms d chunk
  = bind (run_frames (d, []) (Onset.chunk_frames (Onset.total_samples d) chunk))
      (fun r => ret (Onset.set_total_samples (fst r)
                       (Onset.total_samples d + Z.of_nat (length chunk)), snd r)).
Proof.
  unfold Onset.process_chunk, Onset.chunk_frames. rewrite loop_is_run.
  destruct (run_frames _ _) as [[d1 o1]|] eqn:E; simpl; [|reflexivity].
  enough (Onset.total_samples d1 = Onset.total_samples d) as -> by reflexivity.
  pose proof (run_frames_total
                (map (fun i => ((Onset.total_samples d + i)%Z,
                                slice chunk i (i + Onset.frame_size)))
                     (Onset.chunk_offsets chunk)) d [] (Onset.total_samples d)) as T.
  rewrite set_total_samples_id, E in T; simpl in T.
  inversion T as [T']. rewrite T' at 1. reflexivity.
Qed.

Lemma total_length_cons (c : list F) (rest : list (list F)) :
  Onset.total_length (c :: rest) = (Z.of_nat (length c) + Onset.total_length rest)%Z.
Proof.
  unfold Onset.total_length; simpl. rewrite length_app. lia.
Qed.

Lemma process_chunks_run (chunks : list (list F)) (d : detector) :
  Onset.process_chunks np_rms d chunks
  = bind (run_frames (d, []) (Onset.stream_frames (Onset.total_samples d) chunks))
      (fun r => ret (Onset.set_total_samples (fst r)
                       (Onset.total_samples d + Onset.total_length chunks), snd r)).
Proof.
  revert d; induction chunks as [|c rest IH]; intros d.
  - simpl. unfold Onset.total_length; simpl.
    rewrite Z.add_0_r, set_total_samples_id. reflexivity.
  - cbn [Onset.process_chunks Onset.stream_frames].
    rewrite process_chunk_frames, run_frames_app.
    destruct (run_frames (d, []) (Onset.chunk_frames (Onset.total_samples d) c))
      as [[d1 o1]|]; simpl; [|reflexivity].
    rewrite IH; cbn [Onset.total_samples Onset.set_total_samples].
    rewrite run_frames_total.
    replace (d1, o1) with (d1, o1 ++ []) by (rewrite app_nil_r; reflexivity).
    rewrite run_frames_onsets.
    destruct (run_frames (d1, []) _) as [[d2 o2]|]; simpl; [|reflexivity].
    rewrite total_length_cons, Z.add_assoc. reflexivity.
Qed.

(** C1 (as amended).  Feeding chunks one at a time is the run of the loop body
    over the frames of each chunk taken on its own (offsets 0, 256, ... while
    the 512-sample frame fits in that chunk), at their positions in the whole
    stream: the sample counter and the adaptive state carry over a chunk
    boundary, and no frame spans one.  Hence a split gives the onsets and
    the final state of the single-chunk call whenever it leaves the list of
    frames unchanged. *)
Theorem process_chunks_by_frames (d : detector) (chunks : list (list F)) :
  Onset.process_chunks np_rms d chunks
  = bind (run_frames (d, []) (Onset.stream_frames (Onset.total_samples d) chunks))
      (fun r => ret (Onset.set_total_samples (fst r)
                       (Onset.total_samples d + Onset.total_length chunks), snd r))
  /\ (Onset.stream_frames (Onset.total_samples d) chunks
      = Onset.stream_frames (Onset.total_samples d) [concat chunks] ->
      Onset.process_chunks np_rms d chunks
      = Onset.process_chunks np_rms d [concat chunks]).
Proof.
  split; [apply process_chunks_run|].
  intros E. rewrite !process_chunks_run, E.
  replace (Onset.total_length [concat chunks]) with (Onset.total_length chunks);
    [reflexivity|].
  unfold Onset.total_length; simpl. rewrite app_nil_r. reflexivity.
Qed.

End OnsetFacts.

(** A stream of 512 samples of amplitude 1 has one frame and one onset, at
    time 0; cut in two halves it has no frame, hence no onset. *)
Lemma split_loses_onset :
  option_map snd (Onset.process_chunks rms64 detector0 [ones 256 ++ ones 256])
  = Some [PrimFloat.zero]
  /\ option_map snd (Onset.process_chunks rms64 detector0 [ones 256; ones 256])
     = Some [].
Proof. split; vm_compute; reflexivity. Qed.

Lemma process_chunks_by_frames_witness :
  Onset.stream_frames (Onset.total_samples detector0) [ones 600; ones 100]
  = Onset.stream_frames (Onset.total_samples detector0) [concat [ones 600; ones 100]]
  /\ Onset.process_chunks rms64 detector0 [ones 600; ones 100]
     = Onset.process_chunks rms64 detector0 [concat [ones 600; ones 100]].
Proof.
  split; [vm_compute; reflexivity|].
  apply (proj2 (process_chunks_by_frames rms64 detector0 [ones 600; ones 100])).
  vm_compute; reflexivity.
Defined.

(** ** NaN in binary64 *)

Section Binary64NaN.

Lemma fmul_nan_r (x : float) : fmul x PrimFloat.nan = PrimFloat.nan.
Proof.
  apply Prim2SF_inj. change (fmul x nan) with (PrimFloat.mul x nan).
  rewrite mul_spec. change (Prim2SF nan) with S754_nan.
  destruct (Prim2SF x); reflexivity.
Qed.

Lemma fmul_nan_l (x : float) : fmul PrimFloat.nan x = PrimFloat.nan.
Proof.
  apply Prim2SF_inj. change (fmul nan x) with (PrimFloat.mul nan x).
  rewrite mul_spec. reflexivity.
Qed.

Lemma fadd_nan_r (x : float) : fadd x PrimFloat.nan = PrimFloat.nan.
Proof.
  apply Prim2SF_inj. change (fadd x nan) with (PrimFloat.add x nan).
  rewrite add_spec. change (Prim2SF nan) with S754_nan.
  destruct (Prim2SF x); reflexivity.
Qed.

Lemma fadd_nan_l (x : float) : fadd PrimFloat.nan x = PrimFloat.nan.
Proof.
  apply Prim2SF_inj. change (fadd nan x) with (PrimFloat.add nan x).
  rewrite add_spec. reflexivity.
Qed.

Lemma flt_nan_l (x : float) : flt PrimFloat.nan x = false.
Proof.
  change (flt nan x) with (PrimFloat.ltb nan x). rewrite ltb_spec. reflexivity.
Qed.

Lemma flt_nan_r (x : float) : flt x PrimFloat.nan = false.
Proof.
  change (flt x nan) with (PrimFloat.ltb x nan). rewrite ltb_spec.
  change (Prim2SF nan) with S754_nan. destruct (Prim2SF x); reflexivity.
Qed.

Lemma div_nan_l (x : float) : PrimFloat.div PrimFloat.nan x = PrimFloat.nan.
Proof. apply Prim2SF_inj. rewrite div_spec. reflexivity. Qed.

Lemma sqrt_nan : PrimFloat.sqrt PrimFloat.nan = PrimFloat.nan.
Proof. reflexivity. Qed.

End Binary64NaN.

(** ** The onset detector on non-finite input (binary64) *)

Section NaNPoison.

Variable np_rms : list float -> float.

Local Abbreviation detector := (Onset.RealtimeOnsetDetector float).

Lemma int_div_defined (pos sr : Z) :
  sr <> 0%Z -> exists t : float, int_div pos sr = Some t.
Proof.
  intros Hsr. change (@int_div float Binary64) with B64.int_div. unfold B64.int_div.
  destruct sr; [contradiction | eauto | eauto].
Qed.

Lemma rising_edge_defined (d : detector) (o : list float) (pos : Z) :
  Onset.sample_rate d <> 0%Z ->
  exists d' o', Onset.rising_edge d o pos = Some (d', o') /\ Onset.same_levels d d'.
Proof.
  intros Hsr. unfold Onset.rising_edge.
  destruct (int_div_defined pos _ Hsr) as [t ->]; cbn [bind].
  match goal with |- context [if ?b then _ else _] => destruct b end;
    eexists; eexists; (split; [reflexivity | repeat split]).
Qed.

Lemma gate_step_defined (d : detector) (o : list float) (pos : Z) (th : float) :
  Onset.sample_rate d <> 0%Z ->
  exists d' o', Onset.gate_step d o pos th = Some (d', o') /\ Onset.same_levels d d'.
Proof.
  intros Hsr. unfold Onset.gate_step.
  destruct (flt th (Onset.smoothed_rms d)).
  - destruct (negb (Onset._above_threshold d)).
    + destruct (rising_edge_defined (Onset.set_above_threshold d true) o pos Hsr)
        as (d' & o' & E & L).
      exists d', o'; split; [exact E | exact L].
    + exists d, o; split; [reflexivity | repeat split].
  - destruct (flt (Onset.smoothed_rms d) (fmul th Onset.hysteresis_ratio));
      eexists; eexists; (split; [reflexivity | repeat split]).
Qed.

(** With a NaN level the threshold test passes over both branches. *)
Lemma gate_step_nan (d : detector) (o : list float) (pos : Z) (th : float) :
  Onset.smoothed_rms d = PrimFloat.nan ->
  Onset.gate_step d o pos th = Some (d, o).
Proof.
  intros E. unfold Onset.gate_step. rewrite E, flt_nan_r, flt_nan_l. reflexivity.
Qed.

Lemma baseline_step_defined (d : detector) (rms : float) (pos : Z) :
  Onset.sample_rate d <> 0%Z ->
  exists d', Onset.baseline_step d rms pos = Some d'
             /\ Onset.sample_rate d' = Onset.sample_rate d
             /\ Onset.smoothed_rms d' = Onset.smoothed_rms d
             /\ Onset.mean_rms d' = Onset.next_mean d rms.
Proof.
  intros Hsr. unfold Onset.baseline_step; cbn [Onset._frame_count Onset.set_frame_count
    Onset.sample_rate Onset.set_mean_rms].
  destruct ((Onset._frame_count d + 1) mod Onset._log_interval =? 0)%Z.
  - destruct (int_div_defined pos _ Hsr) as [t ->]; cbn [bind ret].
    eexists; split; [reflexivity | repeat split].
  - cbn [bind ret]. eexists; split; [reflexivity | repeat split].
Qed.

Lemma next_mean_nan (d : detector) (rms : float) :
  rms = PrimFloat.nan \/ Onset.mean_rms d = PrimFloat.nan ->
  Onset.next_mean d rms = PrimFloat.nan.
Proof.
  unfold Onset.next_mean. intros [-> | ->].
  - rewrite fmul_nan_r. apply fadd_nan_l.
  - rewrite fmul_nan_r. apply fadd_nan_r.
Qed.

Lemma next_smoothed_nan (d : detector) (rms : float) :
  rms = PrimFloat.nan \/ Onset.smoothed_rms d = PrimFloat.nan ->
  Onset.next_smoothed d rms = PrimFloat.nan.
Proof.
  unfold Onset.next_smoothed. intros [-> | ->].
  - rewrite fmul_nan_r. apply fadd_nan_l.
  - rewrite fmul_nan_r. apply fadd_nan_r.
Qed.

(** No frame raises when the sample rate is not 0. *)
Lemma frame_body_defined (d : detector) (o : list float) (pos : Z) (fr : list float) :
  Onset.sample_rate d <> 0%Z ->
  exists d' o', Onset.frame_body np_rms d o pos fr = Some (d', o')
                /\ Onset.sample_rate d' = Onset.sample_rate d
                /\ Onset.smoothed_rms d' = Onset.next_smoothed d (np_rms fr)
                /\ (Onset.mean_rms d' = Onset.next_mean d (np_rms fr))
                /\ (Onset.next_smoothed d (np_rms fr) = PrimFloat.nan -> o' = o).
Proof.
  intros Hsr. unfold Onset.frame_body.
  set (d1 := Onset.set_peak_rms _ _).
  set (th := py_max _ _).
  assert (Hsr1 : Onset.sample_rate d1 <> 0%Z) by exact Hsr.
  destruct (gate_step_defined d1 o pos th Hsr1) as (d2 & o2 & E & S & Sm & M).
  assert (Hsr2 : Onset.sample_rate d2 <> 0%Z) by (rewrite S; exact Hsr).
  destruct (baseline_step_defined d2 (np_rms fr) pos Hsr2) as (d3 & E3 & S3 & Sm3 & M3).
  exists d3, o2. rewrite E; cbn [bind fst snd]. rewrite E3; cbn [bind ret].
  split; [reflexivity|]. split; [rewrite S3, S; reflexivity|].
  split; [rewrite Sm3, Sm; reflexivity|].
  split.
  - rewrite M3. unfold Onset.next_mean. rewrite M. reflexivity.
  - intros N. assert (G : Onset.gate_step d1 o pos th = Some (d1, o))
      by (apply gate_step_nan; exact N).
    rewrite G in E. inversion E; reflexivity.
Qed.

Lemma frame_body_poisons (d : detector) (o : list float) (pos : Z) (fr : list float) :
  Onset.sample_rate d <> 0%Z ->
  np_rms fr = PrimFloat.nan \/ poisoned d ->
  exists d', Onset.frame_body np_rms d o pos fr = Some (d', o)
             /\ Onset.sample_rate d' = Onset.sample_rate d /\ poisoned d'.
Proof.
  intros Hsr P.
  destruct (frame_body_defined d o pos fr Hsr) as (d' & o' & E & S & Sm & M & O).
  assert (N : Onset.next_smoothed d (np_rms fr) = PrimFloat.nan).
  { apply next_smoothed_nan. destruct P as [P | [P _]]; [left | right]; exact P. }
  assert (N' : Onset.next_mean d (np_rms fr) = PrimFloat.nan).
  { apply next_mean_nan. destruct P as [P | [_ P]]; [left | right]; exact P. }
  exists d'. rewrite E, (O N). split; [reflexivity|]. split; [exact S|].
  split; [rewrite Sm; exact N | rewrite M; exact N'].
Qed.

(** The loop of [process_chunk]: it never raises, it keeps a poisoned state
    poisoned and silent, and a frame with a NaN level poisons it. *)
Lemma loop_defined (chunk : list float) (offs : list Z) (d : detector) (o : list float) :
  Onset.sample_rate d <> 0%Z ->
  exists d' o', foldM (Onset.frame_step np_rms chunk) (d, o) offs = Some (d', o')
                /\ Onset.sample_rate d' = Onset.sample_rate d.
Proof.
  revert d o; induction offs as [|i offs IH]; intros d o Hsr.
  - exists d, o; split; reflexivity.
  - cbn [foldM]. unfold Onset.frame_step at 1; cbn [fst snd].
    destruct (frame_body_defined d o (Onset.total_samples d + i)
                (slice chunk i (i + Onset.frame_size)) Hsr) as (d1 & o1 & E & S & _).
    rewrite E; cbn [bind].
    destruct (IH d1 o1) as (d2 & o2 & E2 & S2); [rewrite S; exact Hsr|].
    exists d2, o2; split; [exact E2 | rewrite S2; exact S].
Qed.

Lemma loop_poisoned (chunk : list float) (offs : list Z) (d : detector) (o : list float) :
  Onset.sample_rate d <> 0%Z -> poisoned d ->
  exists d', foldM (Onset.frame_step np_rms chunk) (d, o) offs = Some (d', o)
             /\ Onset.sample_rate d' = Onset.sample_rate d /\ poisoned d'.
Proof.
  revert d o; induction offs as [|i offs IH]; intros d o Hsr P.
  - exists d; repeat split; apply P.
  - cbn [foldM]. unfold Onset.frame_step at 1; cbn [fst snd].
    destruct (frame_body_poisons d o (Onset.total_samples d + i)
                (slice chunk i (i + Onset.frame_size)) Hsr (or_intror P))
      as (d1 & E & S & P1).
    rewrite E; cbn [bind].
    destruct (IH d1 o) as (d2 & E2 & S2 & P2); [rewrite S; exact Hsr | exact P1 |].
    exists d2; split; [exact E2 | split; [rewrite S2; exact S | exact P2]].
Qed.

Lemma loop_nan_frame (chunk : list float) (offs : list Z) (d : detector)
    (o : list float) (i : Z) :
  Onset.sample_rate d <> 0%Z ->
  In i offs -> np_rms (slice chunk i (i + Onset.frame_size)) = PrimFloat.nan ->
  exists d' o', foldM (Onset.frame_step np_rms chunk) (d, o) offs = Some (d', o')
                /\ Onset.sample_rate d' = Onset.sample_rate d /\ poisoned d'.
Proof.
  revert d o; induction offs as [|j offs IH]; intros d o Hsr Hin Hn; [destruct Hin|].
  cbn [foldM]. unfold Onset.frame_step at 1; cbn [fst snd].
  destruct Hin as [-> | Hin].
  - destruct (frame_body_poisons d o (Onset.total_samples d + i)
                (slice chunk i (i + Onset.frame_size)) Hsr (or_introl Hn))
      as (d1 & E & S & P1).
    rewrite E; cbn [bind].
    destruct (loop_poisoned chunk offs d1 o) as (d2 & E2 & S2 & P2);
      [rewrite S; exact Hsr | exact P1 |].
    exists d2, o; split; [exact E2 | split; [rewrite S2; exact S | exact P2]].
  - destruct (frame_body_defined d o (Onset.total_samples d + j)
                (slice chunk j (j + Onset.frame_size)) Hsr) as (d1 & o1 & E & S & _).
    rewrite E; cbn [bind].
    destruct (IH d1 o1) as (d2 & o2 & E2 & S2 & P2);
      [rewrite S; exact Hsr | exact Hin | exact Hn |].
    exists d2, o2; split; [exact E2 | split; [rewrite S2; exact S | exact P2]].
Qed.

End NaNPoison.

(** The RMS of a frame with a NaN sample is NaN. *)
Lemma fold_add_nan (l : list float) :
  fold_left PrimFloat.add l PrimFloat.nan = PrimFloat.nan.
Proof.
  induction l as [|x l IH]; [reflexivity|].
  cbn [fold_left]. change (PrimFloat.add nan x) with (fadd nan x).
  rewrite fadd_nan_l. exact IH.
Qed.

Lemma fold_add_In_nan (l : list float) (acc : float) :
  In PrimFloat.nan l -> fold_left PrimFloat.add l acc = PrimFloat.nan.
Proof.
  revert acc; induction l as [|x l IH]; intros acc Hin; [destruct Hin|].
  cbn [fold_left]. destruct Hin as [-> | Hin].
  - change (PrimFloat.add acc nan) with (fadd acc nan).
    rewrite fadd_nan_r. apply fold_add_nan.
  - apply IH, Hin.
Qed.

Lemma rms64_nan (frame : list float) :
  In PrimFloat.nan frame -> rms64 frame = PrimFloat.nan.
Proof.
  intros Hin. unfold rms64. rewrite fold_add_In_nan.
  - rewrite div_nan_l. apply sqrt_nan.
  - apply in_map_iff. exists PrimFloat.nan. split; [reflexivity | exact Hin].
Qed.

(** C3 (as amended).  With a sample rate other than 0, [process_chunk]
    raises on no chunk, whatever its samples; but a NaN sample is not read
    as zero: a frame that holds one leaves [smoothed_rms] and [mean_rms]
    NaN, and from such a state every later chunk leaves them NaN and
    reports no onset. *)
Theorem nan_poisons_detector (d : Onset.RealtimeOnsetDetector float)
    (chunk : list float) :
  Onset.sample_rate d <> 0%Z ->
  (exists d' o, Onset.process_chunk rms64 d chunk = Some (d', o)
                /\ Onset.sample_rate d' = Onset.sample_rate d
                /\ ((exists i, In i (Onset.chunk_offsets chunk)
                               /\ In PrimFloat.nan (slice chunk i (i + Onset.frame_size)))
                    -> poisoned d'))
  /\ (poisoned d ->
      exists d', Onset.process_chunk rms64 d chunk = Some (d', [])
                 /\ Onset.sample_rate d' = Onset.sample_rate d /\ poisoned d').
Proof.
  intros Hsr. split.
  - unfold Onset.process_chunk.
    destruct (loop_defined rms64 chunk (Onset.chunk_offsets chunk) d [] Hsr)
      as (d1 & o1 & E & S).
    rewrite E; cbn [bind ret].
    eexists; eexists; split; [reflexivity|]. split; [exact S|].
    intros (i & Hin & Hn).
    destruct (loop_nan_frame rms64 chunk (Onset.chunk_offsets chunk) d [] i Hsr Hin
                (rms64_nan _ Hn)) as (d2 & o2 & E2 & _ & P2).
    rewrite E in E2. inversion E2; subst. exact P2.
  - intros P. unfold Onset.process_chunk.
    destruct (loop_poisoned rms64 chunk (Onset.chunk_offsets chunk) d [] Hsr P)
      as (d1 & E & S & P1).
    rewrite E; cbn [bind ret].
    eexists; split; [reflexivity|]. split; [exact S | exact P1].
Qed.

(** A NaN sample among zeros: the next chunk, loud, is not heard. *)
Lemma nan_sample_silences_detector :
  option_map snd (Onset.process_chunks rms64 detector0 [zeros 512; ones 512])
  = option_map (fun t => [t]) (int_div 512 44100)
  /\ option_map snd
       (Onset.process_chunks rms64 detector0 [PrimFloat.nan :: zeros 511; ones 512])
     = Some []
  /\ option_map (fun r => Onset.smoothed_rms (fst r))
       (Onset.process_chunk rms64 detector0 (PrimFloat.nan :: zeros 511))
     = Some PrimFloat.nan.
Proof. repeat split; vm_compute; reflexivity. Qed.

(** An infinite sample is heard as an onset of its own, and silences the
    detector just the same. *)
Example infinite_sample_silences_detector :
  option_map snd
    (Onset.process_chunks rms64 detector0 [PrimFloat.infinity :: zeros 511; ones 512])
  = Some [PrimFloat.zero]
  /\ option_map (fun r => Onset.mean_rms (fst r))
       (Onset.process_chunks rms64 detector0 [PrimFloat.infinity :: zeros 511; ones 512])
     = Some PrimFloat.infinity.
Proof. split; vm_compute; reflexivity. Qed.

Lemma nan_poisons_detector_witness :
  Onset.sample_rate detector0 <> 0%Z
  /\ exists d' o,
       Onset.process_chunk rms64 detector0 (PrimFloat.nan :: zeros 511) = Some (d', o)
       /\ poisoned d'.
Proof.
  split; [simpl; lia|].
  destruct (nan_poisons_detector detector0 (PrimFloat.nan :: zeros 511))
    as [(d' & o & E & _ & P) _]; [simpl; lia|].
  exists d', o. split; [exact E|].
  apply P. exists 0%Z. split; vm_compute; left; reflexivity.
Defined.

(** ** The metronome detector *)

Section MetronomeFacts.

Context {F : Type} `{PyFloat F}.
Variable np_lstsq : list Z -> list F -> F * F.

Local Abbreviation detector := (Metronome.MetronomeDetector F).
Local Abbreviation _refit := (Metronome._refit np_lstsq).
Local Abbreviation add_onset := (Metronome.add_onset np_lstsq).
Local Abbreviation track_onset := (Metronome.track_onset np_lstsq).

(** C2 (as amended).  After three onsets, periodic or not, the detector is
    not locked and [click_count] is 0: below four onsets [add_onset]
    returns before the periodicity search, so [_best_periodic_count] keeps
    its initial value. *)
Theorem three_onsets_count_zero (t1 t2 t3 : F) :
  exists m1 m2 m3,
    add_onset Metronome.init t1 = Returns m1 false
    /\ add_onset m1 t2 = Returns m2 false
    /\ add_onset m2 t3 = Returns m3 false
    /\ Metronome.locked m3 = false
    /\ Metronome.click_count m3 = 0%Z
    /\ Metronome.total_onsets m3 = 3%Z.
Proof.
  do 3 eexists. repeat split; reflexivity.
Qed.

(** *** [_refit] *)

Lemma refit_short (m : detector) :
  (Metronome.len (Metronome.click_times m) < 2)%Z -> _refit m = Returns m tt.
Proof.
  intros L. unfold Metronome._refit.
  destruct (Z.ltb_spec (Metronome.len (Metronome.click_times m)) 2); [reflexivity | lia].
Qed.

Lemma refit_fitted (m : detector) (p r : F) :
  (2 <= Metronome.len (Metronome.click_times m))%Z ->
  Metronome.len (Metronome._click_indices m) = Metronome.len (Metronome.click_times m) ->
  np_lstsq (Metronome._click_indices m) (Metronome.click_times m) = (p, r) ->
  _refit m = if Metronome.period_in_range p
             then match fdiv (lit 60) p with
                  | Some b => Returns (Metronome.set_fit m p r b) tt
                  | None => Raises (Metronome.set_period_reference m p r)
                  end
             else Returns m tt.
Proof.
  intros L E Fit. unfold Metronome._refit.
  destruct (Z.ltb_spec (Metronome.len (Metronome.click_times m)) 2); [lia|].
  rewrite E, Z.eqb_refl, Fit. reflexivity.
Qed.

(** C8.  [_refit] leaves the detector as it is when fewer than two clicks
    are recorded or when the fitted period fails the test
    [0.25 <= period <= 1.5]; when the fitted period passes it, [period] and
    [reference_time] become the fitted values and [bpm] becomes
    [60 / period], and nothing else changes. *)
Theorem refit_only_in_range (m : detector) :
  ((Metronome.len (Metronome.click_times m) < 2)%Z -> _refit m = Returns m tt)
  /\ (forall p r,
        (2 <= Metronome.len (Metronome.click_times m))%Z ->
        Metronome.len (Metronome._click_indices m)
        = Metronome.len (Metronome.click_times m) ->
        np_lstsq (Metronome._click_indices m) (Metronome.click_times m) = (p, r) ->
        (fle (lit (25 # 100)) p && fle p (lit (15 # 10)) = false ->
         _refit m = Returns m tt)
        /\ (fle (lit (25 # 100)) p && fle p (lit (15 # 10)) = true ->
            forall b, fdiv (lit 60) p = Some b ->
            _refit m
            = Returns {| Metronome.onset_times := Metronome.onset_times m;
                         Metronome.locked := Metronome.locked m;
                         Metronome.bpm := Some b;
                         Metronome.period := Some p;
                         Metronome.reference_time := Some r;
                         Metronome.click_times := Metronome.click_times m;
                         Metronome._click_indices := Metronome._click_indices m;
                         Metronome._clicks_since_refit := Metronome._clicks_since_refit m;
                         Metronome._best_periodic_count :=
                           Metronome._best_periodic_count m |} tt)).
Proof.
  split; [apply refit_short|].
  intros p r L E Fit. rewrite (refit_fitted m p r L E Fit).
  unfold Metronome.period_in_range, Metronome.MIN_PERIOD_S, Metronome.MAX_PERIOD_S. split.
  - intros ->. reflexivity.
  - intros -> b ->. reflexivity.
Qed.

(** The ways [_refit] ends: the object is left as it was, or it holds the
    fitted period and reference time, with the BPM unless the quotient
    raised. *)
Lemma refit_after (m : detector) :
  _refit m = Returns m tt
  \/ _refit m = Raises m
  \/ exists p r,
       Metronome.period_in_range p = true
       /\ ((fdiv (lit 60) p = None
            /\ _refit m = Raises (Metronome.set_period_reference m p r))
           \/ exists b, fdiv (lit 60) p = Some b
                        /\ _refit m = Returns (Metronome.set_fit m p r b) tt).
Proof.
  unfold Metronome._refit.
  destruct (_ <? 2)%Z; [auto|].
  destruct (negb _); [auto|].
  destruct (np_lstsq _ _) as [p r].
  destruct (Metronome.period_in_range p) eqn:R; [|auto].
  right; right. exists p, r. split; [exact R|].
  destruct (fdiv (lit 60) p) as [b|]; cbn [evaluate]; [right; exists b|left]; auto.
Qed.

(** What [_refit] never touches, however it ends. *)
Lemma refit_after_frame (m : detector) :
  let m' := after (_refit m) in
  Metronome.onset_times m' = Metronome.onset_times m
  /\ Metronome.locked m' = Metronome.locked m
  /\ Metronome.click_times m' = Metronome.click_times m
  /\ Metronome._click_indices m' = Metronome._click_indices m
  /\ Metronome._clicks_since_refit m' = Metronome._clicks_since_refit m
  /\ Metronome._best_periodic_count m' = Metronome._best_periodic_count m.
Proof.
  destruct (refit_after m) as [E | [E | (p & r & _ & [[_ E] | (b & _ & E)])]];
    rewrite E; cbn; auto 10.
Qed.

Lemma refit_frame (m m' : detector) :
  _refit m = Returns m' tt ->
  Metronome.onset_times m' = Metronome.onset_times m
  /\ Metronome.locked m' = Metronome.locked m
  /\ Metronome.click_times m' = Metronome.click_times m
  /\ Metronome._click_indices m' = Metronome._click_indices m
  /\ Metronome._clicks_since_refit m' = Metronome._clicks_since_refit m
  /\ Metronome._best_periodic_count m' = Metronome._best_periodic_count m.
Proof.
  intros E. pose proof (refit_after_frame m) as Fr. rewrite E in Fr. exact Fr.
Qed.

(** *** [track_onset] *)

Lemma track_onset_unfold (m : detector) (t p r offset : F) (k : Z) :
  Metronome.locked m = true ->
  Metronome.period m = Some p ->
  Metronome.reference_time m = Some r ->
  fdiv (fsub t r) p = Some offset ->
  round_int offset = Some k ->
  track_onset m t
  = if flt (Metronome.track_tolerance_ms p) (Metronome.error_ms p offset k)
       || Metronome.too_close m p t
    then Returns m false
    else if (4 <=? Metronome._clicks_since_refit m + 1)%Z
         then match _refit (Metronome.set_clicks_since_refit
                              (Metronome.record_click m t k) 0) with
              | Returns m2 _ => Returns m2 true
              | Raises m2 => Raises m2
              end
         else Returns (Metronome.record_click m t k) true.
Proof.
  intros L P R O K. unfold Metronome.track_onset.
  rewrite L, P, R; cbn [negb]. rewrite O; cbn [evaluate]. rewrite K; cbn [evaluate].
  destruct (flt _ _); [reflexivity|].
  destruct (Metronome.too_close m p t); reflexivity.
Qed.

(** C5.  On a locked detector, [track_onset t] returns [False] and leaves
    the state as it is exactly when
    [error_ms = |offset - round(offset)| * period * 1000] exceeds
    [min(period * 250, 50)] or [t] follows the last click by less than
    [0.5 * period]; otherwise it appends [t] to [click_times] and
    [round(offset)] to [_click_indices], counts the click, refits exactly
    when the counter reaches 4 (resetting it to 0), and returns [True]. *)
Theorem track_onset_cases (m : detector) (t p r offset : F) (k : Z) :
  Metronome.locked m = true ->
  Metronome.period m = Some p ->
  Metronome.reference_time m = Some r ->
  fdiv (fsub t r) p = Some offset ->
  round_int offset = Some k ->
  (Metronome._clicks_since_refit m < 4)%Z ->
  let error_ms := fmul (fmul (fabs (fsub offset (of_int k))) p) (lit 1000) in
  let tolerance :=
    if flt (lit 50) (fmul p (of_int 250)) then lit 50 else fmul p (of_int 250) in
  let too_close :=
    match py_last (Metronome.click_times m) with
    | Some newest => flt (fsub t newest) (fmul p (lit (1 # 2)))
    | None => false
    end in
  let recorded := fun counter : Z =>
    {| Metronome.onset_times := Metronome.onset_times m;
       Metronome.locked := Metronome.locked m;
       Metronome.bpm := Metronome.bpm m;
       Metronome.period := Metronome.period m;
       Metronome.reference_time := Metronome.reference_time m;
       Metronome.click_times := Metronome.click_times m ++ [t];
       Metronome._click_indices := Metronome._click_indices m ++ [k];
       Metronome._clicks_since_refit := counter;
       Metronome._best_periodic_count := Metronome._best_periodic_count m |} in
  (flt tolerance error_ms || too_close = true -> track_onset m t = Returns m false)
  /\ (flt tolerance error_ms || too_close = false ->
      ((Metronome._clicks_since_refit m + 1 = 4)%Z ->
       track_onset m t
       = match _refit (recorded 0%Z) with
         | Returns m2 _ => Returns m2 true
         | Raises m2 => Raises m2
         end)
      /\ ((Metronome._clicks_since_refit m + 1 <> 4)%Z ->
          track_onset m t = Returns (recorded (Metronome._clicks_since_refit m + 1)%Z) true))
  /\ (forall m',
        track_onset m t = Returns m' false
        <-> (flt tolerance error_ms || too_close = true /\ m' = m)).
Proof.
  intros L P R O K C error_ms tolerance too_close recorded.
  rewrite (track_onset_unfold m t p r offset k L P R O K).
  change (Metronome.track_tolerance_ms p) with tolerance.
  change (Metronome.error_ms p offset k) with error_ms.
  change (Metronome.too_close m p t) with too_close.
  change (Metronome.set_clicks_since_refit (Metronome.record_click m t k) 0)
    with (recorded 0%Z).
  change (Metronome.record_click m t k)
    with (recorded (Metronome._clicks_since_refit m + 1)%Z).
  destruct (flt tolerance error_ms || too_close).
  - split; [reflexivity|]. split; [discriminate|].
    intros m'. split; [intros E; inversion E; auto | intros [_ ->]; reflexivity].
  - split; [discriminate|]. split.
    + intros _. split; intros C4.
      * destruct (Z.leb_spec 4 (Metronome._clicks_since_refit m + 1)); [reflexivity | lia].
      * destruct (Z.leb_spec 4 (Metronome._clicks_since_refit m + 1)); [lia | reflexivity].
    + intros m'. split; [|intros [E _]; discriminate].
      destruct (4 <=? _)%Z; [|discriminate].
      destruct (_refit _); discriminate.
Qed.

(** The ways [track_onset] ends, on the object it leaves: as it was; with
    the click recorded; or, when the counter got to the refit interval, as
    [_refit] leaves the object with the click recorded and the counter at
    0. *)
Lemma track_onset_after (m : detector) (t : F) :
  after (track_onset m t) = m
  \/ exists p r offset k,
       Metronome.locked m = true
       /\ Metronome.period m = Some p
       /\ Metronome.reference_time m = Some r
       /\ fdiv (fsub t r) p = Some offset
       /\ round_int offset = Some k
       /\ flt (Metronome.track_tolerance_ms p) (Metronome.error_ms p offset k) = false
       /\ Metronome.too_close m p t = false
       /\ (if (4 <=? Metronome._clicks_since_refit m + 1)%Z
           then after (track_onset m t)
                = after (_refit (Metronome.set_clicks_since_refit
                                   (Metronome.record_click m t k) 0))
           else after (track_onset m t) = Metronome.record_click m t k).
Proof.
  destruct (Metronome.locked m) eqn:L;
    [|unfold Metronome.track_onset; rewrite L; left; reflexivity].
  destruct (Metronome.period m) as [p|] eqn:P;
    [|unfold Metronome.track_onset; rewrite L, P; left; reflexivity].
  destruct (Metronome.reference_time m) as [r|] eqn:R;
    [|unfold Metronome.track_onset; rewrite L, P, R; left; reflexivity].
  destruct (fdiv (fsub t r) p) as [offset|] eqn:O;
    [|unfold Metronome.track_onset; rewrite L, P, R; cbn [negb];
      rewrite O; left; reflexivity].
  destruct (round_int offset) as [k|] eqn:K;
    [|unfold Metronome.track_onset; rewrite L, P, R; cbn [negb];
      rewrite O; cbn [evaluate]; rewrite K; left; reflexivity].
  rewrite (track_onset_unfold m t p r offset k L P R O K).
  destruct (flt _ _) eqn:T; [left; reflexivity|].
  destruct (Metronome.too_close m p t) eqn:C; [left; reflexivity|].
  cbn [orb]. right. exists p, r, offset, k.
  repeat (split; [first [reflexivity | assumption]|]).
  destruct (4 <=? _)%Z; [|reflexivity].
  destruct (_refit _); reflexivity.
Qed.

(** Whenever [track_onset] returns [True], it went through the recording
    branch. *)
Lemma track_onset_true (m m1 : detector) (t : F) :
  track_onset m t = Returns m1 true ->
  exists p r offset k,
    Metronome.locked m = true
    /\ Metronome.period m = Some p
    /\ Metronome.reference_time m = Some r
    /\ fdiv (fsub t r) p = Some offset
    /\ round_int offset = Some k
    /\ flt (Metronome.track_tolerance_ms p) (Metronome.error_ms p offset k) = false
    /\ Metronome.too_close m p t = false
    /\ (if (4 <=? Metronome._clicks_since_refit m + 1)%Z
        then _refit (Metronome.set_clicks_since_refit (Metronome.record_click m t k) 0)
             = Returns m1 tt
        else m1 = Metronome.record_click m t k).
Proof.
  intros E.
  destruct (Metronome.locked m) eqn:L;
    [|unfold Metronome.track_onset in E; rewrite L in E; discriminate].
  destruct (Metronome.period m) as [p|] eqn:P;
    [|unfold Metronome.track_onset in E; rewrite L, P in E; discriminate].
  destruct (Metronome.reference_time m) as [r|] eqn:R;
    [|unfold Metronome.track_onset in E; rewrite L, P, R in E; discriminate].
  destruct (fdiv (fsub t r) p) as [offset|] eqn:O;
    [|unfold Metronome.track_onset in E; rewrite L, P, R in E; cbn [negb] in E;
      rewrite O in E; discriminate].
  destruct (round_int offset) as [k|] eqn:K;
    [|unfold Metronome.track_onset in E; rewrite L, P, R in E; cbn [negb] in E;
      rewrite O in E; cbn [evaluate] in E; rewrite K in E; discriminate].
  rewrite (track_onset_unfold m t p r offset k L P R O K) in E.
  exists p, r, offset, k. repeat (split; [first [reflexivity | assumption]|]).
  destruct (flt _ _); [discriminate|]. destruct (Metronome.too_close m p t); [discriminate|].
  cbn [orb] in E. split; [reflexivity|]. split; [reflexivity|].
  destruct (4 <=? _)%Z.
  - destruct (_refit _) as [m2 []|m2]; [|discriminate]. inversion E; reflexivity.
  - inversion E; reflexivity.
Qed.

Lemma py_pop_snoc {A : Type} (l : list A) (x : A) : Pipeline.py_pop (l ++ [x]) = Some l.
Proof.
  unfold Pipeline.py_pop. rewrite removelast_last.
  destruct l; reflexivity.
Qed.

(** C10.  When the click recorded by [track_onset] brings the counter to 4,
    the refit runs on the history that includes it; the spectral override
    then pops the click and leaves the counter at 0, but [period],
    [reference_time] and [bpm] stay as that refit left them: the detector
    is not back in the state it had before [track_onset]. *)
Theorem undo_keeps_refit (m m1 : detector) (t : F) :
  Metronome._clicks_since_refit m = 3%Z ->
  track_onset m t = Returns m1 true ->
  exists k m2,
    _refit (Metronome.set_clicks_since_refit (Metronome.record_click m t k) 0)
    = Returns m1 tt
    /\ Pipeline.post_lock_decision np_lstsq m t (Some "guitar"%string) = Some (m2, false)
    /\ Pipeline.undo_click m1 = Some m2
    /\ Metronome.period m2 = Metronome.period m1
    /\ Metronome.reference_time m2 = Metronome.reference_time m1
    /\ Metronome.bpm m2 = Metronome.bpm m1
    /\ Metronome.click_times m2 = Metronome.click_times m
    /\ Metronome._click_indices m2 = Metronome._click_indices m
    /\ Metronome._clicks_since_refit m2 = 0%Z
    /\ m2 <> m.
Proof.
  intros C E.
  destruct (track_onset_true m m1 t E) as (p & r & offset & k & _ & _ & _ & _ & _ & _ & _ & R).
  rewrite C in R; cbn in R.
  destruct (refit_frame _ _ R) as (_ & _ & Ts & Ks & Cs & _).
  cbn in Ts, Ks, Cs.
  assert (U : Pipeline.undo_click m1
              = Some (Metronome.set_clicks_since_refit
                        (Metronome.set_clicks m1 (Metronome.click_times m)
                           (Metronome._click_indices m)) 0)).
  { unfold Pipeline.undo_click. rewrite Ts, Ks, Cs, !py_pop_snoc. reflexivity. }
  exists k. eexists. split; [exact R|]. split; [|split; [exact U|]].
  - unfold Pipeline.post_lock_decision. rewrite E; cbn [returned bind].
    cbn [andb String.eqb]. rewrite U. reflexivity.
  - repeat (split; [reflexivity|]).
    intros Eq. apply (f_equal Metronome._clicks_since_refit) in Eq.
    cbn in Eq. rewrite C in Eq. discriminate.
Qed.

End MetronomeFacts.

(** ** The grid aligner *)

Section GridFacts.

Context {F : Type} `{PyFloat F}.

Lemma subdivisions_per_bar_pos (g : Grid.GridConfig F) :
  (0 < Grid.subdivisions_per_bar g)%Z.
Proof.
  unfold Grid.subdivisions_per_bar, Grid.subdivisions_per_beat.
  destruct (Grid.is_16th g); lia.
Qed.

Lemma compute_deviation_unfold (g : Grid.GridConfig F) (t : F) (k : Z) (gi : F) :
  Grid.grid_index g t = Some k ->
  Grid.grid_interval g = Some gi ->
  Grid.compute_deviation g t
  = bind (int_div (k mod Grid.subdivisions_per_bar g) (Grid.subdivisions_per_beat g))
      (fun in_beat =>
         Some (round_nd 1 (fmul (fsub t (fadd (Grid.reference_time g) (fmul (of_int k) gi)))
                                (lit 1000)),
               fadd (Grid.reference_time g) (fmul (of_int k) gi),
               (k / Grid.subdivisions_per_bar g + 1)%Z,
               round_nd 2 (fadd (lit 1) in_beat))).
Proof.
  intros K G. unfold Grid.compute_deviation. rewrite K, G. reflexivity.
Qed.

(** C6.  For an onset whose grid index [k] is negative, [compute_deviation]
    returns [bar = floor(k / subdivisions_per_bar) + 1], which is at most 0:
    [//] floors, so [bar - 1] is the largest integer with
    [subdivisions_per_bar * (bar - 1) <= k]. *)
Theorem negative_index_bar_floors (g : Grid.GridConfig F) (t : F) (k : Z)
    (dev near : F) (bar : Z) (beat : F) :
  Grid.grid_index g t = Some k ->
  (k < 0)%Z ->
  Grid.compute_deviation g t = Some (dev, near, bar, beat) ->
  bar = (k / Grid.subdivisions_per_bar g + 1)%Z
  /\ (bar <= 0)%Z
  /\ (Grid.subdivisions_per_bar g * (bar - 1) <= k
      < Grid.subdivisions_per_bar g * bar)%Z.
Proof.
  intros K Neg E.
  pose proof (subdivisions_per_bar_pos g) as Pos.
  assert (B : bar = (k / Grid.subdivisions_per_bar g + 1)%Z).
  { unfold Grid.compute_deviation in E. rewrite K in E; cbn [bind] in E.
    destruct (Grid.grid_interval g) as [gi|]; [|discriminate]. cbn [bind] in E.
    destruct (int_div _ _) as [b|]; [|discriminate]. inversion E; reflexivity. }
  split; [exact B|]. subst bar.
  pose proof (Z.mul_div_le k _ Pos). pose proof (Z.mul_succ_div_gt k _ Pos).
  assert (k / Grid.subdivisions_per_bar g < 0)%Z
    by (apply Z.div_lt_upper_bound; lia).
  split; [lia|]. split; [|lia].
  replace (k / Grid.subdivisions_per_bar g + 1 - 1)%Z
    with (k / Grid.subdivisions_per_bar g)%Z by lia. assumption.
Qed.

End GridFacts.

(** ** Exact arithmetic *)

Section ExactFacts.

Lemma Qflt_true (x y : Q) : flt x y = true <-> x < y.
Proof.
  change (flt x y) with (negb (Qle_bool y x)).
  rewrite negb_true_iff, <- not_true_iff_false, Qle_bool_iff. split; [apply Qnot_le_lt | apply Qlt_not_le].
Qed.

Lemma Qflt_false (x y : Q) : flt x y = false <-> y <= x.
Proof.
  change (flt x y) with (negb (Qle_bool y x)).
  rewrite negb_false_iff. apply Qle_bool_iff.
Qed.

Lemma Qfle_true (x y : Q) : fle x y = true <-> x <= y.
Proof. apply Qle_bool_iff. Qed.


Lemma Qfdiv_defined (x y : Q) : ~ y == 0 -> fdiv x y = Some (x / y).
Proof.
  intros Y. change (fdiv x y) with (Qdiv_py x y). unfold Qdiv_py.
  destruct (Qeq_bool y 0) eqn:E; [|reflexivity].
  apply Qeq_bool_iff in E. contradiction.
Qed.

(** Rounding half to even is the identity on integers and respects [==]. *)
Lemma round_half_even_multiple (k : Z) (d : positive) :
  round_half_even (k * Zpos d) d = k.
Proof.
  unfold round_half_even.
  rewrite Z.div_mul, Z.mod_mul by discriminate. reflexivity.
Qed.

Lemma Qround_half_even_int (x : Q) (k : Z) :
  x == inject_Z k -> Qround_half_even x = k.
Proof.
  unfold Qeq, Qround_half_even; simpl. rewrite Z.mul_1_r. intros ->.
  apply round_half_even_multiple.
Qed.

Lemma Qround_nd_zero (n : Z) (x : Q) : x == 0 -> Qround_nd n x == 0.
Proof.
  intros X. unfold Qround_nd.
  rewrite (Qround_half_even_int (x * inject_Z (10 ^ n)) 0).
  - unfold Qdiv. apply Qmult_0_l.
  - rewrite X. apply Qmult_0_l.
Qed.

End ExactFacts.

(** ** The grid aligner in exact arithmetic *)

Section GridExact.

Local Abbreviation grid := (Grid.GridConfig Q).




End GridExact.

(** ** Sorting and list comprehensions *)

Lemma insert_sorted_length {F : Type} `{PyFloat F} (x : F) (l : list F) :
  length (insert_sorted x l) = S (length l).
Proof.
  induction l as [|y l IH]; [reflexivity|].
  cbn [insert_sorted]. destruct (flt y x); cbn [length]; [rewrite IH|]; reflexivity.
Qed.

Lemma py_sorted_length {F : Type} `{PyFloat F} (l : list F) :
  length (py_sorted l) = length l.
Proof.
  induction l as [|x l IH]; [reflexivity|].
  cbn [py_sorted fold_right]. fold (py_sorted l).
  rewrite insert_sorted_length, IH. reflexivity.
Qed.

Lemma mapM_length {A B : Type} (f : A -> option B) (l : list A) (l' : list B) :
  mapM f l = Some l' -> length l' = length l.
Proof.
  revert l'; induction l as [|a l IH]; intros l' E; cbn [mapM] in E.
  - inversion E; reflexivity.
  - destruct (f a) as [b|]; [|discriminate]. cbn [bind] in E.
    destruct (mapM f l) as [bs|]; [|discriminate]. inversion E; subst.
    cbn [length]. rewrite (IH bs eq_refl). reflexivity.
Qed.

Lemma insert_sorted_In {F : Type} `{PyFloat F} (x y : F) (l : list F) :
  In y (insert_sorted x l) <-> y = x \/ In y l.
Proof.
  induction l as [|z l IH]; cbn.
  - intuition congruence.
  - destruct (flt z x); cbn; [rewrite IH|]; intuition congruence.
Qed.

Lemma py_sorted_In {F : Type} `{PyFloat F} (y : F) (l : list F) :
  In y (py_sorted l) <-> In y l.
Proof.
  induction l as [|x l IH]; cbn; [tauto|].
  rewrite insert_sorted_In, IH. intuition congruence.
Qed.




Lemma last_cons {A : Type} (l : list A) (a b : A) : last (b :: l) a = last l b.
Proof.
  revert a b; induction l as [|c l IH]; intros a b; [reflexivity|].
  change (last (b :: c :: l) a) with (last (c :: l) a). rewrite !IH. reflexivity.
Qed.

Lemma py_last_cons {A : Type} (a b : A) (l : list A) :
  py_last (a :: b :: l) = py_last (b :: l).
Proof. unfold py_last. rewrite last_cons. reflexivity. Qed.

Lemma py_last_snoc {A : Type} (l : list A) (x : A) : py_last (l ++ [x]) = Some x.
Proof.
  destruct l as [|a l]; [reflexivity|].
  cbn [app py_last]. rewrite last_last. reflexivity.
Qed.



(** ** Locking *)

Section MetronomeLock.

Context {F : Type} `{PyFloat F}.
Variable np_lstsq : list Z -> list F -> F * F.

Local Abbreviation detector := (Metronome.MetronomeDetector F).

(** The ways [_compute_click_indices] ends. *)
Lemma compute_click_indices_after (m : detector) (bp : F) :
  Metronome._compute_click_indices m bp = Raises m
  \/ (Metronome.click_times m = []
      /\ Metronome._compute_click_indices m bp = Returns m tt)
  \/ exists ks,
       length ks = length (Metronome.click_times m)
       /\ Metronome._compute_click_indices m bp
          = Returns (Metronome.set_clicks m (Metronome.click_times m) ks) tt.
Proof.
  unfold Metronome._compute_click_indices.
  destruct (Metronome.click_times m) as [|base ts] eqn:T; [auto|].
  destruct (mapM _ _) as [ks|] eqn:M; cbn [evaluate]; [|auto].
  right; right. exists ks. split; [apply (mapM_length _ _ _ M) | reflexivity].
Qed.

Lemma compute_click_indices_frame (m m' : detector) (bp : F) :
  Metronome._compute_click_indices m bp = Returns m' tt ->
  Metronome.period m' = Metronome.period m
  /\ Metronome.click_times m' = Metronome.click_times m
  /\ Metronome._clicks_since_refit m' = Metronome._clicks_since_refit m
  /\ (Metronome.click_times m <> [] ->
      length (Metronome._click_indices m') = length (Metronome.click_times m)).
Proof.
  intros E.
  destruct (compute_click_indices_after m bp) as [R | [[T R] | (ks & L & R)]];
    rewrite R in E; [discriminate| |]; inversion E; subst; clear E.
  - repeat split. intros N; contradiction.
  - repeat split. intros _. exact L.
Qed.

(** The ways [_try_lock] ends, on the object it leaves: nothing stored but
    the count; the aligned onsets stored as clicks, when the indices or the
    fit raised; or the lock set, whether the line that reports it returned
    or raised. *)
Lemma try_lock_after (m : detector) :
  let o := Metronome._try_lock np_lstsq m in
  (exists n, after o = m \/ after o = Metronome.set_best_periodic_count m n)
  \/ exists best_aligned bp,
       (4 <= Metronome.len best_aligned)%Z
       /\ (exists newest,
             py_last (Metronome.onset_times m) = Some newest
             /\ let times := filter (fun t => fle (fsub newest Metronome.WINDOW_S) t)
                               (Metronome.onset_times m) in
                Metronome.search times times (None, []) = Some (Some bp, best_aligned))
       /\ let m2 := Metronome.set_clicks
                      (Metronome.set_best_periodic_count m (Metronome.len best_aligned))
                      (py_sorted best_aligned) (Metronome._click_indices m) in
          (Metronome._compute_click_indices m2 bp = Raises m2 /\ after o = m2)
          \/ exists m3,
               Metronome._compute_click_indices m2 bp = Returns m3 tt
               /\ ((exists m4, Metronome._refit np_lstsq m3 = Raises m4 /\ after o = m4)
                   \/ exists m4,
                        Metronome._refit np_lstsq m3 = Returns m4 tt
                        /\ after o = Metronome.set_locked m4 true
                        /\ (o = Raises (Metronome.set_locked m4 true)
                            -> Metronome.bpm m4 = None \/ Metronome.period m4 = None
                               \/ Metronome.reference_time m4 = None)).
Proof.
  cbv zeta. unfold Metronome._try_lock.
  destruct (py_last (Metronome.onset_times m)) as [newest|];
    [|left; exists 0%Z; left; reflexivity].
  cbn [evaluate].
  destruct (Metronome.len _ <? Metronome.MIN_PERIODIC_ONSETS)%Z;
    [left; exists 0%Z; left; reflexivity|].
  destruct (Metronome.search _ _ _) as [[best_period best_aligned]|] eqn:Found;
    [|left; exists 0%Z; left; reflexivity].
  cbn [evaluate fst snd].
  destruct best_period as [bp|]; [|left; eexists; right; reflexivity].
  destruct (fdiv (lit 60) bp); [|left; eexists; right; reflexivity]. cbn [evaluate].
  destruct (Metronome.MIN_PERIODIC_ONSETS <=? Metronome.len best_aligned)%Z eqn:L;
    [|left; eexists; right; reflexivity].
  right. exists best_aligned, bp. split; [apply Z.leb_le, L|].
  split; [exists newest; split; [reflexivity | exact Found]|].
  cbn [Metronome._click_indices Metronome.set_best_periodic_count].
  destruct (compute_click_indices_after
              (Metronome.set_clicks
                 (Metronome.set_best_periodic_count m (Metronome.len best_aligned))
                 (py_sorted best_aligned) (Metronome._click_indices m)) bp)
    as [C | [[_ C] | (ks & _ & C)]]; rewrite C.
  - left. split; reflexivity.
  - right. eexists. split; [reflexivity|].
    destruct (Metronome._refit np_lstsq _) as [m4 []|m4] eqn:R.
    + right. exists m4. split; [reflexivity|].
      cbn [Metronome.bpm Metronome.period Metronome.reference_time Metronome.set_locked].
      destruct (Metronome.bpm m4); [|split; [reflexivity | auto]].
      destruct (Metronome.period m4); [|split; [reflexivity | auto]].
      destruct (Metronome.reference_time m4); [|split; [reflexivity | auto]].
      split; [reflexivity | discriminate].
    + left. exists m4. split; reflexivity.
  - right. eexists. split; [reflexivity|].
    destruct (Metronome._refit np_lstsq _) as [m4 []|m4] eqn:R.
    + right. exists m4. split; [reflexivity|].
      cbn [Metronome.bpm Metronome.period Metronome.reference_time Metronome.set_locked].
      destruct (Metronome.bpm m4); [|split; [reflexivity | auto]].
      destruct (Metronome.period m4); [|split; [reflexivity | auto]].
      destruct (Metronome.reference_time m4); [|split; [reflexivity | auto]].
      split; [reflexivity | discriminate].
    + left. exists m4. split; reflexivity.
Qed.

(** The ways [_try_lock] returns: without a lock the state changes at most
    in [_best_periodic_count]; with one, the clicks are the sorted aligned
    onsets, indexed, refitted, and the fit exists. *)
Lemma try_lock_cases (m m' : detector) (b : bool) :
  Metronome._try_lock np_lstsq m = Returns m' b ->
  (b = false /\ exists n, m' = m \/ m' = Metronome.set_best_periodic_count m n)
  \/ (b = true
      /\ exists best_aligned bp m3 m4,
           (4 <= Metronome.len best_aligned)%Z
           /\ Metronome._compute_click_indices
                (Metronome.set_clicks
                   (Metronome.set_best_periodic_count m (Metronome.len best_aligned))
                   (py_sorted best_aligned) (Metronome._click_indices m)) bp
              = Returns m3 tt
           /\ Metronome._refit np_lstsq m3 = Returns m4 tt
           /\ m' = Metronome.set_locked m4 true
           /\ Metronome.period m' <> None).
Proof.
  unfold Metronome._try_lock.
  destruct (py_last (Metronome.onset_times m)) as [newest|]; [|discriminate].
  cbn [evaluate].
  destruct (Metronome.len _ <? Metronome.MIN_PERIODIC_ONSETS)%Z.
  { intros E; inversion E; subst. left. split; [reflexivity|]. exists 0%Z. left; reflexivity. }
  destruct (Metronome.search _ _ _) as [[best_period best_aligned]|]; [|discriminate].
  cbn [evaluate fst snd]. cbv zeta.
  destruct best_period as [bp|].
  2:{ intros E; inversion E; subst. left. split; [reflexivity|]. eexists. right; reflexivity. }
  destruct (fdiv (lit 60) bp); [|discriminate]. cbn [evaluate].
  destruct (Metronome.MIN_PERIODIC_ONSETS <=? Metronome.len best_aligned)%Z eqn:L.
  2:{ intros E; inversion E; subst. left. split; [reflexivity|]. eexists. right; reflexivity. }
  destruct (Metronome._compute_click_indices _ bp) as [m3 []|m3] eqn:C; [|discriminate].
  destruct (Metronome._refit np_lstsq m3) as [m4 []|m4] eqn:R; [|discriminate].
  destruct (Metronome.bpm (Metronome.set_locked m4 true)); [|discriminate].
  destruct (Metronome.period (Metronome.set_locked m4 true)) eqn:P; [|discriminate].
  destruct (Metronome.reference_time (Metronome.set_locked m4 true)); [|discriminate].
  intros E; inversion E; subst. right. split; [reflexivity|].
  exists best_aligned, bp, m3, m4.
  split; [apply Z.leb_le, L|]. split; [exact C|]. split; [exact R|].
  split; [reflexivity|]. rewrite P. discriminate.
Qed.

Lemma add_onset_cases (m m' : detector) (t : F) (b : bool) :
  Metronome.add_onset np_lstsq m t = Returns m' b ->
  let m1 := Metronome.set_onset_times m (Metronome.onset_times m ++ [t]) in
  (b = false /\ m' = m1)
  \/ (Metronome.locked m = false /\ Metronome._try_lock np_lstsq m1 = Returns m' b).
Proof.
  unfold Metronome.add_onset. cbn [Metronome.locked Metronome.set_onset_times].
  destruct (Metronome.locked m).
  { intros E; inversion E; subst. left; split; reflexivity. }
  destruct (_ <? _)%Z.
  { intros E; inversion E; subst. left; split; reflexivity. }
  intros E. right; split; [reflexivity | exact E].
Qed.

(** The object [add_onset] leaves: the onset logged, and then, on a
    detector that is not locked, what [_try_lock] makes of it. *)
Lemma add_onset_after (m : detector) (t : F) :
  let m1 := Metronome.set_onset_times m (Metronome.onset_times m ++ [t]) in
  after (Metronome.add_onset np_lstsq m t) = m1
  \/ (Metronome.locked m = false
      /\ Metronome.add_onset np_lstsq m t = Metronome._try_lock np_lstsq m1).
Proof.
  unfold Metronome.add_onset. cbn [Metronome.locked Metronome.set_onset_times].
  destruct (Metronome.locked m); [left; reflexivity|].
  destruct (_ <? _)%Z; [left; reflexivity|].
  right; split; reflexivity.
Qed.

Lemma track_onset_false (m m' : detector) (t : F) :
  Metronome.track_onset np_lstsq m t = Returns m' false -> m' = m.
Proof.
  unfold Metronome.track_onset.
  destruct (negb (Metronome.locked m)); [intros E; inversion E; reflexivity|].
  destruct (Metronome.period m) as [p|]; [|intros E; inversion E; reflexivity].
  destruct (Metronome.reference_time m) as [r|]; [|intros E; inversion E; reflexivity].
  destruct (fdiv _ p) as [offset|]; [|discriminate]. cbn [evaluate].
  destruct (round_int offset) as [k|]; [|discriminate]. cbn [evaluate].
  destruct (flt _ _); [intros E; inversion E; reflexivity|].
  destruct (Metronome.too_close m p t); [intros E; inversion E; reflexivity|].
  destruct (_ <=? _)%Z; [|discriminate].
  destruct (Metronome._refit _ _); discriminate.
Qed.

(** [_clicks_since_refit] stays below the refit interval: [track_onset]
    resets it when it gets there, and nothing else raises it. *)
Lemma clicks_since_refit_bounded (m m' : detector) (t : F) (b : bool) :
  (Metronome._clicks_since_refit m < 4)%Z ->
  Metronome.track_onset np_lstsq m t = Returns m' b ->
  (Metronome._clicks_since_refit m' < 4)%Z.
Proof.
  intros C E. destruct b.
  - destruct (track_onset_true np_lstsq m m' t E)
      as (p & r & offset & k & _ & _ & _ & _ & _ & _ & _ & Next).
    destruct (Z.leb_spec 4 (Metronome._clicks_since_refit m + 1)).
    + destruct (refit_frame np_lstsq _ m' Next) as (_ & _ & _ & _ & Cs & _).
      rewrite Cs. cbn. lia.
    + subst m'. cbn. lia.
  - rewrite (track_onset_false m m' t E). exact C.
Qed.

Lemma add_onset_keeps_counter (m m' : detector) (t : F) (b : bool) :
  Metronome.add_onset np_lstsq m t = Returns m' b ->
  Metronome._clicks_since_refit m' = Metronome._clicks_since_refit m.
Proof.
  intros E. destruct (add_onset_cases m m' t b E) as [[_ ->] | [_ T]]; [reflexivity|].
  destruct (try_lock_cases _ m' b T)
    as [(_ & n & [-> | ->]) | (_ & al & bp & m3 & m4 & _ & C & R & -> & _)];
    try reflexivity.
  destruct (compute_click_indices_frame _ _ _ C) as (_ & _ & C3 & _).
  destruct (refit_frame np_lstsq m3 m4 R) as (_ & _ & _ & _ & C4 & _).
  cbn [Metronome._clicks_since_refit Metronome.set_locked]. rewrite C4, C3. reflexivity.
Qed.

(** In every state of a session the counter is in [0, 4). *)
Lemma reachable_counter (m : detector) :
  Pipeline.reachable np_lstsq m ->
  (0 <= Metronome._clicks_since_refit m < 4)%Z.
Proof.
  induction 1 as [|m m' t b _ IH E|m m' t b _ IH E|m m' _ IH E].
  - cbn. lia.
  - rewrite (add_onset_keeps_counter m m' t b E). exact IH.
  - split; [|apply (clicks_since_refit_bounded m m' t b (proj2 IH) E)].
    destruct b.
    + destruct (track_onset_true np_lstsq m m' t E)
        as (p & r & offset & k & _ & _ & _ & _ & _ & _ & _ & Next).
      destruct (4 <=? _)%Z.
      * destruct (refit_frame np_lstsq _ m' Next) as (_ & _ & _ & _ & Cs & _).
        rewrite Cs. cbn. lia.
      * subst m'. cbn. lia.
    + rewrite (track_onset_false m m' t E). apply IH.
  - unfold Pipeline.undo_click in E.
    destruct (Pipeline.py_pop (Metronome.click_times m)); [|discriminate].
    destruct (Pipeline.py_pop (Metronome._click_indices m)); [|discriminate].
    inversion E; subst. cbn. lia.
Qed.

(** *** The invariant of the detector *)

Lemma period_in_range_tests (p : F) :
  Metronome.period_in_range p = true ->
  fle (lit (25 # 100)) p = true /\ fle p (lit (15 # 10)) = true.
Proof.
  unfold Metronome.period_in_range, Metronome.MIN_PERIOD_S, Metronome.MAX_PERIOD_S.
  intros E. apply andb_true_iff in E. exact E.
Qed.

(** The period after [_refit], however it ends: the one before, or a fitted
    one that passed the range test. *)
Lemma refit_after_period (m : detector) :
  Metronome.period (after (Metronome._refit np_lstsq m)) = Metronome.period m
  \/ exists p,
       Metronome.period (after (Metronome._refit np_lstsq m)) = Some p
       /\ Metronome.period_in_range p = true.
Proof.
  destruct (refit_after np_lstsq m) as [E | [E | (p & r & R & [[_ E] | (b & _ & E)])]];
    rewrite E; cbn; [auto | auto | right; eauto | right; eauto].
Qed.

Lemma refit_invariant (m : detector) :
  click_invariant m -> click_invariant (after (Metronome._refit np_lstsq m)).
Proof.
  intros [Range Locked].
  destruct (refit_after_frame np_lstsq m) as (_ & L & Ts & Ks & _).
  split.
  - intros p P. destruct (refit_after_period m) as [Same | (q & Q' & R)].
    + apply Range. rewrite <- Same. exact P.
    + rewrite Q' in P. inversion P; subst. apply period_in_range_tests, R.
  - rewrite L, Ts, Ks. exact Locked.
Qed.

Lemma record_click_invariant (m : detector) (t : F) (k : Z) :
  click_invariant m ->
  Metronome.locked m = true ->
  click_invariant (Metronome.record_click m t k).
Proof.
  intros [Range Locked] L. split; [exact Range|]. intros _.
  cbn [Metronome.click_times Metronome._click_indices Metronome.record_click
       Metronome.set_clicks Metronome.set_clicks_since_refit].
  rewrite !length_app, (Locked L). reflexivity.
Qed.

Lemma track_onset_invariant (m : detector) (t : F) :
  click_invariant m -> click_invariant (after (Metronome.track_onset np_lstsq m t)).
Proof.
  intros I.
  destruct (track_onset_after np_lstsq m t)
    as [-> | (p & r & offset & k & L & _ & _ & _ & _ & _ & _ & Next)]; [exact I|].
  pose proof (record_click_invariant m t k I L) as I1.
  destruct (4 <=? _)%Z; rewrite Next; [|exact I1].
  apply refit_invariant. exact I1.
Qed.


Lemma try_lock_invariant (m : detector) :
  click_invariant m ->
  Metronome.locked m = false ->
  click_invariant (after (Metronome._try_lock np_lstsq m)).
Proof.
  intros [Range Locked] L.
  assert (Unlocked : forall m' : detector,
             Metronome.locked m' = false ->
             Metronome.period m' = Metronome.period m ->
             click_invariant m').
  { intros m' L' P'. split; [rewrite P'; exact Range | rewrite L'; discriminate]. }
  destruct (try_lock_after m)
    as [(n & [-> | ->]) | (al & bp & Len & _ & [[_ ->] | (m3 & C & Rest)])].
  - split; assumption.
  - apply Unlocked; [exact L | reflexivity].
  - apply Unlocked; [exact L | reflexivity].
  - destruct (compute_click_indices_frame _ _ _ C) as (P3 & T3 & _ & K3).
    cbn [Metronome.period Metronome.click_times Metronome.set_clicks
         Metronome.set_best_periodic_count] in P3, T3, K3.
    assert (L3 : Metronome.locked m3 = false).
    { destruct (compute_click_indices_after
                  (Metronome.set_clicks
                     (Metronome.set_best_periodic_count m (Metronome.len al))
                     (py_sorted al) (Metronome._click_indices m)) bp)
        as [R | [[_ R] | (ks & _ & R)]]; rewrite R in C; [discriminate| |];
        inversion C; subst; exact L. }
    assert (I3 : click_invariant m3).
    { split; [rewrite P3; exact Range | rewrite L3; discriminate]. }
    pose proof (refit_invariant m3 I3) as I4.
    pose proof (refit_after_frame np_lstsq m3) as Fr. cbv zeta in Fr.
    destruct Rest as [(m4 & R & ->) | (m4 & R & -> & _)]; rewrite R in I4, Fr;
      cbn [after] in I4, Fr; [exact I4|].
    destruct Fr as (_ & _ & T4 & K4 & _).
    split; [exact (proj1 I4)|]. intros _.
    cbn [Metronome.click_times Metronome._click_indices Metronome.set_locked].
    rewrite T4, K4, T3. symmetry. apply K3.
    intros N. apply (f_equal (@length F)) in N. rewrite py_sorted_length in N.
    unfold Metronome.len in Len. cbn [length] in N. lia.
Qed.

Lemma add_onset_invariant (m : detector) (t : F) :
  click_invariant m -> click_invariant (after (Metronome.add_onset np_lstsq m t)).
Proof.
  intros I. destruct (add_onset_after m t) as [-> | [L ->]].
  - exact I.
  - apply try_lock_invariant; [exact I | exact L].
Qed.

Lemma init_invariant : click_invariant (@Metronome.init F).
Proof. split; [intros p P | intros L]; discriminate. Qed.

Lemma removelast_length {A : Type} (l : list A) :
  length (removelast l) = pred (length l).
Proof.
  induction l as [|a l IH]; [reflexivity|].
  destruct l as [|b l]; [reflexivity|].
  change (removelast (a :: b :: l)) with (a :: removelast (b :: l)).
  cbn [length] in *. rewrite IH. reflexivity.
Qed.

Lemma py_pop_Some {A : Type} (l l' : list A) :
  Pipeline.py_pop l = Some l' -> l' = removelast l.
Proof.
  destruct l; [discriminate|]. intros E; inversion E; reflexivity.
Qed.

Lemma undo_click_invariant (m m' : detector) :
  click_invariant m -> Pipeline.undo_click m = Some m' -> click_invariant m'.
Proof.
  intros [Range Locked] E. unfold Pipeline.undo_click in E.
  destruct (Pipeline.py_pop (Metronome.click_times m)) as [ts|] eqn:T; [|discriminate].
  destruct (Pipeline.py_pop (Metronome._click_indices m)) as [ks|] eqn:K; [|discriminate].
  apply py_pop_Some in T, K. subst ts ks.
  cbn [bind ret] in E. inversion E; subst; clear E.
  split; [exact Range|]. intros L.
  cbn [Metronome.click_times Metronome._click_indices Metronome.set_clicks
       Metronome.set_clicks_since_refit].
  rewrite !removelast_length, (Locked L). reflexivity.
Qed.

(** The invariant holds in every state of a session. *)
Lemma reachable_invariant (m : detector) :
  Pipeline.reachable np_lstsq m -> click_invariant m.
Proof.
  induction 1 as [|m m' t b _ IH E|m m' t b _ IH E|m m' _ IH E].
  - exact init_invariant.
  - pose proof (add_onset_invariant m t IH) as I. rewrite E in I. exact I.
  - pose proof (track_onset_invariant m t IH) as I. rewrite E in I. exact I.
  - exact (undo_click_invariant m m' IH E).
Qed.

End MetronomeLock.

(** ** The metronome detector in exact arithmetic *)

Section MetronomeExact.

Variable np_lstsq : list Z -> list Q -> Q * Q.

Local Abbreviation detector := (Metronome.MetronomeDetector Q).









End MetronomeExact.

(** ** The metronome detector in binary64 *)

(** *** What a rounding returns *)

Section Binary64Rounding.

Local Open Scope Z_scope.





















End Binary64Rounding.

(** *** The comparisons of floats *)




Lemma round_defined_finite (x : float) (k : Z) :
  round_int x = Some k -> B64.is_finite x = true.
Proof.
  change (round_int x) with (B64.round x).
  unfold B64.round, B64.to_Q, B64.is_finite.
  destruct (Prim2SF x); cbn; try discriminate; reflexivity.
Qed.

Lemma finite_quotient_of_difference (x y z : float) :
  B64.is_finite (PrimFloat.div (PrimFloat.sub x y) z) = true -> B64.is_finite x = true.
Proof.
  unfold B64.is_finite. rewrite div_spec, sub_spec.
  destruct (Prim2SF x) as [sx| sx | |sx mx ex]; try reflexivity;
    destruct (Prim2SF y) as [sy| sy | |sy my ey];
    destruct (Prim2SF z) as [sz| sz | |sz mz ez]; cbn; try discriminate;
    try (destruct sx, sy; cbn; discriminate).
Qed.




(** *** [sorted] on finite floats *)



(** *** The onsets the search aligns are finite *)





(** *** The order of the clicks *)

Section MetronomeBinary64.

Variable np_lstsq : list Z -> list float -> float * float.

Local Abbreviation detector := (Metronome.MetronomeDetector float).






End MetronomeBinary64.


(** ** The online classifier *)

Section CalibrationFacts.

Context {F : Type} `{PyFloat F}.

Variable librosa_mfcc_mean : list F -> Z -> list F.
Variable librosa_centroid_mean : list F -> Z -> F.
Variable np_max_abs : list F -> F.
Variable np_sum_sq : list F -> F.
Variable np_norm : list F -> F.
Variable np_dot : list F -> list F -> F.

Local Abbreviation classify_onset :=
  (Calibration.classify_onset librosa_mfcc_mean librosa_centroid_mean
     np_max_abs np_sum_sq np_norm np_dot).
Local Abbreviation features_of :=
  (Calibration._extract_window_features librosa_mfcc_mean librosa_centroid_mean
     np_max_abs np_sum_sq).
Local Abbreviation cosine := (Calibration._cosine_similarity np_norm np_dot).

Lemma silent_window (window : list F) (sample_rate : Z) :
  flt (np_max_abs window) (lit (1 # 1000000)) = true ->
  features_of window sample_rate = Some None.
Proof.
  intros S. unfold Calibration._extract_window_features. rewrite S. reflexivity.
Qed.

Lemma cosine_tiny (a b : list F) :
  flt (np_norm a) (lit (1 # 10000000000)) = true
  \/ flt (np_norm b) (lit (1 # 10000000000)) = true ->
  cosine a b = Some (lit 0).
Proof.
  intros T. unfold Calibration._cosine_similarity.
  destruct T as [-> | ->]; [reflexivity | rewrite orb_true_r; reflexivity].
Qed.

Lemma classify_unfold (audio_buffer : list F) (onset_sample sample_rate : Z)
    (calibration : Calibration.CalibrationData F) :
  (onset_sample + Calibration.WINDOW_SAMPLES <= Z.of_nat (length audio_buffer))%Z ->
  (0 <= onset_sample)%Z ->
  classify_onset audio_buffer onset_sample sample_rate calibration
  = bind (features_of (slice audio_buffer onset_sample
                         (onset_sample + Calibration.WINDOW_SAMPLES)) sample_rate)
      (fun features =>
         match features with
         | None => Some "guitar"%string
         | Some f =>
             match Calibration.metronome calibration, Calibration.guitar calibration with
             | Some met, Some gtr =>
                 sim_met <- cosine (Calibration.mfcc f) (Calibration.mfcc_mean met) ;;
                 sim_gtr <- cosine (Calibration.mfcc f) (Calibration.mfcc_mean gtr) ;;
                 Some (if flt (fsub sim_gtr
                                 (fmul (lit (3 # 10))
                                    (fabs (fsub (Calibration.energy_decay f)
                                                (Calibration.decay_of gtr)))))
                              (fsub sim_met
                                 (fmul (lit (3 # 10))
                                    (fabs (fsub (Calibration.energy_decay f)
                                                (Calibration.decay_of met)))))
                       then "click" else "guitar")%string
             | _, _ => Some "guitar"%string
             end
         end).
Proof.
  intros Hi Lo. unfold Calibration.classify_onset.
  destruct (Z.ltb_spec (Z.of_nat (length audio_buffer))
              (onset_sample + Calibration.WINDOW_SAMPLES)); [lia|].
  destruct (Z.ltb_spec onset_sample 0); [lia|]. reflexivity.
Qed.

(** C7 (as amended).  [classify_onset] returns ['guitar'] when the window
    overruns the buffer or starts at a negative index, when the window is
    silent, and (once the features are extracted) when a profile is
    missing.  When MFCC norms are below 1e-10 both cosine similarities are
    0 and the outcome is decided by the energy decay alone: ['click'] if
    the onset's decay is strictly closer to the metronome profile's than to
    the guitar profile's, ['guitar'] otherwise. *)
Theorem classify_guitar_defaults (audio_buffer : list F) (onset_sample sample_rate : Z)
    (calibration : Calibration.CalibrationData F) :
  ((Z.of_nat (length audio_buffer) < onset_sample + Calibration.WINDOW_SAMPLES)%Z
   \/ (onset_sample < 0)%Z ->
   classify_onset audio_buffer onset_sample sample_rate calibration = Some "guitar"%string)
  /\ ((onset_sample + Calibration.WINDOW_SAMPLES <= Z.of_nat (length audio_buffer))%Z ->
      (0 <= onset_sample)%Z ->
      let window := slice audio_buffer onset_sample
                      (onset_sample + Calibration.WINDOW_SAMPLES) in
      (flt (np_max_abs window) (lit (1 # 1000000)) = true ->
       classify_onset audio_buffer onset_sample sample_rate calibration
       = Some "guitar"%string)
      /\ (forall f, features_of window sample_rate = Some (Some f) ->
          (Calibration.metronome calibration = None
           \/ Calibration.guitar calibration = None ->
           classify_onset audio_buffer onset_sample sample_rate calibration
           = Some "guitar"%string)
          /\ (forall met gtr,
                Calibration.metronome calibration = Some met ->
                Calibration.guitar calibration = Some gtr ->
                flt (np_norm (Calibration.mfcc f)) (lit (1 # 10000000000)) = true
                \/ (flt (np_norm (Calibration.mfcc_mean met)) (lit (1 # 10000000000)) = true
                    /\ flt (np_norm (Calibration.mfcc_mean gtr)) (lit (1 # 10000000000))
                       = true) ->
                classify_onset audio_buffer onset_sample sample_rate calibration
                = Some (if flt (fsub (lit 0)
                                  (fmul (lit (3 # 10))
                                     (fabs (fsub (Calibration.energy_decay f)
                                                 (Calibration.decay_of gtr)))))
                               (fsub (lit 0)
                                  (fmul (lit (3 # 10))
                                     (fabs (fsub (Calibration.energy_decay f)
                                                 (Calibration.decay_of met)))))
                        then "click" else "guitar")%string))).
Proof.
  split.
  - intros Out. unfold Calibration.classify_onset.
    destruct Out as [Hi | Lo].
    + destruct (Z.ltb_spec (Z.of_nat (length audio_buffer))
                  (onset_sample + Calibration.WINDOW_SAMPLES)); [reflexivity | lia].
    + destruct (Z.ltb_spec onset_sample 0); [|lia].
      rewrite orb_true_r. reflexivity.
  - intros Hi Lo window.
    rewrite (classify_unfold audio_buffer onset_sample sample_rate calibration Hi Lo).
    fold window. split.
    + intros S. rewrite (silent_window window sample_rate S). reflexivity.
    + intros f Ft. rewrite Ft; cbn [bind]. split.
      * intros [-> | ->]; [reflexivity|].
        destruct (Calibration.metronome calibration); reflexivity.
      * intros met gtr -> -> T.
        rewrite !cosine_tiny; [reflexivity | |];
          destruct T as [T | [T1 T2]]; auto.
Qed.

End CalibrationFacts.

(** Two profiles with zero MFCC means, told apart by energy decay: the
    window whose energy comes late is classified as a click. *)
Lemma zero_norm_profiles_classify_click :
  Calibration.classify_onset flat_mfcc flat_centroid max_abs64 sum_sq64 norm64 dot64
    late_burst 0 44100 zero_mfcc_profiles
  = Some "click"%string.
Proof. vm_compute. reflexivity. Qed.

(** ** The grid aligner in binary64 *)






(** ** The properties on concrete sessions *)

Lemma locked_at_120_reached :
  feed ols Metronome.init [1 # 2; 1; 3 # 2; 2] = Some locked_at_120.
Proof. vm_compute. reflexivity. Qed.

Lemma three_tracked_reached :
  track_all ols locked_at_120 [5 # 2; 3; 7 # 2] = Some three_tracked.
Proof. vm_compute. reflexivity. Qed.

Example four_clicks_lock_at_120 :
  option_map (fun m => (Metronome.locked m, Metronome.bpm m))
    (feed ols Metronome.init (map B64.of_Q [1 # 2; 1; 3 # 2; 2]))
  = Some (true, Some (B64.of_Z 120)).
Proof. vm_compute. reflexivity. Qed.

Lemma three_periodic_onsets_count_zero :
  option_map (fun m => (Metronome.locked m, Metronome.click_count m))
    (feed ols Metronome.init [1 # 2; 1; 3 # 2])
  = Some (false, 0%Z)
  /\ option_map Metronome.click_count (feed ols Metronome.init [1 # 2; 1; 3 # 2])
     <> Some 3%Z.
Proof. split; vm_compute; [reflexivity | discriminate]. Qed.





Lemma locked64_at_120_invariant : click_invariant locked64_at_120.
Proof.
  split.
  - intros p P. inversion P; subst. split; vm_compute; reflexivity.
  - intros _. reflexivity.
Qed.



Lemma track_onset_cases_witness :
  Metronome.locked three_tracked = true
  /\ Metronome.period three_tracked = Some (160 # 320)
  /\ Metronome.reference_time three_tracked = Some (2560 # 5120)
  /\ py_last (Metronome.click_times three_tracked) = Some (7 # 2)
  /\ (Metronome._clicks_since_refit three_tracked < 4)%Z
  /\ (* 4.3 s is 200 ms off the grid and 0.8 s after the last click *)
     (Qabs (((43 # 10) - (2560 # 5120)) / (160 # 320) - 8) * (160 # 320) * 1000 == 200
      /\ (43 # 10) - (7 # 2) == 8 # 10
      /\ Metronome.track_onset ols three_tracked (43 # 10) = Returns three_tracked false)
  /\ (* 3.55 s is 50 ms off the grid and 50 ms after the last click *)
     (Qabs (((71 # 20) - (2560 # 5120)) / (160 # 320) - 6) * (160 # 320) * 1000 == 50
      /\ (71 # 20) - (7 # 2) == 5 # 100
      /\ Metronome.track_onset ols three_tracked (71 # 20) = Returns three_tracked false)
  /\ Metronome.track_onset ols three_tracked (402 # 100) = Returns refitted true
  /\ Metronome._clicks_since_refit refitted = 0%Z
  /\ Metronome.track_onset ols locked_at_120 (5 # 2) = Returns tracked_once true
  /\ Metronome._clicks_since_refit tracked_once = 1%Z.
Proof.
  do 3 (split; [reflexivity|]). split; [vm_compute; reflexivity|].
  split; [vm_compute; reflexivity|].
  split; [split; [vm_compute; reflexivity|]; split; [vm_compute; reflexivity|]|
          split; [split; [vm_compute; reflexivity|]; split; [vm_compute; reflexivity|]|
                  split; [|split; [reflexivity|split; [|reflexivity]]]]].
  - (* 4.3 s: 200 ms off the grid, well after the last click *)
    destruct (track_onset_cases ols three_tracked (43 # 10) (160 # 320) (2560 # 5120)
                (((43 # 10) - (2560 # 5120)) / (160 # 320)) 8)
      as (Rejected & _); [vm_compute; reflexivity ..|].
    apply Rejected. vm_compute; reflexivity.
  - (* 3.55 s: 50 ms off the grid, 50 ms after the last click *)
    destruct (track_onset_cases ols three_tracked (71 # 20) (160 # 320) (2560 # 5120)
                (((71 # 20) - (2560 # 5120)) / (160 # 320)) 6)
      as (Rejected & _); [vm_compute; reflexivity ..|].
    apply Rejected. vm_compute; reflexivity.
  - (* 4.02 s: the fourth click since the last fit *)
    destruct (track_onset_cases ols three_tracked (402 # 100) (160 # 320) (2560 # 5120)
                (((402 # 100) - (2560 # 5120)) / (160 # 320)) 7)
      as (_ & Accepted & _); [vm_compute; reflexivity ..|].
    rewrite (proj1 (Accepted ltac:(vm_compute; reflexivity)) ltac:(vm_compute; reflexivity)).
    vm_compute. reflexivity.
  - (* 2.5 s: the first click after the lock *)
    destruct (track_onset_cases ols locked_at_120 (5 # 2) (160 # 320) (2560 # 5120)
                (((5 # 2) - (2560 # 5120)) / (160 # 320)) 4)
      as (_ & Accepted & _); [vm_compute; reflexivity ..|].
    rewrite (proj2 (Accepted ltac:(vm_compute; reflexivity)) ltac:(vm_compute; discriminate)).
    vm_compute. reflexivity.
Defined.

Lemma refit_only_in_range_witness :
  (2 <= Metronome.len (Metronome.click_times locked_at_120))%Z
  /\ ols (Metronome._click_indices locked_at_120) (Metronome.click_times locked_at_120)
     = (160 # 320, 2560 # 5120)
  /\ fle (lit (25 # 100)) (160 # 320) && fle (160 # 320) (lit (15 # 10)) = true
  /\ Metronome.bpm (after (Metronome._refit ols locked_at_120)) = Some (60 / (160 # 320))
  /\ fst (ols (Metronome._click_indices early_fourth) (Metronome.click_times early_fourth))
     == 247 # 1000
  /\ Metronome._refit ols early_fourth = Returns early_fourth tt
  /\ Metronome._refit ols Metronome.init = Returns Metronome.init tt.
Proof.
  split; [vm_compute; discriminate|]. split; [vm_compute; reflexivity|].
  split; [reflexivity|].
  destruct (proj2 (refit_only_in_range ols locked_at_120) (160 # 320) (2560 # 5120))
    as (_ & Accepted); [vm_compute; discriminate | reflexivity | vm_compute; reflexivity|].
  rewrite (Accepted eq_refl (60 / (160 # 320)) eq_refl).
  split; [reflexivity|]. split; [vm_compute; reflexivity|].
  split.
  - destruct (ols (Metronome._click_indices early_fourth) (Metronome.click_times early_fourth))
      as [p r] eqn:Fit.
    destruct (proj2 (refit_only_in_range ols early_fourth) p r)
      as (Rejected & _); [vm_compute; discriminate | reflexivity | exact Fit|].
    apply Rejected. vm_compute in Fit. inversion Fit; subst. vm_compute. reflexivity.
  - apply (proj1 (refit_only_in_range ols Metronome.init)). vm_compute. reflexivity.
Defined.

Lemma negative_index_bar_floors_witness :
  Grid.grid_index grid_at_120 (1 # 10) = Some (-2)%Z
  /\ (-2 < 0)%Z
  /\ exists dev near beat,
       Grid.compute_deviation grid_at_120 (1 # 10) = Some (dev, near, 0%Z, beat)
       /\ (Grid.subdivisions_per_bar grid_at_120 * (0 - 1) <= -2
           < Grid.subdivisions_per_bar grid_at_120 * 0)%Z.
Proof.
  split; [vm_compute; reflexivity|]. split; [lia|].
  destruct (Grid.compute_deviation grid_at_120 (1 # 10))
    as [[[[dev near] bar] beat]|] eqn:E; [|vm_compute in E; discriminate].
  destruct (negative_index_bar_floors grid_at_120 (1 # 10) (-2) dev near bar beat)
    as (B & _ & Fl); [vm_compute; reflexivity | lia | exact E |].
  change (-2 / Grid.subdivisions_per_bar grid_at_120 + 1)%Z with 0%Z in B. subst bar.
  exists dev, near, beat. split; [reflexivity | exact Fl].
Defined.


Lemma undo_keeps_refit_witness :
  Metronome._clicks_since_refit three_tracked = 3%Z
  /\ Metronome.track_onset ols three_tracked (402 # 100) = Returns refitted true
  /\ Pipeline.post_lock_decision ols three_tracked (402 # 100) (Some "guitar"%string)
     = Some (undone, false)
  /\ Metronome.period undone = Metronome.period refitted
  /\ Metronome.period three_tracked = Some (160 # 320)
  /\ Metronome.period undone = Some (431513600 # 860160000)
  /\ ~ (431513600 # 860160000) == (160 # 320)
  /\ undone <> three_tracked.
Proof.
  split; [reflexivity|].
  assert (E : Metronome.track_onset ols three_tracked (402 # 100) = Returns refitted true)
    by (vm_compute; reflexivity).
  split; [exact E|].
  destruct (undo_keeps_refit ols three_tracked refitted (402 # 100) eq_refl E)
    as (k & m2 & _ & D & U & P & _ & _ & _ & _ & _ & N).
  assert (M : m2 = undone).
  { assert (U' : Pipeline.undo_click refitted = Some undone) by (vm_compute; reflexivity).
    rewrite U' in U. inversion U; reflexivity. }
  subst m2.
  split; [exact D|]. split; [exact P|]. split; [reflexivity|]. split; [reflexivity|].
  split; [|exact N].
  unfold Qeq; simpl; lia.
Defined.

Lemma classify_guitar_defaults_witness :
  (0 + Calibration.WINDOW_SAMPLES <= Z.of_nat (length late_burst))%Z
  /\ PrimFloat.ltb (norm64 (zeros 13)) (B64.of_Q (1 # 10000000000)) = true
  /\ Calibration.classify_onset flat_mfcc flat_centroid max_abs64 sum_sq64 norm64 dot64
       late_burst 0 44100 (Calibration.Build_CalibrationData None None)
     = Some "guitar"%string.
Proof.
  split; [vm_compute; discriminate|]. split; [vm_compute; reflexivity|].
  destruct (Calibration._extract_window_features flat_mfcc flat_centroid max_abs64
              sum_sq64 (slice late_burst 0 (0 + Calibration.WINDOW_SAMPLES)) 44100)
    as [[f|]|] eqn:Ft; [|vm_compute in Ft; discriminate ..].
  destruct (proj2 (classify_guitar_defaults flat_mfcc flat_centroid max_abs64 sum_sq64
                     norm64 dot64 late_burst 0 44100
                     (Calibration.Build_CalibrationData None None)))
    as (_ & Features); [vm_compute; discriminate | lia |].
  apply (proj1 (Features f Ft)). left; reflexivity.
Defined.

(** * Further properties *)

(** ** The frames of a chunk *)

Section OnsetFrames.

Context {F : Type} `{PyFloat F}.
Variable np_rms : list F -> F.

Local Abbreviation detector := (Onset.RealtimeOnsetDetector F).

Lemma chunk_offsets_count (chunk : list F) :
  length (Onset.chunk_offsets chunk)
  = Z.to_nat (Z.of_nat (length chunk) / 256 - 1).
Proof.
  unfold Onset.chunk_offsets, py_range, Onset.frame_size, Onset.hop_size.
  rewrite length_map, length_seq. f_equal.
  replace (Z.of_nat (length chunk) - 512 + 1 - 0 + 256 - 1)%Z
    with (Z.of_nat (length chunk) + (-1) * 256)%Z by lia.
  rewrite Z.div_add by lia. lia.
Qed.

Lemma chunk_offsets_In (chunk : list F) (i : Z) :
  In i (Onset.chunk_offsets chunk)
  <-> exists k : nat, i = (256 * Z.of_nat k)%Z
                      /\ (256 * Z.of_nat k + 512 <= Z.of_nat (length chunk))%Z.
Proof.
  unfold Onset.chunk_offsets, py_range, Onset.frame_size, Onset.hop_size.
  rewrite in_map_iff.
  replace (Z.of_nat (length chunk) - 512 + 1 - 0 + 256 - 1)%Z
    with (Z.of_nat (length chunk) + (-1) * 256)%Z by lia.
  rewrite Z.div_add by lia.
  pose proof (Z.div_mod (Z.of_nat (length chunk)) 256 ltac:(lia)) as E.
  pose proof (Z.mod_pos_bound (Z.of_nat (length chunk)) 256 ltac:(lia)) as B.
  split.
  - intros (k & <- & Hk). apply in_seq in Hk. exists k. split; lia.
  - intros (k & -> & Hk). exists k. split; [lia|]. apply in_seq. lia.
Qed.

Lemma slice_length {A : Type} (a : list A) (i j : Z) :
  (0 <= i)%Z -> (i <= j)%Z -> (j <= Z.of_nat (length a))%Z ->
  Z.of_nat (length (slice a i j)) = (j - i)%Z.
Proof.
  intros Hi Hij Hj. unfold slice. rewrite length_firstn, length_skipn. lia.
Qed.

(** X1.  A chunk of [n] samples is analysed in [max(0, n // 256 - 1)]
    frames; every frame has exactly 512 samples, starts at a multiple of 256
    and ends inside the chunk: no frame is padded, and the samples after
    the last full frame are not analysed. *)
Theorem chunk_frames_shape (base : Z) (chunk : list F) :
  length (Onset.chunk_frames base chunk)
  = Z.to_nat (Z.of_nat (length chunk) / 256 - 1)
  /\ Forall (fun pf =>
               Z.of_nat (length (snd pf)) = Onset.frame_size
               /\ exists k : nat,
                    fst pf = (base + 256 * Z.of_nat k)%Z
                    /\ (256 * Z.of_nat k + 512 <= Z.of_nat (length chunk))%Z
                    /\ snd pf = slice chunk (256 * Z.of_nat k) (256 * Z.of_nat k + 512))
            (Onset.chunk_frames base chunk).
Proof.
  split.
  - unfold Onset.chunk_frames. rewrite length_map. apply chunk_offsets_count.
  - apply Forall_forall. intros [pos fr] Hin.
    unfold Onset.chunk_frames in Hin. apply in_map_iff in Hin.
    destruct Hin as (i & E & Hi). inversion E; subst pos fr; clear E.
    apply chunk_offsets_In in Hi. destruct Hi as (k & -> & Hk).
    cbn [fst snd]. unfold Onset.frame_size. split.
    + rewrite slice_length; lia.
    + exists k. repeat split; lia.
Qed.

(** X2.  A chunk shorter than one frame (fewer than 512 samples) is not
    analysed at all: [process_chunk] returns no onset and changes nothing
    but the sample counter, which advances by the length of the chunk. *)
Theorem short_chunk_adds_samples_only (d : detector) (chunk : list F) :
  (Z.of_nat (length chunk) < Onset.frame_size)%Z ->
  Onset.process_chunk np_rms d chunk
  = Some (Onset.set_total_samples d
            (Onset.total_samples d + Z.of_nat (length chunk)), []).
Proof.
  unfold Onset.frame_size. intros Hshort.
  assert (E : Onset.chunk_offsets chunk = []).
  { apply length_zero_iff_nil. rewrite chunk_offsets_count.
    pose proof (Z.div_mod (Z.of_nat (length chunk)) 256 ltac:(lia)).
    pose proof (Z.mod_pos_bound (Z.of_nat (length chunk)) 256 ltac:(lia)).
    lia. }
  unfold Onset.process_chunk. rewrite E. reflexivity.
Qed.

End OnsetFrames.

(** ** The onsets of a run *)

Section OnsetTrace.

Context {F : Type} `{PyFloat F}.
Variable np_rms : list F -> F.

Local Abbreviation detector := (Onset.RealtimeOnsetDetector F).

Lemma rising_edge_effect (d d' : detector) (o o' : list F) (pos : Z) :
  Onset.rising_edge d o pos = Some (d', o') -> frame_effect d d' o o' pos.
Proof.
  unfold Onset.rising_edge. destruct (int_div pos (Onset.sample_rate d)) as [t|] eqn:E;
    cbn [bind]; [|discriminate].
  destruct (Onset.last_onset_time d) as [p|] eqn:L.
  - destruct (fle (Onset.min_interval_seconds d) (fsub t p)) eqn:A;
      intros R; inversion R; subst; clear R; unfold frame_effect; cbn.
    + repeat split; try reflexivity. right. exists t. rewrite L. auto.
    + repeat split; try reflexivity. left. auto.
  - intros R; inversion R; subst; clear R; unfold frame_effect; cbn.
    repeat split; try reflexivity. right. exists t. rewrite L. auto.
Qed.

Lemma gate_step_effect (d d' : detector) (o o' : list F) (pos : Z) (th : F) :
  Onset.gate_step d o pos th = Some (d', o') -> frame_effect d d' o o' pos.
Proof.
  unfold Onset.gate_step.
  destruct (flt th (Onset.smoothed_rms d)).
  - destruct (negb (Onset._above_threshold d)).
    + intros R. apply rising_edge_effect in R. exact R.
    + intros R; inversion R; subst. unfold frame_effect. auto.
  - destruct (flt (Onset.smoothed_rms d) (fmul th Onset.hysteresis_ratio));
      intros R; inversion R; subst; unfold frame_effect; cbn; auto.
Qed.

Lemma baseline_step_fields (d d' : detector) (rms : F) (pos : Z) :
  Onset.baseline_step d rms pos = Some d' ->
  Onset.sample_rate d' = Onset.sample_rate d
  /\ Onset.min_interval_seconds d' = Onset.min_interval_seconds d
  /\ Onset.last_onset_time d' = Onset.last_onset_time d
  /\ Onset.smoothed_rms d' = Onset.smoothed_rms d
  /\ Onset._above_threshold d' = Onset._above_threshold d
  /\ Onset._frame_count d' = (Onset._frame_count d + 1)%Z.
Proof.
  unfold Onset.baseline_step. cbv zeta.
  match goal with |- context [bind ?m _] => destruct m end; cbn [bind]; [|discriminate].
  intros R; inversion R; subst; cbn. auto 10.
Qed.

Lemma frame_body_effect (d d' : detector) (o o' : list F) (pos : Z) (fr : list F) :
  Onset.frame_body np_rms d o pos fr = Some (d', o') -> frame_effect d d' o o' pos.
Proof.
  unfold Onset.frame_body. cbv zeta.
  match goal with |- context [Onset.gate_step ?a ?b ?c ?e] =>
    destruct (Onset.gate_step a b c e) as [[d1 o1]|] eqn:G end; cbn [bind]; [|discriminate].
  apply gate_step_effect in G. cbn [fst snd].
  destruct (Onset.baseline_step d1 (np_rms fr) pos) as [d2|] eqn:B; cbn [bind]; [|discriminate].
  apply baseline_step_fields in B. destruct B as (B1 & B2 & B3 & _).
  intros R; inversion R; subst; clear R.
  destruct G as (G1 & G2 & G3). cbn in G1, G2, G3.
  unfold frame_effect. rewrite B1, B2, B3, G1, G2.
  repeat split; try reflexivity. exact G3.
Qed.

Lemma spaced_app (gap : F) (prev : option F) (l1 l2 : list F) :
  spaced gap prev (l1 ++ l2)
  <-> spaced gap prev l1 /\ spaced gap (newest_of prev l1) l2.
Proof.
  revert prev; induction l1 as [|t l1 IH]; intros prev.
  - cbn. tauto.
  - cbn [app spaced]. rewrite IH.
    assert (E : newest_of prev (t :: l1) = newest_of (Some t) l1).
    { unfold newest_of. destruct l1 as [|u l1]; [reflexivity|].
      rewrite py_last_cons. reflexivity. }
    rewrite E. tauto.
Qed.

Lemma newest_of_app {A : Type} (prev : option A) (l1 l2 : list A) :
  newest_of prev (l1 ++ l2) = newest_of (newest_of prev l1) l2.
Proof.
  unfold newest_of. destruct l2 as [|x l2 _] using rev_ind.
  - rewrite app_nil_r. cbn. destruct (py_last l1); reflexivity.
  - rewrite app_assoc, !py_last_snoc. reflexivity.
Qed.

(** The onsets a run of the loop body adds, over any list of frames. *)
Lemma run_frames_trace (frames : list (Z * list F)) (d d' : detector) (o o' : list F) :
  Onset.run_frames np_rms (d, o) frames = Some (d', o') ->
  Onset.sample_rate d' = Onset.sample_rate d
  /\ Onset.min_interval_seconds d' = Onset.min_interval_seconds d
  /\ exists new,
       o' = o ++ new
       /\ spaced (Onset.min_interval_seconds d) (Onset.last_onset_time d) new
       /\ Onset.last_onset_time d' = newest_of (Onset.last_onset_time d) new
       /\ Forall (fun t => exists pos fr,
                    In (pos, fr) frames
                    /\ int_div pos (Onset.sample_rate d) = Some t) new.
Proof.
  revert d o; induction frames as [|[pos fr] frames IH]; intros d o R.
  - inversion R; subst. repeat split; try reflexivity.
    exists []. rewrite app_nil_r. cbn. auto.
  - rewrite run_frames_cons in R.
    destruct (Onset.frame_body np_rms d o pos fr) as [[d1 o1]|] eqn:E;
      cbn [bind] in R; [|discriminate].
    apply frame_body_effect in E. destruct E as (E1 & E2 & E3).
    apply IH in R. destruct R as (R1 & R2 & new & -> & Sp & La & Fr).
    rewrite E1 in R1. rewrite E2 in R2. rewrite E1, E2 in *.
    split; [exact R1|]. split; [exact R2|].
    assert (Fr' : Forall (fun t => exists pos0 fr0,
                            In (pos0, fr0) ((pos, fr) :: frames)
                            /\ int_div pos0 (Onset.sample_rate d) = Some t) new).
    { eapply Forall_impl; [|exact Fr]. intros t (p & f & I & D).
      exists p, f. split; [right; exact I | exact D]. }
    destruct E3 as [(-> & L) | (t & D & -> & L & A)].
    + exists new. rewrite L in *. auto.
    + exists (t :: new). rewrite <- app_assoc. cbn [app]. rewrite L in *.
      split; [reflexivity|]. split; [cbn [spaced]; auto|].
      split.
      * rewrite La. unfold newest_of. destruct new as [|u new]; [reflexivity|].
        rewrite py_last_cons. reflexivity.
      * constructor; [|exact Fr']. exists pos, fr. split; [left; reflexivity | exact D].
Qed.

(** X3.  Every onset [process_chunks] reports is the start time
    [pos / sample_rate] of one of the frames it analysed, and the
    configuration ([sample_rate], [min_interval_seconds]) is never
    changed. *)
Theorem onsets_are_frame_starts (d d' : detector) (chunks : list (list F))
    (onsets : list F) :
  Onset.process_chunks np_rms d chunks = Some (d', onsets) ->
  Onset.sample_rate d' = Onset.sample_rate d
  /\ Onset.min_interval_seconds d' = Onset.min_interval_seconds d
  /\ Forall (fun t => exists pos fr,
               In (pos, fr) (Onset.stream_frames (Onset.total_samples d) chunks)
               /\ int_div pos (Onset.sample_rate d) = Some t) onsets.
Proof.
  rewrite process_chunks_run.
  destruct (Onset.run_frames np_rms (d, [])
              (Onset.stream_frames (Onset.total_samples d) chunks)) as [[d1 o1]|] eqn:R;
    cbn [bind]; [|discriminate].
  intros E; inversion E; subst; clear E. cbn [fst snd].
  apply run_frames_trace in R. destruct R as (R1 & R2 & new & -> & _ & _ & Fr).
  cbn. auto.
Qed.

(** X4.  The minimum interval holds across chunk boundaries: in the onsets
    of any sequence of calls, each onset follows the one before it - the
    first follows the last onset of the state the calls start from - by at
    least [min_interval_seconds], in the sense of the code's own test
    [onset_time - last >= min_interval_seconds]; and the detector
    remembers the last onset reported. *)
Theorem onsets_respect_min_interval (d d' : detector) (chunks : list (list F))
    (onsets : list F) :
  Onset.process_chunks np_rms d chunks = Some (d', onsets) ->
  spaced (Onset.min_interval_seconds d) (Onset.last_onset_time d) onsets
  /\ Onset.last_onset_time d' = newest_of (Onset.last_onset_time d) onsets.
Proof.
  rewrite process_chunks_run.
  destruct (Onset.run_frames np_rms (d, [])
              (Onset.stream_frames (Onset.total_samples d) chunks)) as [[d1 o1]|] eqn:R;
    cbn [bind]; [|discriminate].
  intros E; inversion E; subst; clear E. cbn [fst snd].
  apply run_frames_trace in R. destruct R as (_ & _ & new & -> & Sp & La & _).
  cbn. auto.
Qed.

(** X5.  [reset] after any number of chunks gives back the detector
    [__init__] built: the adaptive state, the onset memory and the sample
    counter are those of a fresh detector with the same configuration. *)
Theorem reset_restores_init (sr : Z) (min_interval : F) (chunks : list (list F))
    (d' : detector) (onsets : list F) :
  Onset.process_chunks np_rms (Onset.init sr min_interval) chunks = Some (d', onsets) ->
  Onset.reset d' = Onset.init sr min_interval
  /\ Onset.total_samples d' = Onset.total_length chunks.
Proof.
  rewrite process_chunks_run.
  destruct (Onset.run_frames np_rms (Onset.init sr min_interval, [])
              (Onset.stream_frames (Onset.total_samples (Onset.init sr min_interval)) chunks))
    as [[d1 o1]|] eqn:R; cbn [bind]; [|discriminate].
  intros E; inversion E; subst; clear E.
  apply run_frames_trace in R. destruct R as (R1 & R2 & _).
  unfold Onset.reset. cbn in *. rewrite R1, R2. auto.
Qed.

End OnsetTrace.

(** ** The lock of the metronome detector *)

Lemma filterM_sub {A : Type} (f : A -> option bool) (l r : list A) :
  filterM f l = Some r ->
  (forall x, In x r -> In x l) /\ (length r <= length l)%nat.
Proof.
  revert r; induction l as [|a l IH]; intros r E.
  - inversion E; subst. split; [auto | cbn; lia].
  - cbn in E. destruct (f a) as [b|]; cbn [bind] in E; [|discriminate].
    destruct (filterM f l) as [r0|]; cbn [bind] in E; [|discriminate].
    destruct (IH r0 eq_refl) as (I & L).
    inversion E; subst; clear E. destruct b; cbn.
    + split; [intros x [->|Hx]; auto | lia].
    + split; [intros x Hx; auto | lia].
Qed.

Section MetronomeSession.

Context {F : Type} `{PyFloat F}.
Variable np_lstsq : list Z -> list F -> F * F.

Local Abbreviation detector := (Metronome.MetronomeDetector F).

Lemma try_divisor_within (times : list F) (ti raw : F) (best best' : option F * list F)
    (divisor : Z) :
  aligned_within times best ->
  Metronome.try_divisor times ti raw best divisor = Some best' ->
  aligned_within times best'.
Proof.
  intros W. unfold Metronome.try_divisor.
  destruct (fdiv raw (of_int divisor)) as [p|]; cbn [bind]; [|discriminate].
  destruct (flt p Metronome.MIN_PERIOD_S || flt Metronome.MAX_PERIOD_S p).
  { intros E; inversion E; subst; exact W. }
  destruct (Metronome.aligned_onsets times ti p) as [al|] eqn:A; cbn [bind]; [|discriminate].
  apply filterM_sub in A.
  destruct (_ <? _)%Z; intros E; inversion E; subst; [exact A | exact W].
Qed.

Lemma try_pair_within (times : list F) (ti : F) (best best' : option F * list F) (tj : F) :
  aligned_within times best ->
  Metronome.try_pair times ti best tj = Some best' ->
  aligned_within times best'.
Proof.
  intros W E. unfold Metronome.try_pair in E.
  revert W E. apply (foldM_inv (aligned_within times)). intros a b a'. apply try_divisor_within.
Qed.

Lemma search_within (times suffix : list F) (best best' : option F * list F) :
  aligned_within times best ->
  Metronome.search times suffix best = Some best' ->
  aligned_within times best'.
Proof.
  revert best; induction suffix as [|ti rest IH]; intros best W E.
  - inversion E; subst; exact W.
  - cbn in E.
    destruct (foldM (Metronome.try_pair times ti) best rest) as [b1|] eqn:Fo;
      cbn [bind] in E; [|discriminate].
    assert (W1 : aligned_within times b1).
    { revert W Fo. apply (foldM_inv (aligned_within times)). intros a b a'. apply try_pair_within. }
    destruct (6 <=? _)%Z; [inversion E; subst; exact W1 | eapply IH; eassumption].
Qed.

(** The ways [_refit] returns, on the fit. *)
Lemma refit_fit (m m' : detector) :
  Metronome._refit np_lstsq m = Returns m' tt ->
  m' = m
  \/ exists p r b,
       m' = Metronome.set_fit m p r b
       /\ Metronome.period_in_range p = true
       /\ fdiv (lit 60) p = Some b.
Proof.
  intros E.
  destruct (refit_after np_lstsq m) as [R | [R | (p & r & P & [[_ R] | (b & D & R)])]];
    rewrite R in E; try discriminate; inversion E; subst; [auto|].
  right. exists p, r, b. auto.
Qed.

(** [_try_lock] returning [True], taken apart. *)
Lemma try_lock_true (m m' : detector) :
  Metronome._try_lock np_lstsq m = Returns m' true ->
  exists newest best_aligned bp m3 m4,
    py_last (Metronome.onset_times m) = Some newest
    /\ aligned_within (filter (fun t => fle (fsub newest Metronome.WINDOW_S) t)
                 (Metronome.onset_times m)) (Some bp, best_aligned)
    /\ (4 <= Metronome.len best_aligned)%Z
    /\ Metronome._compute_click_indices
         (Metronome.set_clicks
            (Metronome.set_best_periodic_count m (Metronome.len best_aligned))
            (py_sorted best_aligned) (Metronome._click_indices m)) bp
       = Returns m3 tt
    /\ Metronome._refit np_lstsq m3 = Returns m4 tt
    /\ m' = Metronome.set_locked m4 true
    /\ Metronome.bpm m4 <> None
    /\ Metronome.period m4 <> None
    /\ Metronome.reference_time m4 <> None.
Proof.
  unfold Metronome._try_lock.
  destruct (py_last (Metronome.onset_times m)) as [newest|]; [|discriminate].
  cbn [evaluate].
  destruct (Metronome.len _ <? Metronome.MIN_PERIODIC_ONSETS)%Z; [discriminate|].
  destruct (Metronome.search _ _ _) as [[best_period best_aligned]|] eqn:S; [|discriminate].
  cbn [evaluate fst snd]. cbv zeta.
  apply search_within in S; [|split; cbn; [tauto | lia]].
  destruct best_period as [bp|]; [|discriminate].
  destruct (fdiv (lit 60) bp); [|discriminate]. cbn [evaluate].
  destruct (Metronome.MIN_PERIODIC_ONSETS <=? Metronome.len best_aligned)%Z eqn:L;
    [|discriminate].
  destruct (Metronome._compute_click_indices _ bp) as [m3 []|m3] eqn:C; [|discriminate].
  destruct (Metronome._refit np_lstsq m3) as [m4 []|m4] eqn:R; [|discriminate].
  cbn [Metronome.bpm Metronome.period Metronome.reference_time Metronome.set_locked].
  destruct (Metronome.bpm m4) eqn:Bq; [|discriminate].
  destruct (Metronome.period m4) eqn:Pq; [|discriminate].
  destruct (Metronome.reference_time m4) eqn:Rq; [|discriminate].
  intros E; inversion E; subst.
  exists newest, best_aligned, bp, m3, m4.
  split; [reflexivity|]. split; [exact S|]. split; [apply Z.leb_le, L|].
  split; [exact C|]. split; [exact R|]. split; [reflexivity|].
  rewrite Bq, Pq, Rq. repeat split; intros N; discriminate N.
Qed.

Lemma compute_click_indices_log (m m' : detector) (bp : F) :
  Metronome._compute_click_indices m bp = Returns m' tt ->
  Metronome.onset_times m' = Metronome.onset_times m
  /\ Metronome.locked m' = Metronome.locked m
  /\ Metronome._best_periodic_count m' = Metronome._best_periodic_count m.
Proof.
  unfold Metronome._compute_click_indices.
  destruct (Metronome.click_times m); [intros E; inversion E; auto|].
  destruct (mapM _ _); cbn [evaluate]; [|discriminate].
  intros E; inversion E; subst. cbn. auto.
Qed.

(** What [add_onset] does to the onset log and to the lock. *)
Lemma add_onset_effect (m m' : detector) (t : F) (b : bool) :
  Metronome.add_onset np_lstsq m t = Returns m' b ->
  Metronome.onset_times m' = Metronome.onset_times m ++ [t]
  /\ Metronome.locked m' = Metronome.locked m || b
  /\ (b = true ->
      Metronome.locked m = false
      /\ Metronome.bpm m' <> None
      /\ Metronome.period m' <> None
      /\ Metronome.reference_time m' <> None).
Proof.
  intros E. destruct (add_onset_cases np_lstsq m m' t b E) as [[-> ->] | [U T]].
  - cbn. rewrite orb_false_r. split; [reflexivity|]. split; [reflexivity|]. discriminate.
  - rewrite U. cbn [orb]. destruct b.
    + apply try_lock_true in T.
      destruct T as (newest & al & bp & m3 & m4 & _ & _ & _ & C & R & -> & B & P & Rf).
      destruct (compute_click_indices_log _ _ _ C) as (C1 & _).
      destruct (refit_frame np_lstsq m3 m4 R) as (R1 & _).
      cbn [Metronome.onset_times Metronome.locked Metronome.bpm Metronome.period
           Metronome.reference_time Metronome.set_locked].
      rewrite R1, C1. cbn. auto 10.
    + destruct (try_lock_cases np_lstsq _ m' false T)
        as [(_ & n & [-> | ->]) | (D & _)]; [| |discriminate];
        cbn; (split; [reflexivity|]); (split; [exact U|]); discriminate.
Qed.

(** X6.  When [add_onset] reports the lock, the detector was not locked and
    now is; the click history is made of at least four of the onsets heard
    so far, all within the six seconds before the newest one, each with an
    index; [click_count] is the count the search reported; and period,
    reference time and BPM are all set. *)
Theorem lock_takes_clicks_from_window (m m' : detector) (t : F) :
  Metronome.add_onset np_lstsq m t = Returns m' true ->
  Metronome.locked m = false
  /\ Metronome.locked m' = true
  /\ Metronome.onset_times m' = Metronome.onset_times m ++ [t]
  /\ (4 <= Metronome.len (Metronome.click_times m') <= Metronome.total_onsets m')%Z
  /\ length (Metronome._click_indices m') = length (Metronome.click_times m')
  /\ Metronome.click_count m' = Metronome._best_periodic_count m'
  /\ Forall (fun c => In c (Metronome.onset_times m')
                      /\ fle (fsub t Metronome.WINDOW_S) c = true)
            (Metronome.click_times m')
  /\ Metronome.period m' <> None
  /\ Metronome.reference_time m' <> None
  /\ Metronome.bpm m' <> None.
Proof.
  intros E. destruct (add_onset_cases np_lstsq m m' t true E) as [[D _] | [U T]];
    [discriminate|].
  apply try_lock_true in T.
  destruct T as (newest & al & bp & m3 & m4 & La & (In_al & Len_al) & L4 & C & R & -> & B & P & Rf).
  cbn [Metronome.onset_times Metronome.set_onset_times] in La, In_al, Len_al.
  rewrite py_last_snoc in La. inversion La; subst newest; clear La.
  destruct (compute_click_indices_frame _ _ _ C) as (_ & C2 & _ & C4).
  destruct (refit_frame np_lstsq m3 m4 R) as (R1 & _ & R3 & R4 & _ & R6).
  cbn [Metronome.click_times Metronome.set_clicks Metronome.set_best_periodic_count] in C2, C4.
  assert (O3 : Metronome.onset_times m3 = Metronome.onset_times m ++ [t]).
  { unfold Metronome._compute_click_indices in C.
    cbn [Metronome.click_times Metronome.set_clicks] in C.
    destruct (py_sorted al); [inversion C; reflexivity|].
    destruct (mapM _ _); cbn [evaluate] in C; [|discriminate]. inversion C; reflexivity. }
  assert (B3 : Metronome._best_periodic_count m3 = Metronome.len al).
  { unfold Metronome._compute_click_indices in C.
    cbn [Metronome.click_times Metronome.set_clicks] in C.
    destruct (py_sorted al); [inversion C; reflexivity|].
    destruct (mapM _ _); cbn [evaluate] in C; [|discriminate]. inversion C; reflexivity. }
  assert (Lsorted : Metronome.len (py_sorted al) = Metronome.len al).
  { unfold Metronome.len. rewrite py_sorted_length. reflexivity. }
  assert (Nonempty : py_sorted al <> []).
  { intros N. rewrite N in Lsorted. unfold Metronome.len in Lsorted, L4. cbn in Lsorted. lia. }
  split; [exact U|]. split; [reflexivity|].
  unfold Metronome.click_count, Metronome.total_onsets.
  cbn [Metronome.locked Metronome.onset_times Metronome.click_times
       Metronome._click_indices Metronome._best_periodic_count
       Metronome.period Metronome.reference_time Metronome.bpm Metronome.set_locked].
  rewrite R1, R3, R4, R6, C2, O3, B3.
  split; [reflexivity|].
  split.
  { rewrite Lsorted. split; [exact L4|].
    unfold Metronome.len. cbn [snd] in Len_al. pose proof (filter_length_le
      (fun t0 => fle (fsub t Metronome.WINDOW_S) t0) (Metronome.onset_times m ++ [t])).
    lia. }
  split; [rewrite (C4 Nonempty); reflexivity|].
  split; [exact Lsorted|].
  split; [|auto].
  apply Forall_forall. intros c Hc. apply (proj1 (py_sorted_In c al)) in Hc. apply In_al in Hc.
  apply filter_In in Hc. exact Hc.
Qed.

Lemma track_onset_keeps_lock (m m' : detector) (t : F) (b : bool) :
  Metronome.track_onset np_lstsq m t = Returns m' b ->
  Metronome.locked m' = Metronome.locked m
  /\ Metronome.onset_times m' = Metronome.onset_times m.
Proof.
  intros E. destruct b.
  - destruct (track_onset_true np_lstsq m m' t E)
      as (p & r & offset & k & _ & _ & _ & _ & _ & _ & _ & Next).
    destruct (4 <=? _)%Z.
    + destruct (refit_frame np_lstsq _ m' Next) as (O & Lk & _).
      rewrite O, Lk. cbn. auto.
    + subst m'. cbn. auto.
  - rewrite (track_onset_false np_lstsq m m' t E). auto.
Qed.

Lemma undo_click_frame (m m' : detector) :
  Pipeline.undo_click m = Some m' ->
  Metronome.locked m' = Metronome.locked m
  /\ Metronome.onset_times m' = Metronome.onset_times m
  /\ Metronome.period m' = Metronome.period m
  /\ Metronome.reference_time m' = Metronome.reference_time m
  /\ Metronome.bpm m' = Metronome.bpm m
  /\ Metronome.click_times m' = removelast (Metronome.click_times m)
  /\ Metronome._click_indices m' = removelast (Metronome._click_indices m).
Proof.
  intros E. unfold Pipeline.undo_click in E.
  destruct (Pipeline.py_pop (Metronome.click_times m)) as [ts|] eqn:P1; [|discriminate].
  destruct (Pipeline.py_pop (Metronome._click_indices m)) as [ks|] eqn:P2; [|discriminate].
  apply py_pop_Some in P1. apply py_pop_Some in P2.
  inversion E; subst. cbn. auto 10.
Qed.

(** X7.  The lock is permanent: on a locked detector [add_onset] only logs
    the onset and never reports a lock again, and neither [track_onset] nor
    the pipeline's undo unlocks it or touches the onset log. *)
Theorem lock_is_permanent (m : detector) :
  Metronome.locked m = true ->
  (forall t m' b,
     Metronome.add_onset np_lstsq m t = Returns m' b ->
     b = false
     /\ m' = Metronome.set_onset_times m (Metronome.onset_times m ++ [t]))
  /\ (forall t m' b,
        Metronome.track_onset np_lstsq m t = Returns m' b ->
        Metronome.locked m' = true
        /\ Metronome.onset_times m' = Metronome.onset_times m)
  /\ (forall m',
        Pipeline.undo_click m = Some m' ->
        Metronome.locked m' = true
        /\ Metronome.onset_times m' = Metronome.onset_times m).
Proof.
  intros L. split; [|split].
  - intros t m' b E. destruct (add_onset_cases np_lstsq m m' t b E) as [[-> ->] | [U _]].
    + split; reflexivity.
    + congruence.
  - intros t m' b E. destruct (track_onset_keeps_lock m m' t b E) as [Lk O].
    split; congruence.
  - intros m' E. destruct (undo_click_frame m m' E) as (Lk & O & _).
    split; congruence.
Qed.

(** X8.  When the recorded click does not trigger the refit, the pipeline's
    spectral override is an exact undo: popping the click gives back the
    state before [track_onset], whatever the least-squares routine. *)
Theorem override_without_refit_is_undo (m m1 : detector) (t : F) :
  (0 <= Metronome._clicks_since_refit m < 3)%Z ->
  Metronome.track_onset np_lstsq m t = Returns m1 true ->
  Pipeline.undo_click m1 = Some m
  /\ Pipeline.post_lock_decision np_lstsq m t (Some "guitar"%string) = Some (m, false).
Proof.
  intros C E.
  assert (U : Pipeline.undo_click m1 = Some m).
  { destruct (track_onset_true np_lstsq m m1 t E)
      as (p & r & offset & k & _ & _ & _ & _ & _ & _ & _ & Next).
    destruct (Z.leb_spec 4 (Metronome._clicks_since_refit m + 1)); [lia|].
    subst m1. unfold Pipeline.undo_click, Metronome.record_click.
    cbn [Metronome.click_times Metronome._click_indices Metronome.set_clicks
         Metronome.set_clicks_since_refit Metronome._clicks_since_refit].
    rewrite !py_pop_snoc. cbn [bind ret].
    replace (Z.max 0 (Metronome._clicks_since_refit m + 1 - 1))
      with (Metronome._clicks_since_refit m) by lia.
    destruct m; reflexivity. }
  split; [exact U|].
  unfold Pipeline.post_lock_decision. rewrite E. cbn [returned bind]. cbn. rewrite U.
  reflexivity.
Qed.

Lemma feed_reachable (ts : list F) (m m' : detector) :
  Pipeline.reachable np_lstsq m -> feed np_lstsq m ts = Some m' ->
  Pipeline.reachable np_lstsq m'.
Proof.
  revert m; induction ts as [|t ts IH]; intros m Rm E.
  - inversion E; subst; exact Rm.
  - cbn in E. destruct (Metronome.add_onset np_lstsq m t) as [m1 b|m1] eqn:A;
      cbn in E; [|discriminate].
    eapply IH; [|exact E]. eapply Pipeline.reach_add_onset; eassumption.
Qed.

Lemma refit_keeps_fit_set (m m' : detector) :
  fit_set m -> Metronome._refit np_lstsq m = Returns m' tt -> fit_set m'.
Proof.
  intros Fs E. destruct (refit_fit m m' E) as [-> | (p & r & b & -> & P & D)]; [exact Fs|].
  exists p, r, b. cbn. auto.
Qed.

(** The fit is all or nothing in every state of a session. *)
Lemma reachable_fit_invariant (m : detector) :
  Pipeline.reachable np_lstsq m -> fit_invariant m.
Proof.
  unfold fit_invariant.
  induction 1 as [|m m' t b _ IH E|m m' t b _ IH E|m m' _ IH E].
  - cbn. unfold blank_fit, Metronome.total_onsets. cbn. repeat split; lia.
  - destruct (add_onset_cases np_lstsq m m' t b E) as [[-> ->] | [U T]].
    + cbn [Metronome.locked Metronome.set_onset_times].
      destruct (Metronome.locked m); [exact IH|].
      destruct IH as (I1 & I2 & I3 & I4 & I5 & I6 & I7).
      unfold blank_fit, Metronome.total_onsets in *. cbn.
      unfold Metronome.len in *. rewrite length_app. cbn. repeat split; try assumption; lia.
    + rewrite U in IH. destruct b.
      * apply try_lock_true in T.
        destruct T as (newest & al & bp & m3 & m4 & _ & _ & _ & C & R & -> & B & P & Rf).
        cbn [Metronome.locked Metronome.set_locked].
        destruct (compute_click_indices_frame _ _ _ C) as (C1 & _).
        destruct (refit_fit m3 m4 R) as [-> | (p & r & b & -> & Pr & D)].
        -- exfalso. apply P. rewrite C1. cbn. apply IH.
        -- exists p, r, b. cbn. auto.
      * destruct (try_lock_cases np_lstsq _ m' false T)
          as [(_ & n & Hm) | (D & _)]; [|discriminate].
        assert (Lm : Metronome.locked m' = false) by (destruct Hm as [-> | ->]; exact U).
        rewrite Lm.
        (* the count the search reports is bounded by the onsets *)
        unfold Metronome._try_lock in T.
        cbn [Metronome.onset_times Metronome.set_onset_times] in T.
        rewrite py_last_snoc in T. cbn [evaluate] in T.
        destruct IH as (I1 & I2 & I3 & I4 & I5 & I6 & I7).
        unfold Metronome.total_onsets, Metronome.len in I7.
        destruct (Metronome.len _ <? Metronome.MIN_PERIODIC_ONSETS)%Z.
        { inversion T; subst. unfold blank_fit, Metronome.total_onsets, Metronome.len. cbn.
          rewrite length_app. cbn. repeat split; try assumption; lia. }
        destruct (Metronome.search _ _ _) as [[best_period al]|] eqn:S; [|discriminate].
        cbn [evaluate fst snd] in T. cbv zeta in T.
        apply search_within in S; [|split; cbn; [tauto | lia]].
        destruct S as (_ & Len_al). cbn [snd] in Len_al.
        pose proof (filter_length_le
          (fun t0 => fle (fsub t Metronome.WINDOW_S) t0) (Metronome.onset_times m ++ [t]))
          as FL.
        assert (Blank : blank_fit (Metronome.set_best_periodic_count
                          (Metronome.set_onset_times m (Metronome.onset_times m ++ [t]))
                          (Metronome.len al))).
        { unfold blank_fit, Metronome.total_onsets, Metronome.len. cbn.
          repeat split; try assumption; lia. }
        destruct best_period as [bp|]; [|inversion T; subst; exact Blank].
        destruct (fdiv (lit 60) bp); [|discriminate]. cbn [evaluate] in T.
        destruct (Metronome.MIN_PERIODIC_ONSETS <=? Metronome.len al)%Z.
        2:{ inversion T; subst; exact Blank. }
        destruct (Metronome._compute_click_indices _ bp) as [m3 []|m3]; [|discriminate].
        destruct (Metronome._refit np_lstsq m3) as [m4 []|m4]; [|discriminate].
        destruct (Metronome.bpm (Metronome.set_locked m4 true)); [|discriminate].
        destruct (Metronome.period (Metronome.set_locked m4 true)); [|discriminate].
        destruct (Metronome.reference_time (Metronome.set_locked m4 true)); discriminate.
  - destruct b.
    + destruct (track_onset_true np_lstsq m m' t E)
        as (p & r & offset & k & L & _ & _ & _ & _ & _ & _ & Next).
      rewrite L in IH.
      destruct (4 <=? _)%Z.
      * destruct (refit_frame np_lstsq _ m' Next) as (_ & Lk & _).
        rewrite Lk. cbn [Metronome.locked Metronome.set_clicks_since_refit
                         Metronome.record_click Metronome.set_clicks]. rewrite L.
        eapply refit_keeps_fit_set; [|exact Next].
        destruct IH as (p0 & r0 & b0 & I). exists p0, r0, b0. exact I.
      * subst m'. cbn [Metronome.locked Metronome.set_clicks_since_refit
                       Metronome.record_click Metronome.set_clicks]. rewrite L.
        destruct IH as (p0 & r0 & b0 & I). exists p0, r0, b0. exact I.
    + rewrite (track_onset_false np_lstsq m m' t E). exact IH.
  - unfold Pipeline.undo_click in E.
    destruct (Pipeline.py_pop (Metronome.click_times m)) as [ts|] eqn:P1; [|discriminate].
    destruct (Pipeline.py_pop (Metronome._click_indices m)); [|discriminate].
    inversion E; subst. cbn [Metronome.locked Metronome.set_clicks_since_refit
                             Metronome.set_clicks].
    destruct (Metronome.locked m).
    + destruct IH as (p0 & r0 & b0 & I). exists p0, r0, b0. exact I.
    + destruct IH as (_ & _ & _ & I4 & _). rewrite I4 in P1. discriminate.
Qed.

(** X9.  In every state a session reaches, that is, after calls of
    [add_onset] and [track_onset] that all returned and clicks taken back by
    the pipeline, the fit is all or nothing.  Before the lock no period,
    reference time or BPM is set, no click is stored, the refit counter is
    0 and [_best_periodic_count] is between 0 and the number of onsets
    heard; from the lock on, the three are set together, the period passed
    the test [0.25 <= period <= 1.5] and the BPM is [60 / period], in
    binary64 as in exact arithmetic.  (A call that raises ends the session;
    the object it leaves is not covered.) *)
Theorem session_fit_invariant (m : detector) :
  Pipeline.reachable np_lstsq m ->
  (Metronome.locked m = false ->
   Metronome.period m = None
   /\ Metronome.bpm m = None
   /\ Metronome.reference_time m = None
   /\ Metronome.click_times m = []
   /\ Metronome._click_indices m = []
   /\ Metronome._clicks_since_refit m = 0%Z
   /\ (0 <= Metronome.click_count m <= Metronome.total_onsets m)%Z)
  /\ (Metronome.locked m = true ->
      exists p r b,
        Metronome.period m = Some p
        /\ Metronome.reference_time m = Some r
        /\ Metronome.bpm m = Some b
        /\ fle (lit (25 # 100)) p = true
        /\ fle p (lit (15 # 10)) = true
        /\ fdiv (lit 60) p = Some b).
Proof.
  intros R. pose proof (reachable_fit_invariant m R) as I.
  unfold fit_invariant, Metronome.click_count in *.
  destruct (Metronome.locked m); split; intros L; try discriminate; [|exact I].
  destruct I as (p & r & b & P & Rf & B & Range & D).
  apply period_in_range_tests in Range.
  exists p, r, b. tauto.
Qed.

End MetronomeSession.

(** ** Rounding half to even, in exact arithmetic *)

Lemma Qround_half_even_alt (x : Q) :
  Qround_half_even x
  = match 2 * (x - inject_Z (Qfloor x)) ?= 1 with
    | Lt => Qfloor x
    | Gt => (Qfloor x + 1)%Z
    | Eq => if Z.even (Qfloor x) then Qfloor x else (Qfloor x + 1)%Z
    end.
Proof.
  destruct x as [n d]. unfold Qround_half_even, round_half_even, Qfloor. cbn [Qnum Qden].
  assert (E : (2 * ((n # d) - inject_Z (n / Zpos d)) ?= 1)
              = (2 * (n mod Zpos d) ?= Zpos d)%Z).
  { unfold Qcompare. cbn [Qnum Qden Qmult Qminus Qplus Qopp inject_Z].
    rewrite Z.mod_eq by discriminate. f_equal; [ring | lia]. }
  rewrite E. reflexivity.
Qed.

(** ** Tracking in binary64 *)

Section MetronomeTracking.

Variable np_lstsq : list Z -> list float -> float * float.

Local Abbreviation detector := (Metronome.MetronomeDetector float).

(** A period that passed the range test is not zero: the division by it
    does not raise. *)
Lemma in_range_divides (x p : float) :
  fle (lit (25 # 100)) p = true -> fdiv x p = Some (PrimFloat.div x p).
Proof.
  change (fle (lit (25 # 100)) p) with (PrimFloat.leb (B64.of_Q (25 # 100)) p).
  change (fdiv x p) with (B64.div x p). unfold B64.div.
  rewrite leb_spec, eqb_spec.
  destruct (Prim2SF p) as [s| s | |s m e]; cbn; try discriminate; try reflexivity.
  all: intros _; destruct s; reflexivity.
Qed.

Lemma round_raises_iff (x : float) : round_int x = None <-> B64.is_finite x = false.
Proof.
  change (round_int x) with (B64.round x).
  unfold B64.round, B64.to_Q, B64.is_finite.
  destruct (Prim2SF x); cbn; split; intros E; try discriminate; reflexivity.
Qed.

(** With one index for every click, [_refit] returns. *)
Lemma refit_returns (m : detector) :
  length (Metronome._click_indices m) = length (Metronome.click_times m) ->
  exists m', Metronome._refit np_lstsq m = Returns m' tt.
Proof.
  intros L. unfold Metronome._refit.
  destruct (_ <? 2)%Z; [eexists; reflexivity|].
  unfold Metronome.len. rewrite L, Z.eqb_refl. cbn [negb].
  destruct (np_lstsq _ _) as [p r].
  destruct (Metronome.period_in_range p) eqn:P; [|eexists; reflexivity].
  apply period_in_range_tests in P.
  rewrite (in_range_divides (lit 60) p (proj1 P)). cbn [evaluate]. eexists; reflexivity.
Qed.

(** X10.  In binary64, on a locked detector that satisfies the invariant,
    [track_onset] raises exactly when the offset
    [(onset_time - reference_time) / period] is NaN or infinite, which is
    so for every onset time that is NaN or infinite; it then leaves the
    detector as it was.  Neither the division by the period nor the refit
    raises, whatever the least-squares routine returns. *)
Theorem track_onset_raises_iff (m : detector) (t p r : float) :
  click_invariant m ->
  Metronome.locked m = true ->
  Metronome.period m = Some p ->
  Metronome.reference_time m = Some r ->
  ((exists m', Metronome.track_onset np_lstsq m t = Raises m')
   <-> B64.is_finite (PrimFloat.div (PrimFloat.sub t r) p) = false)
  /\ (forall m', Metronome.track_onset np_lstsq m t = Raises m' -> m' = m)
  /\ (B64.is_finite t = false -> Metronome.track_onset np_lstsq m t = Raises m).
Proof.
  intros [Range Locked] L P R.
  pose proof (in_range_divides (PrimFloat.sub t r) p (proj1 (Range p P))) as D.
  assert (Cases : (B64.is_finite (PrimFloat.div (PrimFloat.sub t r) p) = false
                   /\ Metronome.track_onset np_lstsq m t = Raises m)
                  \/ (B64.is_finite (PrimFloat.div (PrimFloat.sub t r) p) = true
                      /\ exists m' b, Metronome.track_onset np_lstsq m t = Returns m' b)).
  { destruct (round_int (PrimFloat.div (PrimFloat.sub t r) p)) as [k|] eqn:K.
    - right. split; [exact (round_defined_finite _ k K)|].
      rewrite (track_onset_unfold np_lstsq m t p r _ k L P R D K).
      destruct (_ || _); [do 2 eexists; reflexivity|].
      destruct (4 <=? _)%Z; [|do 2 eexists; reflexivity].
      match goal with |- context [Metronome._refit np_lstsq ?s] =>
        destruct (refit_returns s) as [m2 Rf] end.
      { cbn. rewrite !length_app, (Locked L). reflexivity. }
      rewrite Rf. do 2 eexists; reflexivity.
    - left. split; [apply round_raises_iff, K|].
      unfold Metronome.track_onset. rewrite L, P, R. cbn [negb].
      change (fsub t r) with (PrimFloat.sub t r). rewrite D. cbn [evaluate].
      rewrite K. reflexivity. }
  split; [|split].
  - split.
    + intros [m' E]. destruct Cases as [[Inf _] | [_ (m1 & b & E1)]]; [exact Inf|].
      rewrite E1 in E. discriminate.
    + intros Inf. destruct Cases as [[_ E] | [Fin _]]; [exists m; exact E|].
      rewrite Fin in Inf. discriminate.
  - intros m' E. destruct Cases as [[_ E1] | [_ (m1 & b & E1)]];
      rewrite E1 in E; [inversion E; reflexivity | discriminate].
  - intros Inf. destruct Cases as [[_ E] | [Fin _]]; [exact E|].
    apply finite_quotient_of_difference in Fin. rewrite Fin in Inf. discriminate.
Qed.

End MetronomeTracking.

(** ** The grid aligner: when it raises, and what bar and beat say *)

Section GridRaises.

Lemma fdiv_binary64_zero (x y : float) :
  PrimFloat.eqb y PrimFloat.zero = true -> fdiv x y = None.
Proof.
  intros Z0. change (fdiv x y) with (B64.div x y). unfold B64.div. rewrite Z0. reflexivity.
Qed.

Lemma fdiv_binary64_nonzero (x y : float) :
  PrimFloat.eqb y PrimFloat.zero = false -> fdiv x y = Some (PrimFloat.div x y).
Proof.
  intros NZ. change (fdiv x y) with (B64.div x y). unfold B64.div. rewrite NZ. reflexivity.
Qed.

(** X13.  In binary64 [compute_deviation] raises exactly when the BPM is
    zero ([60.0 / bpm]), when the grid interval [60 / bpm / 4] (or [/ 2])
    is zero, as it is for an infinite BPM, or when the quotient
    [(onset_time - reference_time) / grid_interval] is NaN or infinite and
    cannot be rounded, as it is for every onset time that is NaN or
    infinite.  Nothing after the rounding can fail. *)
Theorem compute_deviation_raises_iff (g : Grid.GridConfig float) (t : float) :
  let subdivisions : float :=
    if String.eqb (Grid.grid_resolution g) "16th" then of_int 4 else of_int 2 in
  let interval := PrimFloat.div (PrimFloat.div (lit 60) (Grid.bpm g)) subdivisions in
  (Grid.compute_deviation g t = None
   <-> PrimFloat.eqb (Grid.bpm g) PrimFloat.zero = true
       \/ PrimFloat.eqb interval PrimFloat.zero = true
       \/ B64.is_finite (PrimFloat.div (PrimFloat.sub t (Grid.reference_time g)) interval)
          = false)
  /\ (Grid.bpm g = PrimFloat.infinity -> Grid.compute_deviation g t = None)
  /\ (B64.is_finite t = false -> Grid.compute_deviation g t = None).
Proof.
  intros subdivisions interval.
  assert (Iff : Grid.compute_deviation g t = None
                <-> PrimFloat.eqb (Grid.bpm g) PrimFloat.zero = true
                    \/ PrimFloat.eqb interval PrimFloat.zero = true
                    \/ B64.is_finite
                         (PrimFloat.div (PrimFloat.sub t (Grid.reference_time g)) interval)
                       = false).
  { unfold Grid.compute_deviation, Grid.grid_index, Grid.grid_interval, Grid.beat_duration,
      Grid.subdivisions_per_beat, Grid.is_16th.
    destruct (PrimFloat.eqb (Grid.bpm g) PrimFloat.zero) eqn:B.
    { rewrite (fdiv_binary64_zero _ _ B). cbn [bind]. split; auto. }
    rewrite (fdiv_binary64_nonzero _ _ B). cbn [bind].
    assert (Gi : (if String.eqb (Grid.grid_resolution g) "16th"
                  then fdiv (PrimFloat.div (lit 60) (Grid.bpm g)) (of_int 4)
                  else fdiv (PrimFloat.div (lit 60) (Grid.bpm g)) (of_int 2))
                 = Some interval).
    { subst interval subdivisions.
      destruct (String.eqb (Grid.grid_resolution g) "16th");
        apply fdiv_binary64_nonzero; vm_compute; reflexivity. }
    rewrite Gi. cbn [bind].
    destruct (PrimFloat.eqb interval PrimFloat.zero) eqn:Z0.
    { rewrite (fdiv_binary64_zero _ _ Z0). cbn [bind]. split; auto. }
    rewrite (fdiv_binary64_nonzero _ _ Z0). cbn [bind].
    change (fsub t (Grid.reference_time g)) with (PrimFloat.sub t (Grid.reference_time g)).
    destruct (round_int (PrimFloat.div (PrimFloat.sub t (Grid.reference_time g)) interval))
      as [k|] eqn:K; cbn [bind].
    - pose proof (round_defined_finite _ k K) as Fin.
      assert (D : exists b : float,
                 int_div (k mod Grid.subdivisions_per_bar g)
                   (if String.eqb (Grid.grid_resolution g) "16th" then 4 else 2)%Z
                 = Some b)
        by (destruct (String.eqb (Grid.grid_resolution g) "16th"); eexists; reflexivity).
      destruct D as [b ->]. cbn [bind ret]. rewrite Fin.
      split; [discriminate|]. intros [C | [C | C]]; discriminate C.
    - apply round_raises_iff in K. rewrite K. split; auto. }
  split; [exact Iff|]. split.
  - intros Inf. apply Iff. right; left. subst interval subdivisions. rewrite Inf.
    destruct (String.eqb (Grid.grid_resolution g) "16th"); vm_compute; reflexivity.
  - intros Inf. apply Iff.
    destruct (B64.is_finite
                (PrimFloat.div (PrimFloat.sub t (Grid.reference_time g)) interval)) eqn:Fin;
      [|auto].
    apply finite_quotient_of_difference in Fin. rewrite Fin in Inf. discriminate.
Qed.

End GridRaises.

Section GridBounds.

Local Abbreviation grid := (Grid.GridConfig Q).

Lemma Qdiv_nonzero (a b : Q) : ~ a == 0 -> ~ b == 0 -> ~ a / b == 0.
Proof.
  intros A B Z0. apply A.
  assert (E : a == a / b * b) by (field; exact B).
  rewrite E, Z0. ring.
Qed.

Lemma grid_interval_exact (g : grid) :
  ~ Grid.bpm g == 0 ->
  exists gi, Grid.grid_interval g = Some gi /\ ~ gi == 0.
Proof.
  intros NZ. unfold Grid.grid_interval, Grid.beat_duration.
  rewrite Qfdiv_defined by exact NZ. cbn [bind].
  assert (B : ~ 60 / Grid.bpm g == 0) by (apply Qdiv_nonzero; [discriminate | exact NZ]).
  destruct (Grid.is_16th g).
  - rewrite Qfdiv_defined by discriminate. eexists. split; [reflexivity|].
    apply Qdiv_nonzero; [exact B | discriminate].
  - rewrite Qfdiv_defined by discriminate. eexists. split; [reflexivity|].
    apply Qdiv_nonzero; [exact B | discriminate].
Qed.

Lemma int_div_beat (g : grid) (pos : Z) :
  int_div pos (Grid.subdivisions_per_beat g)
  = Some (inject_Z pos / inject_Z (Grid.subdivisions_per_beat g)).
Proof.
  unfold Grid.subdivisions_per_beat. destruct (Grid.is_16th g); reflexivity.
Qed.

(** [compute_deviation] written out, where the BPM is not zero. *)
Lemma compute_deviation_exact (g : grid) (t gi : Q) :
  Grid.grid_interval g = Some gi ->
  ~ gi == 0 ->
  let k := Qround_half_even ((t - Grid.reference_time g) / gi) in
  Grid.grid_index g t = Some k
  /\ Grid.compute_deviation g t
     = Some (Qround_nd 1 ((t - (Grid.reference_time g + inject_Z k * gi)) * 1000),
             Grid.reference_time g + inject_Z k * gi,
             (k / Grid.subdivisions_per_bar g + 1)%Z,
             Qround_nd 2 (1 + inject_Z (k mod Grid.subdivisions_per_bar g)
                              / inject_Z (Grid.subdivisions_per_beat g))).
Proof.
  intros G NZ k.
  assert (K : Grid.grid_index g t = Some k).
  { unfold Grid.grid_index. rewrite G. cbn [bind].
    rewrite Qfdiv_defined by exact NZ. reflexivity. }
  split; [exact K|].
  rewrite (compute_deviation_unfold g t k gi K G), int_div_beat. reflexivity.
Qed.

Lemma zero_bpm_raises (g : grid) (t : Q) :
  Grid.bpm g == 0 -> Grid.compute_deviation g t = None.
Proof.
  intros Z0. unfold Grid.compute_deviation, Grid.grid_index, Grid.grid_interval,
    Grid.beat_duration.
  change (fdiv (lit 60) (Grid.bpm g)) with (Qdiv_py 60 (Grid.bpm g)).
  unfold Qdiv_py. apply Qeq_bool_iff in Z0. rewrite Z0. reflexivity.
Qed.

Lemma compute_deviation_returns (g : grid) (t dev near : Q) (bar : Z) (beat : Q) :
  Grid.compute_deviation g t = Some (dev, near, bar, beat) ->
  exists gi, Grid.grid_interval g = Some gi /\ ~ gi == 0.
Proof.
  intros E. apply grid_interval_exact. intros Z0.
  rewrite (zero_bpm_raises g t Z0) in E. discriminate.
Qed.

Lemma Qround_nd_2_quarters (j : Z) (s : Z) :
  s = 2%Z \/ s = 4%Z ->
  Qround_nd 2 (1 + inject_Z j / inject_Z s) == 1 + inject_Z j / inject_Z s.
Proof.
  intros S. unfold Qround_nd. change (inject_Z (10 ^ 2)) with 100.
  assert (E : (1 + inject_Z j / inject_Z s) * 100 == inject_Z (100 + j * (100 / s))).
  { rewrite inject_Z_plus, inject_Z_mult.
    destruct S as [-> | ->]; cbn; field. }
  rewrite (Qround_half_even_int _ _ E), inject_Z_plus, inject_Z_mult.
  destruct S as [-> | ->]; cbn; field.
Qed.

(** X15.  Bar and beat position locate the grid index: the beat position is
    in [1, 5), it is [1 + (k mod spbar) / spb] exactly (two decimals lose
    nothing on halves and quarters), and
    [k = spbar * (bar - 1) + spb * (beat_position - 1)], where [spb] and
    [spbar] are the subdivisions per beat and per bar. *)
Theorem bar_and_beat_locate_index (g : grid) (t dev near : Q) (bar : Z) (beat : Q) :
  Grid.compute_deviation g t = Some (dev, near, bar, beat) ->
  exists k,
    Grid.grid_index g t = Some k
    /\ 1 <= beat /\ beat < 5
    /\ inject_Z k
       == inject_Z (Grid.subdivisions_per_bar g) * (inject_Z bar - 1)
          + inject_Z (Grid.subdivisions_per_beat g) * (beat - 1).
Proof.
  intros E. destruct (compute_deviation_returns g t dev near bar beat E) as (gi & G & NZ).
  destruct (compute_deviation_exact g t gi G NZ) as [K C].
  rewrite C in E. inversion E; subst dev near bar beat; clear E.
  set (k := Qround_half_even ((t - Grid.reference_time g) / gi)) in *.
  exists k. split; [exact K|].
  assert (S : Grid.subdivisions_per_beat g = 2%Z \/ Grid.subdivisions_per_beat g = 4%Z)
    by (unfold Grid.subdivisions_per_beat; destruct (Grid.is_16th g); auto).
  rewrite (Qround_nd_2_quarters _ _ S).
  pose proof (Z.div_mod k (Grid.subdivisions_per_bar g)) as DM.
  pose proof (Z.mod_pos_bound k (Grid.subdivisions_per_bar g)) as MB.
  unfold Grid.subdivisions_per_bar in *.
  set (pos := (k mod (4 * Grid.subdivisions_per_beat g))%Z) in *.
  set (q := (k / (4 * Grid.subdivisions_per_beat g))%Z) in *.
  assert (Pq : inject_Z 0 <= inject_Z pos) by (rewrite <- Zle_Qle; lia).
  change (inject_Z 0) with 0 in Pq.
  assert (Pl : inject_Z pos < inject_Z (4 * Grid.subdivisions_per_beat g))
    by (rewrite <- Zlt_Qlt; lia).
  assert (Kq : inject_Z k == inject_Z (4 * Grid.subdivisions_per_beat g) * inject_Z q
                             + inject_Z pos).
  { rewrite <- inject_Z_mult, <- inject_Z_plus. rewrite <- DM by lia. reflexivity. }
  rewrite Kq. rewrite inject_Z_plus. change (inject_Z 1) with 1.
  destruct S as [S | S]; rewrite S in *.
  - change (inject_Z (4 * 2)) with 8 in *. change (inject_Z 2) with 2 in *.
    setoid_replace (inject_Z pos / 2) with (inject_Z pos * (1 # 2)) by field.
    split; [lra|]. split; [lra|]. ring.
  - change (inject_Z (4 * 4)) with 16 in *. change (inject_Z 4) with 4 in *.
    setoid_replace (inject_Z pos / 4) with (inject_Z pos * (1 # 4)) by field.
    split; [lra|]. split; [lra|]. ring.
Qed.

End GridBounds.

(** ** The onset detector on quiet input, in exact arithmetic *)

Section OnsetLevels.

Variable np_rms : list Q -> Q.

Local Abbreviation detector := (Onset.RealtimeOnsetDetector Q).

Lemma Qint_div_defined (a b : Z) :
  b <> 0%Z -> int_div a b = Some (inject_Z a / inject_Z b).
Proof.
  intros B. change (int_div a b) with (Qdiv_py (inject_Z a) (inject_Z b)).
  unfold Qdiv_py. destruct (Qeq_bool (inject_Z b) 0) eqn:E; [|reflexivity].
  apply Qeq_bool_iff in E. unfold Qeq in E. cbn in E. lia.
Qed.

Lemma threshold_floor (mean : Q) :
  1 # 1000 <= py_max Onset.min_threshold (fmul mean Onset.threshold_ratio).
Proof.
  unfold py_max, Onset.min_threshold.
  change (@lit Q Exact (1 # 1000)) with (1 # 1000).
  destruct (flt (1 # 1000) (fmul mean Onset.threshold_ratio)) eqn:M.
  - apply Qflt_true in M. lra.
  - lra.
Qed.

Lemma next_smoothed_exact (d : detector) (rms : Q) :
  Onset.next_smoothed d rms = (3 # 10) * rms + (1 - (3 # 10)) * Onset.smoothed_rms d.
Proof. reflexivity. Qed.

Lemma baseline_step_defined_exact (d : detector) (rms : Q) (pos : Z) :
  Onset.sample_rate d <> 0%Z ->
  exists d', Onset.baseline_step d rms pos = Some d'
             /\ Onset.sample_rate d' = Onset.sample_rate d
             /\ Onset.smoothed_rms d' = Onset.smoothed_rms d
             /\ Onset.last_onset_time d' = Onset.last_onset_time d.
Proof.
  intros Sr. unfold Onset.baseline_step. cbv zeta.
  cbn [Onset.sample_rate Onset.set_frame_count Onset.set_mean_rms Onset._frame_count].
  destruct (_ =? 0)%Z.
  - rewrite (Qint_div_defined pos _ Sr). cbn [bind]. eexists. split; [reflexivity|].
    cbn. auto.
  - cbn [bind ret]. eexists. split; [reflexivity|]. cbn. auto.
Qed.

(** A frame that leaves the smoothed level at or below the threshold floor. *)
Lemma quiet_frame (d : detector) (o : list Q) (pos : Z) (fr : list Q) :
  Onset.sample_rate d <> 0%Z ->
  Onset.smoothed_rms d <= 1 # 1000 ->
  np_rms fr <= 1 # 1000 ->
  exists d', Onset.frame_body np_rms d o pos fr = Some (d', o)
             /\ Onset.sample_rate d' = Onset.sample_rate d
             /\ Onset.smoothed_rms d' <= 1 # 1000
             /\ Onset.last_onset_time d' = Onset.last_onset_time d.
Proof.
  intros Sr Sm Rms. unfold Onset.frame_body. cbv zeta.
  assert (Next : Onset.next_smoothed d (np_rms fr) <= 1 # 1000)
    by (rewrite next_smoothed_exact; lra).
  pose proof (threshold_floor (Onset.mean_rms d)) as Th.
  unfold Onset.gate_step.
  cbn [Onset.smoothed_rms Onset.set_peak_rms Onset.set_smoothed_rms].
  rewrite (proj2 (Qflt_false _ _)) by lra.
  match goal with |- context [if ?c then _ else _] => destruct c end;
    cbn [bind ret fst snd].
  - match goal with |- context [Onset.baseline_step ?s ?r ?p] =>
      destruct (baseline_step_defined_exact s r p) as (d' & B & B1 & B2 & B3) end;
      [exact Sr|].
    rewrite B. cbn [bind]. exists d'. split; [reflexivity|].
    rewrite B1, B2, B3. cbn. auto.
  - match goal with |- context [Onset.baseline_step ?s ?r ?p] =>
      destruct (baseline_step_defined_exact s r p) as (d' & B & B1 & B2 & B3) end;
      [exact Sr|].
    rewrite B. cbn [bind]. exists d'. split; [reflexivity|].
    rewrite B1, B2, B3. cbn. auto.
Qed.

Lemma quiet_run (frames : list (Z * list Q)) (d : detector) (o : list Q) :
  Onset.sample_rate d <> 0%Z ->
  Onset.smoothed_rms d <= 1 # 1000 ->
  forallb (fun pf => Qle_bool (np_rms (snd pf)) (1 # 1000)) frames = true ->
  exists d', Onset.run_frames np_rms (d, o) frames = Some (d', o)
             /\ Onset.smoothed_rms d' <= 1 # 1000
             /\ Onset.last_onset_time d' = Onset.last_onset_time d.
Proof.
  revert d; induction frames as [|[pos fr] frames IH]; intros d Sr Sm Q.
  - exists d. split; [reflexivity|]. split; [exact Sm | reflexivity].
  - cbn [forallb snd] in Q. apply andb_true_iff in Q. destruct Q as [Q1 Q2].
    apply Qle_bool_iff in Q1.
    destruct (quiet_frame d o pos fr Sr Sm Q1) as (d1 & E & S1 & S2 & S3).
    rewrite run_frames_cons, E. cbn [bind].
    destruct (IH d1) as (d2 & E2 & T1 & T2); [rewrite S1; exact Sr | exact S2 | exact Q2 |].
    exists d2. split; [exact E2|]. split; [exact T1|]. rewrite T2. exact S3.
Qed.

(** X17.  Input that stays at the floor is silent: if the smoothed level is
    at most 0.001 and no frame of the chunks has an RMS above 0.001, the
    detector reports no onset, whatever its baseline and its gate; the
    smoothed level stays at most 0.001 and the last onset is kept. *)
Theorem quiet_input_has_no_onset (d : detector) (chunks : list (list Q)) :
  Onset.sample_rate d <> 0%Z ->
  Onset.smoothed_rms d <= 1 # 1000 ->
  forallb (fun pf => Qle_bool (np_rms (snd pf)) (1 # 1000))
          (Onset.stream_frames (Onset.total_samples d) chunks) = true ->
  exists d', Onset.process_chunks np_rms d chunks = Some (d', [])
             /\ Onset.smoothed_rms d' <= 1 # 1000
             /\ Onset.last_onset_time d' = Onset.last_onset_time d.
Proof.
  intros Sr Sm Q. rewrite process_chunks_run.
  destruct (quiet_run _ d [] Sr Sm Q) as (d1 & E & S1 & S2).
  rewrite E. cbn [bind ret fst snd]. eexists. split; [reflexivity|].
  cbn. auto.
Qed.

End OnsetLevels.

(** ** The onset detector on a loud start, in binary64 *)

Section OnsetStart.

Variable np_rms : list float -> float.

Local Abbreviation detector := (Onset.RealtimeOnsetDetector float).

(** Adding the zero the fresh detector holds does not change a
    comparison. *)
Lemma add_zero_lt (c x : float) :
  PrimFloat.ltb c (PrimFloat.add x PrimFloat.zero) = PrimFloat.ltb c x.
Proof.
  rewrite !ltb_spec, add_spec.
  change (Prim2SF PrimFloat.zero) with (S754_zero false).
  destruct (Prim2SF x) as [s| s | |s m e]; try reflexivity.
  destruct s; destruct (Prim2SF c) as [sc|sc| |sc mc ec]; reflexivity.
Qed.

Lemma int_div_zero (sr : Z) : (0 < sr)%Z -> int_div 0 sr = Some PrimFloat.zero.
Proof.
  intros Sr. change (@int_div float Binary64) with B64.int_div.
  destruct sr; [lia | reflexivity | lia].
Qed.

Lemma run_frames_defined (frames : list (Z * list float)) (d : detector) (o : list float) :
  Onset.sample_rate d <> 0%Z ->
  exists d' o', Onset.run_frames np_rms (d, o) frames = Some (d', o').
Proof.
  revert d o; induction frames as [|[pos fr] frames IH]; intros d o Sr.
  - do 2 eexists; reflexivity.
  - destruct (frame_body_defined np_rms d o pos fr Sr) as (d1 & o1 & E & S1 & _).
    rewrite run_frames_cons, E. cbn [bind]. apply IH. rewrite S1. exact Sr.
Qed.

(** X18.  A stream that starts loud has an onset at time 0, in binary64: on
    a fresh detector with a positive sample rate, when the first frame of
    the first chunk has an RMS whose product with 0.3, as the floats
    compute it, exceeds the threshold floor 0.001, [process_chunk] returns
    and the first onset it reports is 0.0, whatever the later samples. *)
Theorem loud_start_is_an_onset (sr : Z) (min_interval : float) (chunk : list float) :
  (0 < sr)%Z ->
  (Onset.frame_size <= Z.of_nat (length chunk))%Z ->
  PrimFloat.ltb (lit (1 # 1000))
    (PrimFloat.mul (lit (3 # 10)) (np_rms (slice chunk 0 Onset.frame_size))) = true ->
  exists d' rest,
    Onset.process_chunk np_rms (Onset.init sr min_interval) chunk
    = Some (d', PrimFloat.zero :: rest).
Proof.
  intros Pos Len Loud. assert (Sr : sr <> 0%Z) by lia. rewrite process_chunk_frames.
  assert (Fs : exists rest,
             Onset.chunk_frames 0 chunk = (0%Z, slice chunk 0 Onset.frame_size) :: rest).
  { unfold Onset.chunk_frames, Onset.chunk_offsets, py_range, Onset.hop_size.
    unfold Onset.frame_size in *.
    replace (Z.of_nat (length chunk) - 512 + 1 - 0 + 256 - 1)%Z
      with (Z.of_nat (length chunk) + (-1) * 256)%Z by lia.
    rewrite Z.div_add by lia.
    pose proof (Z.div_mod (Z.of_nat (length chunk)) 256 ltac:(lia)) as E.
    pose proof (Z.mod_pos_bound (Z.of_nat (length chunk)) 256 ltac:(lia)) as B.
    destruct (Z.to_nat (Z.of_nat (length chunk) / 256 + -1)) as [|n] eqn:N; [lia|].
    cbn [seq map]. eexists. reflexivity. }
  destruct Fs as (rest & Fs).
  cbn [Onset.total_samples Onset.init]. rewrite Fs, run_frames_cons.
  assert (First : exists d1,
             Onset.frame_body np_rms (Onset.init sr min_interval) [] 0
               (slice chunk 0 Onset.frame_size)
             = Some (d1, [PrimFloat.zero]) /\ Onset.sample_rate d1 = sr).
  { unfold Onset.frame_body. cbv zeta. unfold Onset.gate_step.
    cbn [Onset.smoothed_rms Onset.set_peak_rms Onset.set_smoothed_rms Onset.mean_rms
         Onset.init Onset._above_threshold].
    assert (T : flt (py_max Onset.min_threshold (fmul (lit 0) Onset.threshold_ratio))
                  (Onset.next_smoothed (Onset.init sr min_interval)
                     (np_rms (slice chunk 0 Onset.frame_size))) = true).
    { replace (py_max Onset.min_threshold (fmul (lit 0) Onset.threshold_ratio))
        with (@lit float Binary64 (1 # 1000)) by (vm_compute; reflexivity).
      unfold Onset.next_smoothed. cbn [Onset.smoothed_rms Onset.init].
      replace (fmul (fsub (lit 1) Onset.alpha_smooth) (lit 0))
        with PrimFloat.zero by (vm_compute; reflexivity).
      change (flt (lit (1 # 1000))
                (fadd (fmul Onset.alpha_smooth (np_rms (slice chunk 0 Onset.frame_size)))
                      PrimFloat.zero))
        with (PrimFloat.ltb (lit (1 # 1000))
                (PrimFloat.add
                   (PrimFloat.mul (lit (3 # 10)) (np_rms (slice chunk 0 Onset.frame_size)))
                   PrimFloat.zero)).
      rewrite add_zero_lt. exact Loud. }
    rewrite T. cbn [negb]. unfold Onset.rising_edge.
    cbn [Onset.sample_rate Onset.set_above_threshold Onset.set_peak_rms
         Onset.set_smoothed_rms Onset.init Onset.last_onset_time].
    rewrite (int_div_zero sr Pos). cbn [bind ret fst snd app].
    match goal with |- context [Onset.baseline_step ?s ?r ?p] =>
      destruct (baseline_step_defined s r p) as (d1 & B & B1 & _) end; [exact Sr|].
    rewrite B. cbn [bind]. exists d1. split; [reflexivity | exact B1]. }
  destruct First as (d1 & E1 & S1). rewrite E1. cbn [bind].
  destruct (run_frames_defined rest d1 [PrimFloat.zero]) as (d2 & o2 & R).
  { rewrite S1. exact Sr. }
  rewrite R. cbn [bind ret fst snd].
  apply run_frames_trace in R. destruct R as (_ & _ & new & -> & _).
  do 2 eexists. reflexivity.
Qed.

End OnsetStart.

(** ** The session *)

Section SessionFacts.

Context {F : Type} `{PyFloat F} `{PyFloatConv F}.

Variable np_rms : list F -> F.
Variable np_lstsq : list Z -> list F -> F * F.
Variable librosa_mfcc_mean : list F -> Z -> list F.
Variable librosa_centroid_mean : list F -> Z -> F.
Variable np_max_abs : list F -> F.
Variable np_sum_sq : list F -> F.
Variable np_norm : list F -> F.
Variable np_dot : list F -> list F -> F.

Local Abbreviation pipeline := (Session.AudioPipeline F).
Local Abbreviation event := (Session.Event F).
Local Abbreviation classify_spectral :=
  (Session._classify_onset_spectral librosa_mfcc_mean librosa_centroid_mean
     np_max_abs np_sum_sq np_norm np_dot).
Local Abbreviation before_lock := (Session.before_lock np_lstsq).
Local Abbreviation after_lock :=
  (Session.after_lock np_lstsq librosa_mfcc_mean librosa_centroid_mean
     np_max_abs np_sum_sq np_norm np_dot).
Local Abbreviation handle_onset :=
  (Session.handle_onset np_lstsq librosa_mfcc_mean librosa_centroid_mean
     np_max_abs np_sum_sq np_norm np_dot).
Local Abbreviation process_audio :=
  (Session.process_audio np_rms np_lstsq librosa_mfcc_mean librosa_centroid_mean
     np_max_abs np_sum_sq np_norm np_dot).
Local Abbreviation process_stream :=
  (Session.process_stream np_rms np_lstsq librosa_mfcc_mean librosa_centroid_mean
     np_max_abs np_sum_sq np_norm np_dot).

Lemma same_setup_refl (p : pipeline) : same_setup p p.
Proof. unfold same_setup. auto 10. Qed.

Lemma same_setup_trans (p q r : pipeline) :
  same_setup p q -> same_setup q r -> same_setup p r.
Proof.
  unfold same_setup. intros (A1 & A2 & A3 & A4 & A5 & A6) (B1 & B2 & B3 & B4 & B5 & B6).
  repeat split; congruence.
Qed.

Lemma sync_grid_cases (p : pipeline) :
  Session._sync_grid p = p
  \/ (Session.grid_config p <> None
      /\ Metronome.period (Session.metronome_detector p) <> None
      /\ Session._sync_grid p
         = Session.set_grid_config p
             (Some {| Session.g_bpm := Metronome.bpm (Session.metronome_detector p);
                      Session.g_reference_time :=
                        Metronome.reference_time (Session.metronome_detector p) |})).
Proof.
  unfold Session._sync_grid.
  destruct (Session.grid_config p) as [gc|]; [|auto].
  destruct (Metronome.period (Session.metronome_detector p)); [|auto].
  destruct (Metronome.reference_time (Session.metronome_detector p)); [|auto].
  destruct (_ || _); [|auto]. right. repeat split; discriminate.
Qed.

Lemma sync_grid_frame (p : pipeline) :
  same_setup p (Session._sync_grid p)
  /\ Session.metronome_detector (Session._sync_grid p) = Session.metronome_detector p
  /\ Session.note_events (Session._sync_grid p) = Session.note_events p
  /\ Session._total_onset_count (Session._sync_grid p) = Session._total_onset_count p
  /\ (Session.grid_config p = None -> Session.grid_config (Session._sync_grid p) = None).
Proof.
  destruct (sync_grid_cases p) as [-> | (G & _ & ->)].
  - split; [apply same_setup_refl | auto].
  - unfold same_setup. cbn. repeat split; try reflexivity. intros N; contradiction.
Qed.

(** After [_sync_grid] a grid that exists agrees with a fitted detector. *)
Lemma sync_grid_synced (p : pipeline) (gc : Session.GridArgs F) :
  Session.grid_config p = Some gc ->
  Metronome.period (Session.metronome_detector p) <> None ->
  Metronome.reference_time (Session.metronome_detector p) <> None ->
  exists gc', Session.grid_config (Session._sync_grid p) = Some gc'
              /\ grid_synced gc' (Session.metronome_detector p).
Proof.
  intros G P R. unfold Session._sync_grid. rewrite G.
  destruct (Metronome.period (Session.metronome_detector p)); [|contradiction].
  destruct (Metronome.reference_time (Session.metronome_detector p)) eqn:Rf; [|contradiction].
  destruct (Session.opt_ne (Session.g_bpm gc) _) eqn:A; cbn [orb].
  - eexists. split; [reflexivity|]. unfold grid_synced. cbn. auto.
  - destruct (Session.opt_ne (Session.g_reference_time gc) (Some f0)) eqn:B.
    + eexists. split; [reflexivity|]. unfold grid_synced. cbn. auto.
    + exists gc. split; [exact G|]. unfold grid_synced. rewrite Rf. auto.
Qed.

Lemma score_note_effect (p p' : pipeline) (ev ev' : list event) (t : F) :
  Session.score_note p ev t = Some (p', ev') ->
  exists dev near bar beat,
    Session.grid_deviation p t = Some (dev, near, bar, beat)
    /\ p' = Session.set_note_events p
              (Session.note_events p
               ++ [{| Session.time_seconds := t;
                      Session.nearest_grid_time := near;
                      Session.deviation_ms := dev;
                      Session.event_type := "note";
                      Session.pitch := None;
                      Session.bar := bar;
                      Session.beat_position := beat |}])
    /\ ev' = ev ++ [Session.note_event t dev bar beat
                      (fle (fabs dev) (Session.timing_threshold_ms p))].
Proof.
  unfold Session.score_note.
  destruct (Session.grid_deviation p t) as [[[[dev near] bar] beat]|]; cbn [bind];
    [|discriminate].
  intros E; inversion E; subst. exists dev, near, bar, beat. auto.
Qed.

(** The pre-lock branch, taken apart. *)
Lemma before_lock_effect (p p' : pipeline) (ev ev' : list event) (t : F) :
  before_lock p ev t = Some (p', ev') ->
  exists md b,
    Metronome.add_onset np_lstsq (Session.metronome_detector p) t = Returns md b
    /\ Session.metronome_detector p' = md
    /\ same_setup p p'
    /\ Session.note_events p' = Session.note_events p
    /\ Session._total_onset_count p' = Session._total_onset_count p
    /\ (if b
        then Session.grid_config p'
             = Some {| Session.g_bpm := Metronome.bpm md;
                       Session.g_reference_time := Metronome.reference_time md |}
             /\ exists bv,
                  Metronome.bpm md = Some bv
                  /\ ev' = ev ++ [Session.click_detected t (Metronome.click_count md)
                                    (Metronome.total_onsets md);
                                  Session.grid_established (round_nd 1 bv)
                                    (Metronome.reference_time md)]
        else Session.grid_config p' = Session.grid_config p
             /\ ev' = ev ++ [Session.click_detected t (Metronome.click_count md)
                               (Metronome.total_onsets md)]).
Proof.
  unfold Session.before_lock.
  destruct (Metronome.add_onset np_lstsq (Session.metronome_detector p) t)
    as [md b|md] eqn:A; cbn [returned bind]; [|discriminate].
  destruct b.
  - destruct (Metronome.bpm md) as [bv|] eqn:B; cbn [bind]; [|discriminate].
    intros E; inversion E; subst; clear E. exists md, true.
    split; [reflexivity|]. unfold same_setup. cbn. repeat split; try reflexivity.
    + rewrite B. reflexivity.
    + exists bv. split; [exact B|]. rewrite <- app_assoc. reflexivity.
  - intros E; inversion E; subst; clear E. exists md, false.
    split; [reflexivity|]. unfold same_setup. cbn. repeat split; reflexivity.
Qed.

(** The post-lock branch, taken apart: the decision, the refreshed grid,
    and the events. *)
Lemma after_lock_effect (p p' : pipeline) (ev ev' : list event) (t : F) :
  after_lock p ev t = Some (p', ev') ->
  exists cls md is_click,
    match Session.calibration p with
    | Some _ => option_map Some (classify_spectral p t)
    | None => Some None
    end = Some cls
    /\ Pipeline.post_lock_decision np_lstsq (Session.metronome_detector p) t cls
       = Some (md, is_click)
    /\ Session.metronome_detector p' = md
    /\ same_setup p p'
    /\ Session._total_onset_count p' = Session._total_onset_count p
    /\ Session.grid_config p'
       = Session.grid_config (Session._sync_grid (Session.set_metronome_detector p md))
    /\ ((is_click = true
         /\ Session.note_events p' = Session.note_events p
         /\ ev' = ev ++ [Session.click_detected t (Metronome.click_count md)
                           (Session._total_onset_count p)])
        \/ exists dev near bar beat,
             Session.grid_deviation
               (Session._sync_grid (Session.set_metronome_detector p md)) t
             = Some (dev, near, bar, beat)
             /\ Session.note_events p'
                = Session.note_events p
                  ++ [{| Session.time_seconds := t;
                         Session.nearest_grid_time := near;
                         Session.deviation_ms := dev;
                         Session.event_type := "note";
                         Session.pitch := None;
                         Session.bar := bar;
                         Session.beat_position := beat |}]
             /\ ev' = ev
                      ++ (if is_click
                          then [Session.click_detected t (Metronome.click_count md)
                                  (Session._total_onset_count p)]
                          else [])
                      ++ [Session.note_event t dev bar beat
                            (fle (fabs dev) (Session.timing_threshold_ms p))]).
Proof.
  unfold Session.after_lock.
  match goal with |- context [bind ?m _] => destruct m as [cls|] eqn:Cls end;
    cbn [bind]; [|discriminate].
  destruct (Pipeline.post_lock_decision np_lstsq (Session.metronome_detector p) t cls)
    as [[md is_click]|] eqn:D; cbn [bind]; [|discriminate].
  destruct (sync_grid_frame (Session.set_metronome_detector p md))
    as (Setup & Md & Notes & Count & _).
  cbn in Md, Notes, Count.
  remember (Session._sync_grid (Session.set_metronome_detector p md)) as p1 eqn:Hp1.
  assert (Setup' : same_setup p p1).
  { eapply same_setup_trans; [|exact Setup]. unfold same_setup. cbn. auto 10. }
  intros E. exists cls, md, is_click. split; [exact Cls|]. split; [exact D|].
  destruct is_click.
  - destruct (Session._is_note_expected_near p1 t) as [near|]; cbn [bind] in E;
      [|discriminate].
    destruct near.
    + apply score_note_effect in E.
      destruct E as (dev & nr & bar & beat & G & -> & ->).
      cbn [Session.metronome_detector Session.set_note_events Session._total_onset_count
           Session.grid_config Session.note_events].
      split; [exact Md|].
      split; [eapply same_setup_trans; [exact Setup'|]; unfold same_setup; cbn; auto 10|].
      split; [exact Count|]. split; [rewrite Hp1; reflexivity|].
      right. exists dev, nr, bar, beat. split; [rewrite <- Hp1; exact G|].
      rewrite Notes, Count. destruct Setup' as (_ & _ & Th & _). rewrite Th.
      split; [reflexivity|]. rewrite <- app_assoc. reflexivity.
    + inversion E; subst; clear E.
      split; [exact Md|]. split; [exact Setup'|]. split; [exact Count|].
      split; [reflexivity|]. left. rewrite Count. auto.
  - apply score_note_effect in E.
    destruct E as (dev & nr & bar & beat & G & -> & ->).
    cbn [Session.metronome_detector Session.set_note_events Session._total_onset_count
         Session.grid_config Session.note_events].
    split; [exact Md|].
    split; [eapply same_setup_trans; [exact Setup'|]; unfold same_setup; cbn; auto 10|].
    split; [exact Count|]. split; [rewrite Hp1; reflexivity|].
    right. exists dev, nr, bar, beat. split; [rewrite <- Hp1; exact G|].
    rewrite Notes. destruct Setup' as (_ & _ & Th & _). rewrite Th.
    split; reflexivity.
Qed.

(** The decision after the lock: the detector after [track_onset], or that
    detector with the click taken back. *)
Lemma post_lock_decision_cases (m m' : Metronome.MetronomeDetector F) (t : F)
    (cls : option string) (b : bool) :
  Pipeline.post_lock_decision np_lstsq m t cls = Some (m', b) ->
  exists m1 timing,
    Metronome.track_onset np_lstsq m t = Returns m1 timing
    /\ ((m' = m1 /\ (b = true -> timing = true))
        \/ (timing = true /\ b = false /\ Pipeline.undo_click m1 = Some m'
            /\ exists c, cls = Some c /\ String.eqb c "guitar" = true)).
Proof.
  unfold Pipeline.post_lock_decision.
  destruct (Metronome.track_onset np_lstsq m t) as [m1 timing|m1]; cbn [returned bind];
    [|discriminate].
  intros E. exists m1, timing. split; [reflexivity|].
  destruct cls as [c|].
  - destruct (timing && String.eqb c "guitar") eqn:G.
    + apply andb_true_iff in G. destruct G as [-> G].
      destruct (Pipeline.undo_click m1) as [m2|] eqn:U; cbn [bind] in E; [|discriminate].
      inversion E; subst. right. repeat split. exists c. auto.
    + destruct (negb timing && String.eqb c "click") eqn:C;
        inversion E; subst; left; split; auto; discriminate.
  - inversion E; subst. left. auto.
Qed.

Lemma post_lock_decision_reachable (m m' : Metronome.MetronomeDetector F) (t : F)
    (cls : option string) (b : bool) :
  Pipeline.reachable np_lstsq m ->
  Pipeline.post_lock_decision np_lstsq m t cls = Some (m', b) ->
  Pipeline.reachable np_lstsq m'.
Proof.
  intros R E. destruct (post_lock_decision_cases m m' t cls b E)
    as (m1 & timing & T & [[-> _] | (_ & _ & U & _)]).
  - eapply Pipeline.reach_track_onset; eassumption.
  - eapply Pipeline.reach_undo_click; [|exact U].
    eapply Pipeline.reach_track_onset; eassumption.
Qed.

Lemma post_lock_decision_locked (m m' : Metronome.MetronomeDetector F) (t : F)
    (cls : option string) (b : bool) :
  Pipeline.post_lock_decision np_lstsq m t cls = Some (m', b) ->
  Metronome.locked m' = Metronome.locked m
  /\ Metronome.onset_times m' = Metronome.onset_times m.
Proof.
  intros E. destruct (post_lock_decision_cases m m' t cls b E)
    as (m1 & timing & T & [[-> _] | (_ & _ & U & _)]).
  - apply (track_onset_keeps_lock np_lstsq m m1 t timing T).
  - destruct (track_onset_keeps_lock np_lstsq m m1 t timing T) as [L1 O1].
    destruct (undo_click_frame m1 m' U) as (L2 & O2 & _). split; congruence.
Qed.

Lemma process_chunk_counts (d d' : Onset.RealtimeOnsetDetector F) (chunk onsets : list F) :
  Onset.process_chunk np_rms d chunk = Some (d', onsets) ->
  Onset.total_samples d' = (Onset.total_samples d + Z.of_nat (length chunk))%Z
  /\ Onset.sample_rate d' = Onset.sample_rate d.
Proof.
  rewrite process_chunk_frames.
  destruct (Onset.run_frames np_rms (d, []) _) as [[d1 o1]|] eqn:R; cbn [bind];
    [|discriminate].
  intros E; inversion E; subst; clear E. cbn.
  apply run_frames_trace in R. destruct R as (R1 & _). auto.
Qed.

Lemma event_sound_weaken (wl wl' : bool) (n0 n0' : Z) (p p' : pipeline) (e : event) :
  event_sound wl' n0' p e ->
  (n0 <= n0')%Z ->
  (Session._total_onset_count p <= Session._total_onset_count p')%Z ->
  (wl = true -> wl' = true) ->
  (Session.is_grid_established p = true -> Session.is_grid_established p' = true) ->
  event_sound wl n0 p' e.
Proof.
  intros S N C W L. destruct e as [tm cc n | bv r | tm dv br bt ok]; cbn in *.
  - lia.
  - destruct S as (S1 & S2 & S3). repeat split; auto.
    destruct wl; [|reflexivity]. rewrite W in S1 by reflexivity. discriminate.
  - auto.
Qed.

(** One onset: the invariant is kept, and the events are as the state
    says. *)
Lemma handle_onset_invariant (p p' : pipeline) (ev ev' : list event) (t : F) :
  session_invariant np_lstsq p ->
  handle_onset (p, ev) t = Some (p', ev') ->
  session_invariant np_lstsq p'
  /\ same_setup p p'
  /\ Session._total_onset_count p' = (Session._total_onset_count p + 1)%Z
  /\ (Session.is_grid_established p = true -> Session.is_grid_established p' = true)
  /\ exists new,
       ev' = ev ++ new
       /\ (1 <= length new <= 2)%nat
       /\ Forall (event_sound (Session.is_grid_established p)
                    (Session._total_onset_count p) p') new.
Proof.
  intros (Reach & Lock & Total & Rate) E.
  unfold Session.handle_onset in E. cbn [fst snd] in E.
  unfold Session.is_grid_established in *.
  cbn [Session.metronome_detector Session.set_total_onset_count] in E.
  destruct (Metronome.locked (Session.metronome_detector p)) eqn:L; cbn [negb] in E.
  - (* after the lock *)
    apply after_lock_effect in E.
    destruct E as (cls & md & is_click & _ & D & Md & Setup & Count & Grid & Ev).
    cbn [Session.metronome_detector Session.set_total_onset_count
         Session._total_onset_count Session.note_events
         Session.timing_threshold_ms] in D, Count, Ev.
    pose proof (post_lock_decision_reachable _ _ _ _ _ Reach D) as Reach'.
    destruct (post_lock_decision_locked _ _ _ _ _ D) as [L' _]. rewrite L in L'.
    assert (Setup' : same_setup p p').
    { eapply same_setup_trans; [|exact Setup]. unfold same_setup. cbn. auto 10. }
    destruct Lock as (gc & G & _).
    pose proof (reachable_fit_invariant np_lstsq md Reach') as Fit.
    unfold fit_invariant in Fit. rewrite L' in Fit.
    destruct Fit as (pv & rv & bv & Pv & Rv & _).
    destruct (sync_grid_synced
                (Session.set_metronome_detector
                   (Session.set_total_onset_count p (Session._total_onset_count p + 1)) md)
                gc) as (gc' & G' & Sy).
    { exact G. }
    { cbn. rewrite Pv. discriminate. }
    { cbn. rewrite Rv. discriminate. }
    cbn [Session.metronome_detector Session.set_metronome_detector] in Sy.
    rewrite <- Grid in G'.
    split.
    { unfold session_invariant. rewrite Md, L'.
      split; [exact Reach'|]. split; [exists gc'; auto|].
      destruct Setup' as (_ & S2 & _ & _ & S5 & S6). rewrite S5, S6, S2. auto. }
    split; [exact Setup'|]. split; [exact Count|].
    split; [intros _; rewrite Md; exact L'|].
    destruct Ev as [(-> & _ & ->) | (dev & nr & bar & beat & _ & _ & ->)].
    + eexists. split; [reflexivity|]. split; [cbn; lia|].
      constructor; [|constructor]. cbn. lia.
    + eexists. split; [reflexivity|].
      destruct is_click; cbn [app length]; (split; [lia|]).
      * constructor; [cbn; lia|]. constructor; [|constructor]. cbn. unfold Session.is_grid_established. rewrite Md. exact L'.
      * constructor; [|constructor]. cbn. unfold Session.is_grid_established. rewrite Md. exact L'.
  - (* before the lock *)
    apply before_lock_effect in E.
    destruct E as (md & b & A & Md & Setup & Notes & Count & Ev).
    cbn [Session.metronome_detector Session.set_total_onset_count
         Session._total_onset_count Session.note_events Session.grid_config] in A, Notes, Count, Ev.
    assert (Reach' : Pipeline.reachable np_lstsq md)
      by (eapply Pipeline.reach_add_onset; [exact Reach | exact A]).
    destruct (add_onset_effect np_lstsq _ _ _ _ A) as (Log & Lk & Fit).
    rewrite L in Lk. cbn [orb] in Lk.
    assert (Setup' : same_setup p p').
    { eapply same_setup_trans; [|exact Setup]. unfold same_setup. cbn. auto 10. }
    destruct Lock as (G & N & Tot).
    assert (Tot' : Metronome.total_onsets md = (Session._total_onset_count p + 1)%Z).
    { unfold Metronome.total_onsets, Metronome.len in *. rewrite Log, length_app. cbn. lia. }
    split.
    { unfold session_invariant. rewrite Md, Lk.
      split; [exact Reach'|].
      destruct Setup' as (_ & S2 & _ & _ & S5 & S6). rewrite S5, S6, S2.
      split; [|auto].
      destruct b.
      - destruct Ev as (G' & _). eexists. split; [exact G'|].
        unfold grid_synced. cbn. auto.
      - destruct Ev as (G' & _). rewrite G', Notes, Count. auto. }
    split; [exact Setup'|]. split; [exact Count|].
    split; [intros D; discriminate D|].
    destruct b.
    + destruct Ev as (_ & bv & _ & ->). eexists. split; [reflexivity|].
      split; [cbn; lia|].
      destruct (Fit eq_refl) as (_ & _ & _ & Rf).
      constructor; [cbn; lia|]. constructor; [|constructor].
      cbn. unfold Session.is_grid_established. rewrite Md. auto.
    + destruct Ev as (_ & ->). eexists. split; [reflexivity|].
      split; [cbn; lia|]. constructor; [|constructor]. cbn. lia.
Qed.

Lemma handle_onsets_invariant (ts : list F) (p p' : pipeline) (ev ev' : list event) :
  session_invariant np_lstsq p ->
  foldM handle_onset (p, ev) ts = Some (p', ev') ->
  session_invariant np_lstsq p'
  /\ same_setup p p'
  /\ Session._total_onset_count p' = (Session._total_onset_count p + Z.of_nat (length ts))%Z
  /\ (Session.is_grid_established p = true -> Session.is_grid_established p' = true)
  /\ exists new,
       ev' = ev ++ new
       /\ (length ts <= length new <= 2 * length ts)%nat
       /\ Forall (event_sound (Session.is_grid_established p)
                    (Session._total_onset_count p) p') new.
Proof.
  revert p ev; induction ts as [|t ts IH]; intros p ev I E.
  - inversion E; subst. split; [exact I|]. split; [apply same_setup_refl|].
    split; [cbn; lia|]. split; [auto|]. exists []. rewrite app_nil_r.
    split; [reflexivity|]. split; [cbn; lia | constructor].
  - cbn [foldM] in E.
    destruct (handle_onset (p, ev) t) as [[p1 ev1]|] eqn:E1; cbn [bind] in E; [|discriminate].
    destruct (handle_onset_invariant p p1 ev ev1 t I E1)
      as (I1 & S1 & C1 & L1 & new1 & -> & Len1 & F1).
    destruct (IH p1 (ev ++ new1) I1 E) as (I2 & S2 & C2 & L2 & new2 & -> & Len2 & F2).
    split; [exact I2|]. split; [eapply same_setup_trans; eassumption|].
    split; [cbn [length]; lia|]. split; [auto|].
    exists (new1 ++ new2). rewrite app_assoc. split; [reflexivity|].
    split; [rewrite length_app; cbn [length]; lia|].
    apply Forall_app. split.
    + eapply Forall_impl; [|exact F1]. intros e Se.
      apply (event_sound_weaken _ _ _ _ p1 p' e Se); [lia | lia | auto | exact L2].
    + eapply Forall_impl; [|exact F2]. intros e Se.
      apply (event_sound_weaken _ _ _ _ p' p' e Se); [lia | lia | exact L1 | auto].
Qed.

(** One call of [process_audio]. *)
Lemma process_audio_invariant (p p' : pipeline) (chunk : list F) (events : list event) :
  session_invariant np_lstsq p ->
  process_audio p chunk = Some (p', events) ->
  session_invariant np_lstsq p'
  /\ Session.audio_buffer p' = Session.audio_buffer p ++ chunk
  /\ (Session.is_grid_established p = true -> Session.is_grid_established p' = true)
  /\ exists d onsets,
       Onset.process_chunk np_rms (Session.onset_detector p) chunk = Some (d, onsets)
       /\ Session.onset_detector p' = d
       /\ Session._total_onset_count p'
          = (Session._total_onset_count p + Z.of_nat (length onsets))%Z
       /\ (length onsets <= length events <= 2 * length onsets)%nat
       /\ Forall (event_sound (Session.is_grid_established p)
                    (Session._total_onset_count p) p') events.
Proof.
  intros (Reach & Lock & Total & Rate) E. unfold Session.process_audio in E.
  cbn [Session.onset_detector Session.set_audio_buffer Session.audio_buffer] in E.
  destruct (Onset.process_chunk np_rms (Session.onset_detector p) chunk)
    as [[d onsets]|] eqn:Pc; cbn [bind] in E; [|discriminate].
  destruct (process_chunk_counts _ _ _ _ Pc) as [Tc Sr].
  apply handle_onsets_invariant in E.
  - destruct E as (I & Setup & Count & L & new & -> & Len & Fa).
    destruct Setup as (_ & _ & _ & _ & S5 & S6). cbn in S5, S6, Count, L, Fa.
    split; [exact I|]. split; [exact S5|]. split; [exact L|].
    exists d, onsets. split; [reflexivity|]. split; [exact S6|].
    split; [exact Count|]. split; [exact Len | exact Fa].
  - unfold session_invariant. cbn. split; [exact Reach|]. split; [exact Lock|].
    rewrite Tc, Sr, Total, length_app. split; [lia | exact Rate].
Qed.

Lemma init_session_invariant (res : string) (sr : Z) (thr : F)
    (cal : option (Calibration.CalibrationData F)) :
  session_invariant np_lstsq (Session.init res sr thr cal).
Proof.
  unfold session_invariant. cbn. split; [constructor|]. auto.
Qed.

Lemma process_stream_invariant (chunks : list (list F)) (p p' : pipeline)
    (events : list event) :
  session_invariant np_lstsq p ->
  process_stream p chunks = Some (p', events) ->
  session_invariant np_lstsq p'
  /\ Session.audio_buffer p' = Session.audio_buffer p ++ concat chunks.
Proof.
  revert p events; induction chunks as [|c rest IH]; intros p events I E.
  - inversion E; subst. cbn. rewrite app_nil_r. auto.
  - cbn [Session.process_stream] in E.
    destruct (process_audio p c) as [[p1 e1]|] eqn:E1; cbn [bind] in E; [|discriminate].
    destruct (process_stream p1 rest) as [[p2 e2]|] eqn:E2; cbn [bind] in E; [|discriminate].
    inversion E; subst; clear E.
    destruct (process_audio_invariant p p1 c e1 I E1) as (I1 & B1 & _).
    destruct (IH p1 e2 I1 E2) as (I2 & B2).
    split; [exact I2|]. rewrite B2, B1. cbn [concat]. rewrite app_assoc. reflexivity.
Qed.

(** X19.  The invariant of a session.  After any number of calls of
    [process_audio] on a fresh pipeline: the metronome detector is in a
    state reached by [add_onset], [track_onset] and the undo; as long as it
    is not locked there is no grid, no note has been scored and the
    detector has logged every onset the pipeline counted; once it is
    locked there is a grid whose BPM and reference time are the detector's
    or compare equal to them; the audio buffer is the stream received, and
    the onset detector has counted its samples. *)
Theorem session_invariant_holds (res : string) (sr : Z) (thr : F)
    (cal : option (Calibration.CalibrationData F)) (chunks : list (list F))
    (p : pipeline) (events : list event) :
  process_stream (Session.init res sr thr cal) chunks = Some (p, events) ->
  session_invariant np_lstsq p
  /\ Session.audio_buffer p = concat chunks
  /\ Session.sample_rate p = sr.
Proof.
  intros E.
  destruct (process_stream_invariant chunks _ p events
              (init_session_invariant res sr thr cal) E) as (I & B).
  split; [exact I|]. split; [exact B|].
  destruct I as (_ & _ & _ & Rate). rewrite <- Rate.
  clear B. revert E. generalize (init_session_invariant res sr thr cal).
  assert (G : forall (cs : list (list F)) (q q' : pipeline) (es : list event),
             session_invariant np_lstsq q ->
             process_stream q cs = Some (q', es) ->
             Onset.sample_rate (Session.onset_detector q')
             = Onset.sample_rate (Session.onset_detector q)).
  { induction cs as [|c rest IH]; intros q q' es Iq Eq.
    - inversion Eq; subst; reflexivity.
    - cbn [Session.process_stream] in Eq.
      destruct (process_audio q c) as [[q1 e1]|] eqn:E1; cbn [bind] in Eq; [|discriminate].
      destruct (process_stream q1 rest) as [[q2 e2]|] eqn:E2; cbn [bind] in Eq;
        [|discriminate].
      inversion Eq; subst; clear Eq.
      destruct (process_audio_invariant q q1 c e1 Iq E1) as (I1 & _ & _ & d & o & Pc & Od & _).
      rewrite (IH q1 q' e2 I1 E2), Od.
      apply (process_chunk_counts _ _ _ _ Pc). }
  intros I0 E. rewrite (G chunks _ p events I0 E). reflexivity.
Qed.

(** X20.  What the events of a call say.  In a session, a call of
    [process_audio] returns between one and two events per onset; every
    [click_detected] carries as [total_onsets] the pipeline's own count of
    an onset of this call, before the lock (where it is read from the
    detector) as after it; [grid_established] is sent only by a call that
    started without the lock and ends with it, and carries a reference
    time; and a [note_event] is sent only once the grid is established: a
    call that ends without the lock returns none and leaves [note_events]
    empty. *)
Theorem events_of_a_call (p p' : pipeline) (chunk : list F) (events : list event) :
  session_invariant np_lstsq p ->
  process_audio p chunk = Some (p', events) ->
  exists d onsets,
    Onset.process_chunk np_rms (Session.onset_detector p) chunk = Some (d, onsets)
    /\ Session._total_onset_count p'
       = (Session._total_onset_count p + Z.of_nat (length onsets))%Z
    /\ (length onsets <= length events <= 2 * length onsets)%nat
    /\ Forall (fun e =>
                 match e with
                 | Session.click_detected _ _ n =>
                     (Session._total_onset_count p < n <= Session._total_onset_count p')%Z
                 | Session.grid_established _ r =>
                     Session.is_grid_established p = false
                     /\ Session.is_grid_established p' = true
                     /\ r <> None
                 | Session.note_event _ _ _ _ _ => Session.is_grid_established p' = true
                 end) events
    /\ (Session.is_grid_established p' = false ->
        Session.note_events p' = [] /\ existsb is_note_event events = false).
Proof.
  intros I E.
  destruct (process_audio_invariant p p' chunk events I E)
    as (I' & _ & _ & d & onsets & Pc & _ & Count & Len & Fa).
  exists d, onsets. split; [exact Pc|]. split; [exact Count|]. split; [exact Len|].
  split; [exact Fa|].
  intros U. destruct I' as (_ & Lock & _).
  pose proof U as U'. unfold Session.is_grid_established in U'.
  rewrite U' in Lock. split; [apply Lock|].
  clear Len E. induction Fa as [|e es Se _ IH]; [reflexivity|].
  cbn [existsb]. rewrite IH, orb_false_r.
  destruct e as [tm cc n | bv r | tm dv br bt ok]; cbn [is_note_event event_sound] in *;
    [reflexivity | reflexivity | congruence].
Qed.

(** With the spectral class "guitar" no click is kept: the decision is
    "not a click", and the click history is the one before the onset. *)
Lemma guitar_decision (m m' : Metronome.MetronomeDetector F) (t : F) (b : bool) :
  Pipeline.post_lock_decision np_lstsq m t (Some "guitar"%string) = Some (m', b) ->
  b = false
  /\ Metronome.click_times m' = Metronome.click_times m
  /\ Metronome._click_indices m' = Metronome._click_indices m.
Proof.
  unfold Pipeline.post_lock_decision.
  destruct (Metronome.track_onset np_lstsq m t) as [m1 timing|m1] eqn:T;
    cbn [returned bind];
    [|discriminate].
  destruct timing; cbn [andb negb].
  - change (String.eqb "guitar" "guitar") with true. cbv iota.
    destruct (Pipeline.undo_click m1) as [m2|] eqn:U; cbn [bind]; [|discriminate].
    intros E; inversion E; subst; clear E. split; [reflexivity|].
    destruct (undo_click_frame m1 m' U) as (_ & _ & _ & _ & _ & Ts & Ks).
    destruct (track_onset_true np_lstsq m m1 t T)
      as (p & r & offset & k & _ & _ & _ & _ & _ & _ & _ & Next).
    assert (C : Metronome.click_times m1 = Metronome.click_times m ++ [t]
                /\ Metronome._click_indices m1 = Metronome._click_indices m ++ [k]).
    { destruct (4 <=? _)%Z.
      - destruct (refit_frame np_lstsq _ m1 Next) as (_ & _ & A & B & _).
        rewrite A, B. cbn. auto.
      - subst m1. cbn. auto. }
    destruct C as [C1 C2]. rewrite Ts, Ks, C1, C2, !removelast_last. auto.
  - change (String.eqb "guitar" "guitar") with true.
    change (String.eqb "guitar" "click") with false. cbv iota.
    intros E; inversion E; subst; clear E.
    rewrite (track_onset_false np_lstsq m m' t T). auto.
Qed.

(** The spectral class of an onset whose window is not in the buffer. *)
Lemma late_window_class (p : pipeline) (cal : Calibration.CalibrationData F)
    (t : F) (s : Z) :
  Session.calibration p = Some cal ->
  py_int (fmul t (of_int (Session.sample_rate p))) = Some s ->
  (Z.of_nat (length (Session.audio_buffer p)) < s + Calibration.WINDOW_SAMPLES)%Z
  \/ (s < 0)%Z ->
  classify_spectral p t = Some "guitar"%string.
Proof.
  intros C S Late. unfold Session._classify_onset_spectral. rewrite C, S. cbn [bind].
  unfold Calibration.classify_onset.
  assert (G : (Z.of_nat (length (Session.audio_buffer p)) <? s + Calibration.WINDOW_SAMPLES)%Z
              || (s <? 0)%Z = true).
  { apply orb_true_iff. destruct Late; [left; apply Z.ltb_lt | right; apply Z.ltb_lt];
      assumption. }
  rewrite G. reflexivity.
Qed.

(** One onset whose window is not in the buffer. *)
Lemma late_onset_step (p p' : pipeline) (ev ev' : list event) (t : F)
    (cal : Calibration.CalibrationData F) (s : Z) :
  Session.is_grid_established p = true ->
  Session.calibration p = Some cal ->
  py_int (fmul t (of_int (Session.sample_rate p))) = Some s ->
  (Z.of_nat (length (Session.audio_buffer p)) < s + Calibration.WINDOW_SAMPLES)%Z
  \/ (s < 0)%Z ->
  handle_onset (p, ev) t = Some (p', ev') ->
  Metronome.click_times (Session.metronome_detector p')
  = Metronome.click_times (Session.metronome_detector p)
  /\ Metronome._click_indices (Session.metronome_detector p')
     = Metronome._click_indices (Session.metronome_detector p)
  /\ same_setup p p'
  /\ Session.is_grid_established p' = true
  /\ exists dev near bar beat,
       ev' = ev ++ [Session.note_event t dev bar beat
                      (fle (fabs dev) (Session.timing_threshold_ms p))]
       /\ Session.note_events p'
          = Session.note_events p
            ++ [{| Session.time_seconds := t;
                   Session.nearest_grid_time := near;
                   Session.deviation_ms := dev;
                   Session.event_type := "note";
                   Session.pitch := None;
                   Session.bar := bar;
                   Session.beat_position := beat |}].
Proof.
  intros L C S Late E.
  unfold Session.handle_onset in E. cbn [fst snd] in E.
  unfold Session.is_grid_established in *.
  cbn [Session.metronome_detector Session.set_total_onset_count] in E.
  rewrite L in E. cbn [negb] in E.
  apply after_lock_effect in E.
  destruct E as (cls & md & is_click & Cls & D & Md & Setup & _ & _ & Ev).
  cbn [Session.calibration Session.set_total_onset_count] in Cls.
  rewrite C in Cls.
  rewrite (late_window_class _ cal t s) in Cls; [|exact C|exact S|exact Late].
  inversion Cls; subst cls; clear Cls.
  cbn [Session.metronome_detector Session.set_total_onset_count] in D.
  destruct (post_lock_decision_locked _ _ _ _ _ D) as [L' _]. rewrite L in L'.
  destruct (guitar_decision _ _ _ _ D) as (-> & Ts & Ks).
  rewrite Md. split; [exact Ts|]. split; [exact Ks|].
  split.
  { eapply same_setup_trans; [|exact Setup]. unfold same_setup. cbn. auto 10. }
  split; [exact L'|].
  destruct Ev as [(D' & _) | (dev & nr & bar & beat & _ & N & ->)]; [discriminate|].
  exists dev, nr, bar, beat. cbn in N. cbn. auto.
Qed.

Lemma late_onsets_fold (cal : Calibration.CalibrationData F) (ts : list F)
    (p p' : pipeline) (ev ev' : list event) :
  Session.is_grid_established p = true ->
  Session.calibration p = Some cal ->
  Forall (fun t => exists s,
            py_int (fmul t (of_int (Session.sample_rate p))) = Some s
            /\ ((Z.of_nat (length (Session.audio_buffer p))
                 < s + Calibration.WINDOW_SAMPLES)%Z
                \/ (s < 0)%Z)) ts ->
  foldM handle_onset (p, ev) ts = Some (p', ev') ->
  Metronome.click_times (Session.metronome_detector p')
  = Metronome.click_times (Session.metronome_detector p)
  /\ Metronome._click_indices (Session.metronome_detector p')
     = Metronome._click_indices (Session.metronome_detector p)
  /\ same_setup p p'
  /\ exists new,
       ev' = ev ++ new
       /\ forallb is_note_event new = true
       /\ length new = length ts
       /\ length (Session.note_events p')
          = (length (Session.note_events p) + length ts)%nat.
Proof.
  revert p ev; induction ts as [|t ts IH]; intros p ev L C Late E.
  - inversion E; subst. split; [reflexivity|]. split; [reflexivity|].
    split; [apply same_setup_refl|]. exists []. rewrite app_nil_r. cbn. auto.
  - cbn [foldM] in E.
    destruct (handle_onset (p, ev) t) as [[p1 ev1]|] eqn:E1; cbn [bind] in E; [|discriminate].
    inversion Late as [|t0 ts0 (s & S & W) Late']; subst.
    destruct (late_onset_step p p1 ev ev1 t cal s L C S W E1)
      as (T1 & K1 & S1 & L1 & dev & nr & bar & beat & -> & N1).
    pose proof S1 as (_ & Sr & _ & Cal & Buf & _).
    assert (C1 : Session.calibration p1 = Some cal) by (rewrite Cal; exact C).
    pose proof (IH p1 (ev ++ [Session.note_event t dev bar beat
                                (fle (fabs dev) (Session.timing_threshold_ms p))])
                  L1 C1) as IH1.
    rewrite Sr, Buf in IH1.
    destruct (IH1 Late' E) as (T2 & K2 & S2 & new & -> & Fn & Ln & Nn).
    split; [congruence|]. split; [congruence|].
    split; [eapply same_setup_trans; eassumption|].
    eexists. rewrite <- app_assoc. split; [reflexivity|].
    cbn [app forallb is_note_event length andb]. split; [exact Fn|].
    split; [lia|]. rewrite Nn, N1, length_app. cbn [length]. lia.
Qed.

(** X21.  With a calibration present, onsets whose 2048-sample windows are
    not yet in the audio buffer are never taken as clicks: the classifier
    answers "guitar" by default, the pipeline takes back the click
    [track_onset] may have recorded, and each onset is scored as a note.
    A call of [process_audio] whose onsets are all of this kind returns
    one [note_event] per onset and leaves the click history as it was. *)
Theorem late_onsets_are_scored_as_notes (p p' : pipeline) (chunk : list F)
    (events : list event) (cal : Calibration.CalibrationData F)
    (d : Onset.RealtimeOnsetDetector F) (onsets : list F) :
  Session.is_grid_established p = true ->
  Session.calibration p = Some cal ->
  Onset.process_chunk np_rms (Session.onset_detector p) chunk = Some (d, onsets) ->
  Forall (fun t => exists s,
            py_int (fmul t (of_int (Session.sample_rate p))) = Some s
            /\ ((Z.of_nat (length (Session.audio_buffer p ++ chunk))
                 < s + Calibration.WINDOW_SAMPLES)%Z
                \/ (s < 0)%Z)) onsets ->
  process_audio p chunk = Some (p', events) ->
  Metronome.click_times (Session.metronome_detector p')
  = Metronome.click_times (Session.metronome_detector p)
  /\ Metronome._click_indices (Session.metronome_detector p')
     = Metronome._click_indices (Session.metronome_detector p)
  /\ forallb is_note_event events = true
  /\ length events = length onsets
  /\ length (Session.note_events p')
     = (length (Session.note_events p) + length onsets)%nat.
Proof.
  intros L C Pc Late E. unfold Session.process_audio in E.
  cbn [Session.onset_detector Session.set_audio_buffer] in E.
  rewrite Pc in E. cbn [bind] in E.
  apply (late_onsets_fold cal) in E; [|exact L|exact C|exact Late].
  destruct E as (T & K & _ & new & -> & Fn & Ln & Nn).
  cbn in T, K, Nn. cbn [app]. auto.
Qed.

End SessionFacts.

(** ** The two energy-decay ratios *)

Section DecayRatios.

Variable librosa_mfcc_mean : list Q -> Z -> list Q.
Variable librosa_centroid_mean : list Q -> Z -> Q.
Variable np_max_abs : list Q -> Q.
Variable np_sum_sq : list Q -> Q.

Local Abbreviation features_of :=
  (Calibration._extract_window_features librosa_mfcc_mean librosa_centroid_mean
     np_max_abs np_sum_sq).

(** X24.  [onset_classifier.energy_decay_ratio] and the energy decay that
    [calibration._extract_window_features] computes on a window that is not
    silent are the same number, except when the energy of the first half
    is exactly 1e-10: there the classifier divides ([first_half < 1e-10] is
    false) while the calibration answers 1.0 ([first_energy > 1e-10] is
    false). *)
Theorem energy_decay_agreement (window : list Q) (sample_rate : Z) :
  flt (np_max_abs window) (lit (1 # 1000000)) = false ->
  let mid := (Z.of_nat (length window) / 2)%Z in
  let first := np_sum_sq (slice window 0 mid) in
  let second := np_sum_sq (skipn (Z.to_nat mid) window) in
  (~ first == 1 # 10000000000 ->
   option_map (option_map (@Calibration.energy_decay Q)) (features_of window sample_rate)
   = option_map Some (Classifier.energy_decay_ratio np_sum_sq window))
  /\ (first == 1 # 10000000000 ->
      option_map (option_map (@Calibration.energy_decay Q)) (features_of window sample_rate)
      = Some (Some 1)
      /\ Classifier.energy_decay_ratio np_sum_sq window = Some (second / first)).
Proof.
  intros Loud mid first second.
  unfold Calibration._extract_window_features, Classifier.energy_decay_ratio.
  rewrite Loud. cbv zeta. fold mid. fold first. fold second.
  change (@lit Q Exact (1 # 10000000000)) with (1 # 10000000000).
  change (@lit Q Exact 1) with 1.
  split.
  - intros Ne.
    destruct (flt (1 # 10000000000) first) eqn:A; destruct (flt first (1 # 10000000000)) eqn:B.
    + apply Qflt_true in A. apply Qflt_true in B. lra.
    + apply Qflt_true in A.
      rewrite Qfdiv_defined by (intros Z0; rewrite Z0 in A; discriminate A).
      reflexivity.
    + reflexivity.
    + apply Qflt_false in A. apply Qflt_false in B.
      exfalso. apply Ne. apply Qle_antisym; assumption.
  - intros Eq.
    assert (A : flt (1 # 10000000000) first = false) by (apply Qflt_false; rewrite Eq; lra).
    assert (B : flt first (1 # 10000000000) = false) by (apply Qflt_false; rewrite Eq; lra).
    rewrite A, B. split; [reflexivity|].
    apply Qfdiv_defined. intros Z0. rewrite Z0 in Eq. discriminate Eq.
Qed.

End DecayRatios.

(** ** The calibration profile *)

Section OfflineFacts.

Context {F : Type} `{PyFloat F} `{PyFloatConv F}.

Variable librosa_onset_detect : list F -> Z -> list F.
Variable librosa_mfcc_mean : list F -> Z -> list F.
Variable librosa_centroid_mean : list F -> Z -> F.
Variable np_max_abs : list F -> F.
Variable np_sum_sq : list F -> F.
Variable np_mean_rows : list (list F) -> list F.
Variable np_mean : list F -> F.

Local Abbreviation window_features :=
  (Offline.window_features librosa_mfcc_mean librosa_centroid_mean np_max_abs np_sum_sq).
Local Abbreviation extract_profile :=
  (Offline.extract_profile librosa_onset_detect librosa_mfcc_mean librosa_centroid_mean
     np_max_abs np_sum_sq np_mean_rows np_mean).

Lemma window_features_grows (audio : list F) (sr : Z)
    (acc acc' : list (Calibration.Features F)) (t : F) :
  window_features audio sr acc t = Some acc' ->
  (length acc <= length acc' <= S (length acc))%nat.
Proof.
  unfold Offline.window_features.
  destruct (py_int _) as [start|]; cbn [bind]; [|discriminate].
  destruct (_ <? _)%Z; [intros E; inversion E; subst; lia|].
  destruct (Calibration._extract_window_features _ _ _ _ _ _) as [[f|]|]; cbn [bind];
    [| |discriminate]; intros E; inversion E; subst; [rewrite length_app; cbn|]; lia.
Qed.

Lemma windows_grow (audio : list F) (sr : Z) (ts : list F)
    (acc all : list (Calibration.Features F)) :
  foldM (window_features audio sr) acc ts = Some all ->
  (length acc <= length all <= length acc + length ts)%nat.
Proof.
  revert acc; induction ts as [|t ts IH]; intros acc E.
  - inversion E; subst. cbn. lia.
  - cbn [foldM] in E.
    destruct (window_features audio sr acc t) as [acc1|] eqn:W; cbn [bind] in E;
      [|discriminate].
    apply window_features_grows in W. apply IH in E. cbn [length]. lia.
Qed.

(** X25.  The profile [extract_profile] returns counts the windows it
    averaged: [onset_count] is at most the number of onsets librosa
    detected, it is 0 exactly for the all-zero profile, and the profile
    always carries an energy decay (the default 0.5 of [classify_onset] is
    never used on it). *)
Theorem extract_profile_counts (audio : list F) (sample_rate : Z)
    (profile : Calibration.Profile F) :
  extract_profile audio sample_rate = Some profile ->
  (0 <= Calibration.onset_count profile
   <= Z.of_nat (length (librosa_onset_detect audio sample_rate)))%Z
  /\ (Calibration.onset_count profile = 0%Z <-> profile = Offline.zero_profile)
  /\ Calibration.p_energy_decay profile <> None.
Proof.
  unfold Offline.extract_profile. cbv zeta.
  destruct (Z.of_nat (length (librosa_onset_detect audio sample_rate)) =? 0)%Z eqn:N.
  { intros E; inversion E; subst. cbn. split; [lia|]. split; [tauto | discriminate]. }
  destruct (foldM _ [] _) as [all|] eqn:Fo; cbn [bind]; [|discriminate].
  apply windows_grow in Fo. cbn [length] in Fo.
  destruct (Z.of_nat (length all) =? 0)%Z eqn:A.
  { intros E; inversion E; subst. cbn. split; [lia|]. split; [tauto | discriminate]. }
  apply Z.eqb_neq in A.
  intros E; inversion E; subst; clear E. cbn.
  split; [lia|]. split; [|discriminate].
  split; [lia|]. intros Zp. apply (f_equal (@Calibration.onset_count F)) in Zp.
  cbn in Zp. lia.
Qed.

(** X26.  A recording on which every detected onset has its 2048-sample
    window running past the end - any recording shorter than 2048 samples,
    for onsets at non-negative times - gives the all-zero profile with
    [onset_count] 0, whatever the features are. *)
Theorem profile_of_short_recording (audio : list F) (sample_rate : Z) :
  forallb (fun t =>
             match py_int (fmul t (of_int sample_rate)) with
             | Some start =>
                 (Z.of_nat (length audio) <? start + Calibration.WINDOW_SAMPLES)%Z
             | None => false
             end) (librosa_onset_detect audio sample_rate) = true ->
  extract_profile audio sample_rate = Some Offline.zero_profile.
Proof.
  intros Late. unfold Offline.extract_profile. cbv zeta.
  destruct (_ =? 0)%Z; [reflexivity|].
  assert (Fo : forall ts acc,
             forallb (fun t =>
                        match py_int (fmul t (of_int sample_rate)) with
                        | Some start =>
                            (Z.of_nat (length audio)
                             <? start + Calibration.WINDOW_SAMPLES)%Z
                        | None => false
                        end) ts = true ->
             foldM (window_features audio sample_rate) acc ts = Some acc).
  { induction ts as [|t ts IH]; intros acc L; [reflexivity|].
    cbn [forallb] in L. apply andb_true_iff in L. destruct L as [L1 L2].
    cbn [foldM]. unfold Offline.window_features at 1.
    destruct (py_int (fmul t (of_int sample_rate))) as [start|]; [|discriminate].
    cbn [bind]. rewrite L1. cbn [bind ret]. apply IH, L2. }
  rewrite (Fo _ [] Late). reflexivity.
Qed.

End OfflineFacts.

(** ** The notes of a session and its report *)

Lemma filter_nil_existsb {A : Type} (f : A -> bool) (l : list A) :
  filter f l = [] -> existsb f l = false.
Proof.
  induction l as [|a l IH]; [reflexivity|]. cbn.
  destruct (f a); [discriminate|]. exact IH.
Qed.

Lemma filter_length_mono {A : Type} (f g : A -> bool) (l : list A) :
  (forall x, f x = true -> g x = true) ->
  (length (filter f l) <= length (filter g l))%nat.
Proof.
  intros Imp. induction l as [|a l IH]; [cbn; lia|]. cbn.
  destruct (f a) eqn:Fa.
  - rewrite (Imp a Fa). cbn. lia.
  - destruct (g a); cbn; lia.
Qed.

Lemma on_time_notes_are_notes {F : Type} (l : list (Session.Event F)) :
  filter is_on_time_note (filter is_note_event l) = filter is_on_time_note l.
Proof.
  induction l as [|e l IH]; [reflexivity|].
  destruct e as [tm cc n | bv r | tm dv br bt ok]; cbn; try exact IH.
  rewrite IH. reflexivity.
Qed.

Section SessionReport.

Context {F : Type} `{PyFloat F} `{PyFloatConv F}.

Variable np_rms : list F -> F.
Variable np_lstsq : list Z -> list F -> F * F.
Variable librosa_mfcc_mean : list F -> Z -> list F.
Variable librosa_centroid_mean : list F -> Z -> F.
Variable np_max_abs : list F -> F.
Variable np_sum_sq : list F -> F.
Variable np_norm : list F -> F.
Variable np_dot : list F -> list F -> F.
Variable np_mean : list F -> F.
Variable np_std : list F -> F.
Variable np_median : list F -> F.
Variable np_max : list F -> F.
Variable np_argmax : list F -> Z.
Variable np_polyfit_slope : list F -> list F -> option F.

Local Abbreviation pipeline := (Session.AudioPipeline F).
Local Abbreviation event := (Session.Event F).
Local Abbreviation handle_onset :=
  (Session.handle_onset np_lstsq librosa_mfcc_mean librosa_centroid_mean
     np_max_abs np_sum_sq np_norm np_dot).
Local Abbreviation process_audio :=
  (Session.process_audio np_rms np_lstsq librosa_mfcc_mean librosa_centroid_mean
     np_max_abs np_sum_sq np_norm np_dot).
Local Abbreviation process_stream :=
  (Session.process_stream np_rms np_lstsq librosa_mfcc_mean librosa_centroid_mean
     np_max_abs np_sum_sq np_norm np_dot).
Local Abbreviation metronome_stats :=
  (Session._compute_metronome_stats np_mean np_std np_max np_polyfit_slope).
Local Abbreviation generate_report :=
  (Session.generate_report np_mean np_std np_median np_max np_argmax np_polyfit_slope).

(** The notes a step stores and the [note_event]s it sends: [added] are the
    notes appended, [new] the events. *)
Local Abbreviation notes_match p p' ev ev' :=
  (exists (new : list event) (added : list (Session.NoteEvent F)),
     ev' = ev ++ new
     /\ Session.note_events p' = Session.note_events p ++ added
     /\ filter is_note_event new
        = map (note_message (Session.timing_threshold_ms p)) added
     /\ Forall (fun n => Session.event_type n = "note"%string
                         /\ Session.pitch n = None) added).

Lemma handle_onset_notes (p p' : pipeline) (ev ev' : list event) (t : F) :
  handle_onset (p, ev) t = Some (p', ev') ->
  same_setup p p' /\ notes_match p p' ev ev'.
Proof.
  intros E. unfold Session.handle_onset in E. cbn [fst snd] in E.
  destruct (negb _).
  - apply before_lock_effect in E.
    destruct E as (md & b & _ & _ & Setup & Notes & _ & Ev).
    split; [eapply same_setup_trans; [|exact Setup]; unfold same_setup; cbn; auto 10|].
    cbn in Notes. destruct b.
    + destruct Ev as (_ & bv & _ & ->). eexists; exists [].
      split; [reflexivity|]. split; [rewrite app_nil_r; exact Notes|].
      split; [reflexivity | constructor].
    + destruct Ev as (_ & ->). eexists; exists [].
      split; [reflexivity|]. split; [rewrite app_nil_r; exact Notes|].
      split; [reflexivity | constructor].
  - apply after_lock_effect in E.
    destruct E as (cls & md & is_click & _ & _ & _ & Setup & _ & _ & Ev).
    split; [eapply same_setup_trans; [|exact Setup]; unfold same_setup; cbn; auto 10|].
    cbn [Session.note_events Session.set_total_onset_count Session._total_onset_count
         Session.timing_threshold_ms] in Ev.
    destruct Ev as [(_ & Notes & ->) | (dev & nr & bar & beat & _ & Notes & ->)].
    + eexists; exists [].
      split; [reflexivity|]. split; [rewrite app_nil_r; exact Notes|].
      split; [reflexivity | constructor].
    + eexists; eexists. split; [reflexivity|]. split; [exact Notes|].
      split; [destruct is_click; reflexivity|].
      constructor; [cbn; auto | constructor].
Qed.

Lemma handle_onsets_notes (ts : list F) (p p' : pipeline) (ev ev' : list event) :
  foldM handle_onset (p, ev) ts = Some (p', ev') ->
  same_setup p p' /\ notes_match p p' ev ev'.
Proof.
  revert p ev; induction ts as [|t ts IH]; intros p ev E.
  - inversion E; subst. split; [apply same_setup_refl|].
    exists [], []. rewrite !app_nil_r. repeat split; constructor.
  - cbn [foldM] in E.
    destruct (handle_onset (p, ev) t) as [[p1 ev1]|] eqn:E1; cbn [bind] in E; [|discriminate].
    destruct (handle_onset_notes p p1 ev ev1 t E1) as (S1 & new1 & add1 & -> & N1 & F1 & A1).
    destruct (IH p1 _ E) as (S2 & new2 & add2 & -> & N2 & F2 & A2).
    split; [eapply same_setup_trans; eassumption|].
    exists (new1 ++ new2), (add1 ++ add2).
    split; [rewrite app_assoc; reflexivity|].
    split; [rewrite N2, N1, app_assoc; reflexivity|].
    destruct S1 as (_ & _ & Th & _). rewrite Th in F2.
    split; [rewrite filter_app, map_app, F1, F2; reflexivity|].
    apply Forall_app; auto.
Qed.

Lemma process_audio_notes (p p' : pipeline) (chunk : list F) (events : list event) :
  process_audio p chunk = Some (p', events) ->
  Session.timing_threshold_ms p' = Session.timing_threshold_ms p
  /\ Session.grid_resolution p' = Session.grid_resolution p
  /\ notes_match p p' [] events.
Proof.
  intros E. unfold Session.process_audio in E.
  destruct (Onset.process_chunk np_rms _ chunk) as [[d onsets]|]; cbn [bind] in E;
    [|discriminate].
  apply handle_onsets_notes in E.
  destruct E as ((S1 & _ & S3 & _) & new & added & -> & N & Fl & A).
  cbn in S1, S3, N, Fl. split; [exact S3|]. split; [exact S1|].
  exists new, added. auto.
Qed.

Lemma process_stream_notes (chunks : list (list F)) (p p' : pipeline)
    (events : list event) :
  process_stream p chunks = Some (p', events) ->
  Session.timing_threshold_ms p' = Session.timing_threshold_ms p
  /\ Session.grid_resolution p' = Session.grid_resolution p
  /\ notes_match p p' [] events.
Proof.
  revert p events; induction chunks as [|c rest IH]; intros p events E.
  - inversion E; subst. split; [reflexivity|]. split; [reflexivity|].
    exists [], []. rewrite !app_nil_r. repeat split; constructor.
  - cbn [Session.process_stream] in E.
    destruct (process_audio p c) as [[p1 e1]|] eqn:E1; cbn [bind] in E; [|discriminate].
    destruct (process_stream p1 rest) as [[p2 e2]|] eqn:E2; cbn [bind] in E; [|discriminate].
    inversion E; subst; clear E.
    destruct (process_audio_notes p p1 c e1 E1) as (T1 & G1 & new1 & add1 & Ev1 & N1 & F1 & A1).
    destruct (IH p1 e2 E2) as (T2 & G2 & new2 & add2 & Ev2 & N2 & F2 & A2).
    cbn [app] in Ev1, Ev2. subst e1 e2.
    split; [congruence|]. split; [congruence|].
    exists (new1 ++ new2), (add1 ++ add2). split; [reflexivity|].
    split; [rewrite N2, N1, app_assoc; reflexivity|].
    rewrite T1 in F2.
    split; [rewrite filter_app, map_app, F1, F2; reflexivity|].
    apply Forall_app; auto.
Qed.

(** X27.  The notes streamed are the notes stored.  Over a whole session
    the [note_event]s returned by [process_audio], in order, are exactly
    the entries of [note_events], each sent with the time, deviation, bar
    and beat position stored and with [is_on_time] computed from the
    stored deviation under the pipeline's threshold; every stored note has
    event type "note" and no pitch. *)
Theorem streamed_notes_are_stored_notes (res : string) (sr : Z) (thr : F)
    (cal : option (Calibration.CalibrationData F)) (chunks : list (list F))
    (p : pipeline) (events : list event) :
  process_stream (Session.init res sr thr cal) chunks = Some (p, events) ->
  filter is_note_event events = map (note_message thr) (Session.note_events p)
  /\ Forall (fun n => Session.event_type n = "note"%string /\ Session.pitch n = None)
            (Session.note_events p)
  /\ Session.timing_threshold_ms p = thr.
Proof.
  intros E. destruct (process_stream_notes chunks _ p events E)
    as (T & _ & new & added & X & N & Fl & A).
  cbn in T, X, N, Fl. subst events. rewrite N. auto.
Qed.

Lemma count_on_time (thr : F) (notes : list (Session.NoteEvent F)) :
  Session.count_within thr (map fabs (map (@Session.deviation_ms F) notes))
  = Z.of_nat (length (filter is_on_time_note (map (note_message thr) notes))).
Proof.
  unfold Session.count_within. f_equal.
  induction notes as [|n notes IH]; [reflexivity|]. cbn.
  destruct (fle (fabs (Session.deviation_ms n)) thr); cbn; rewrite IH; reflexivity.
Qed.

(** The session report, taken apart. *)
Lemma generate_report_session (p : pipeline) (b : F) (g : string) (bars : Z)
    (evs : list (Session.NoteEvent F)) (clicks : list F) (stats : Session.Stats F)
    (ms : Session.MetronomeStats F) :
  generate_report p = Some (Session.session_report b g bars evs clicks stats ms) ->
  Session.audio_buffer p <> []
  /\ Session.is_grid_established p = true
  /\ evs = Session.note_events p
  /\ evs <> []
  /\ g = Session.grid_resolution p
  /\ clicks = Metronome.click_times (Session.metronome_detector p)
  /\ Session.total_notes stats = Z.of_nat (length evs)
  /\ Session.percent
       (Session.count_within (Session.timing_threshold_ms p)
          (map fabs (map (@Session.deviation_ms F) evs)))
       (Z.of_nat (length evs))
     = Some (Session.accuracy_percent stats)
  /\ py_last evs <> None
  /\ metronome_stats p = Some ms.
Proof.
  unfold Session.generate_report.
  destruct (Z.of_nat (length (Session.audio_buffer p)) =? 0)%Z eqn:B; [discriminate|].
  destruct (Session.is_grid_established p); cbn [negb]; [|discriminate].
  destruct (Z.of_nat (length (Session.note_events p)) =? 0)%Z eqn:N; [discriminate|].
  cbv zeta.
  destruct (Metronome.bpm _) as [bv|]; cbn [bind]; [|discriminate].
  destruct (py_last (Session.note_events p)) as [newest|] eqn:L; cbn [bind]; [|discriminate].
  destruct (Session.py_index _ _) as [worst|]; cbn [bind]; [|discriminate].
  destruct (Session.py_index _ _) as [worst_note|]; cbn [bind]; [|discriminate].
  destruct (Session.percent _ _) as [acc|] eqn:P; cbn [bind]; [|discriminate].
  destruct (Session._compute_metronome_stats _ _ _ _ p) as [ms0|] eqn:M; cbn [bind];
    [|discriminate].
  intros E; inversion E; subst; clear E. cbn.
  apply Z.eqb_neq in B. apply Z.eqb_neq in N.
  split; [intros Z0; rewrite Z0 in B; apply B; reflexivity|].
  split; [reflexivity|]. split; [reflexivity|].
  split; [intros Z0; rewrite Z0 in N; apply N; reflexivity|].
  rewrite L. repeat split; try assumption; discriminate.
Qed.

(** X28.  The report counts the notes that were streamed.  When the report
    of a session is a session report, its events are the stored notes,
    which are the [note_event]s sent during the session; [total_notes] is
    their number, which is positive; and [accuracy_percent] is
    [round(on_time / total_notes * 100, 1)] where [on_time] is the number
    of [note_event]s that were sent with [is_on_time] true. *)
Theorem report_counts_streamed_notes (res : string) (sr : Z) (thr : F)
    (cal : option (Calibration.CalibrationData F)) (chunks : list (list F))
    (p : pipeline) (events : list event) (b : F) (g : string) (bars : Z)
    (evs : list (Session.NoteEvent F)) (clicks : list F) (stats : Session.Stats F)
    (ms : Session.MetronomeStats F) :
  process_stream (Session.init res sr thr cal) chunks = Some (p, events) ->
  generate_report p = Some (Session.session_report b g bars evs clicks stats ms) ->
  filter is_note_event events = map (note_message thr) evs
  /\ Session.total_notes stats = Z.of_nat (length (filter is_note_event events))
  /\ (0 < Session.total_notes stats)%Z
  /\ Session.percent (Z.of_nat (length (filter is_on_time_note events)))
       (Session.total_notes stats)
     = Some (Session.accuracy_percent stats)
  /\ g = res
  /\ clicks = Metronome.click_times (Session.metronome_detector p).
Proof.
  intros E R.
  destruct (process_stream_notes chunks _ p events E)
    as (T & G & new & added & X & N & Fl & _).
  cbn in T, G, X, N, Fl. subst events.
  destruct (generate_report_session p b g bars evs clicks stats ms R)
    as (_ & _ & -> & Ne & -> & -> & Tn & Acc & _).
  rewrite N in *. rewrite T in Acc.
  split; [exact Fl|].
  split; [rewrite Fl, length_map; exact Tn|].
  split; [rewrite Tn; destruct added; [contradiction | cbn; lia]|].
  split; [|auto].
  rewrite <- on_time_notes_are_notes, Fl, <- count_on_time, Tn. exact Acc.
Qed.

(** X29.  The error reports of a session.  [generate_report] answers "No
    audio recorded" exactly when the stream held no sample.  When it
    answers "No metronome detected", the grid is not established, the
    onset count in the message is the number of onsets the detector
    logged, the periodic match in it lies between 0 and that count, and
    no note was sent; when it answers "No guitar notes detected", the grid
    is established and no note was sent. *)
Theorem report_errors (res : string) (sr : Z) (thr : F)
    (cal : option (Calibration.CalibrationData F)) (chunks : list (list F))
    (p : pipeline) (events : list event) :
  process_stream (Session.init res sr thr cal) chunks = Some (p, events) ->
  (generate_report p = Some (@Session.no_audio_recorded F) <-> concat chunks = [])
  /\ (forall n c,
        generate_report p = Some (Session.no_metronome_detected n c) ->
        Session.is_grid_established p = false
        /\ n = Metronome.total_onsets (Session.metronome_detector p)
        /\ (0 <= c <= n)%Z
        /\ existsb is_note_event events = false)
  /\ (generate_report p = Some (@Session.no_guitar_notes F) ->
      Session.is_grid_established p = true
      /\ existsb is_note_event events = false).
Proof.
  intros E.
  destruct (process_stream_invariant np_rms np_lstsq librosa_mfcc_mean
              librosa_centroid_mean np_max_abs np_sum_sq np_norm np_dot chunks _ p events
              (init_session_invariant np_lstsq res sr thr cal) E) as (I & B).
  cbn in B.
  destruct (process_stream_notes chunks _ p events E)
    as (_ & _ & new & added & X & N & Fl & _).
  cbn in X, N, Fl. subst events.
  assert (NoNote : Session.note_events p = [] -> existsb is_note_event new = false).
  { intros Z0. apply filter_nil_existsb. rewrite Fl, <- N, Z0. reflexivity. }
  destruct I as (Reach & Lock & _).
  unfold Session.generate_report, Session.is_grid_established in *.
  rewrite B.
  destruct (Z.of_nat (length (concat chunks)) =? 0)%Z eqn:Len.
  { apply Z.eqb_eq in Len.
    assert (Empty : concat chunks = []) by (apply length_zero_iff_nil; lia).
    split; [tauto|]. split; [intros n c D; discriminate D | discriminate]. }
  apply Z.eqb_neq in Len.
  assert (NotEmpty : concat chunks <> []) by (intros Z0; rewrite Z0 in Len; apply Len; reflexivity).
  destruct (Metronome.locked (Session.metronome_detector p)) eqn:L; cbn [negb].
  - destruct (Z.of_nat (length (Session.note_events p)) =? 0)%Z eqn:Nn.
    + apply Z.eqb_eq in Nn.
      assert (Z0 : Session.note_events p = []) by (apply length_zero_iff_nil; lia).
      split; [split; [discriminate | contradiction]|].
      split; [intros n c D; discriminate D|]. intros _. auto.
    + cbv zeta.
      assert (Other : forall r,
                 (b <- Metronome.bpm (Session.metronome_detector p) ;;
                  newest <- py_last (Session.note_events p) ;;
                  worst <- Session.py_index
                             (map (@Session.deviation_ms F) (Session.note_events p))
                             (np_argmax (map fabs (map (@Session.deviation_ms F)
                                                     (Session.note_events p)))) ;;
                  worst_note <- Session.py_index (Session.note_events p)
                                  (np_argmax (map fabs (map (@Session.deviation_ms F)
                                                          (Session.note_events p)))) ;;
                  accuracy <- Session.percent
                                (Session.count_within (Session.timing_threshold_ms p)
                                   (map fabs (map (@Session.deviation_ms F)
                                                (Session.note_events p))))
                                (Z.of_nat (length (Session.note_events p))) ;;
                  stats <- metronome_stats p ;;
                  ret (Session.session_report (round_nd 1 b) (Session.grid_resolution p)
                         (Session.bar newest) (Session.note_events p)
                         (Metronome.click_times (Session.metronome_detector p))
                         {| Session.total_notes :=
                              Z.of_nat (length (Session.note_events p));
                            Session.mean_absolute_deviation_ms :=
                              round_nd 1 (np_mean (map fabs (map (@Session.deviation_ms F)
                                                               (Session.note_events p))));
                            Session.mean_signed_deviation_ms :=
                              round_nd 1 (np_mean (map (@Session.deviation_ms F)
                                                     (Session.note_events p)));
                            Session.std_deviation_ms :=
                              round_nd 1 (np_std (map (@Session.deviation_ms F)
                                                    (Session.note_events p)));
                            Session.median_deviation_ms :=
                              round_nd 1 (np_median (map (@Session.deviation_ms F)
                                                       (Session.note_events p)));
                            Session.worst_deviation_ms := worst;
                            Session.worst_deviation_position :=
                              (Session.bar worst_note, Session.beat_position worst_note);
                            Session.accuracy_percent := accuracy |} stats)) = Some r ->
                 exists b g bars evs clicks stats ms,
                   r = Session.session_report b g bars evs clicks stats ms).
      { intros r.
        destruct (Metronome.bpm _); cbn [bind]; [|discriminate].
        destruct (py_last _); cbn [bind]; [|discriminate].
        destruct (Session.py_index _ _); cbn [bind]; [|discriminate].
        destruct (Session.py_index _ _); cbn [bind]; [|discriminate].
        destruct (Session.percent _ _); cbn [bind]; [|discriminate].
        destruct (Session._compute_metronome_stats _ _ _ _ p); cbn [bind]; [|discriminate].
        intros D; inversion D. do 7 eexists; reflexivity. }
      split; [split; [intros D | contradiction]|split; [intros n c D|intros D]];
        apply Other in D; destruct D as (? & ? & ? & ? & ? & ? & ? & D); discriminate D.
  - destruct Lock as (_ & Nn & Tot).
    split; [split; [discriminate | contradiction]|].
    split; [|discriminate].
    intros n c D. inversion D; subst; clear D.
    pose proof (reachable_fit_invariant np_lstsq _ Reach) as Fit.
    unfold fit_invariant in Fit. rewrite L in Fit.
    destruct Fit as (_ & _ & _ & _ & _ & _ & Bc).
    unfold Metronome.click_count. rewrite L.
    split; [reflexivity|]. split; [symmetry; exact Tot|].
    split; [rewrite <- Tot; exact Bc | apply NoNote, Nn].
Qed.

End SessionReport.

(** ** The metronome statistics, in exact arithmetic *)

Lemma Qround_half_even_mono (x y : Q) :
  x <= y -> (Qround_half_even x <= Qround_half_even y)%Z.
Proof.
  intros Le. rewrite !Qround_half_even_alt.
  pose proof (Qfloor_resp_le _ _ Le) as Fl.
  destruct (Z.eq_dec (Qfloor x) (Qfloor y)) as [Eq|Ne].
  - rewrite <- Eq.
    destruct (Qcompare_spec (2 * (x - inject_Z (Qfloor x))) 1);
      destruct (Qcompare_spec (2 * (y - inject_Z (Qfloor x))) 1);
      try lia; try (destruct (Z.even (Qfloor x)); lia); exfalso; lra.
  - destruct (2 * (x - inject_Z (Qfloor x)) ?= 1);
      destruct (2 * (y - inject_Z (Qfloor y)) ?= 1);
      try destruct (Z.even (Qfloor x)); try destruct (Z.even (Qfloor y)); lia.
Qed.

Lemma Qround_nd_1_mono (x y : Q) : x <= y -> Qround_nd 1 x <= Qround_nd 1 y.
Proof.
  intros Le. unfold Qround_nd. change (inject_Z (10 ^ 1)) with 10.
  assert (M : (Qround_half_even (x * 10) <= Qround_half_even (y * 10))%Z)
    by (apply Qround_half_even_mono; lra).
  rewrite Zle_Qle in M. unfold Qdiv. apply Qmult_le_compat_r; [exact M | discriminate].
Qed.

Section MetronomeStatistics.

Variable np_mean : list Q -> Q.
Variable np_std : list Q -> Q.
Variable np_max : list Q -> Q.
Variable np_polyfit_slope : list Q -> list Q -> option Q.

Local Abbreviation metronome_stats :=
  (Session._compute_metronome_stats np_mean np_std np_max np_polyfit_slope).

Lemma np_sub_length (a b d : list Q) :
  Session.np_sub a b = Some d -> (3 <= length a)%nat -> length d = length a.
Proof.
  unfold Session.np_sub. destruct (_ =? _)%Z eqn:E.
  - apply Z.eqb_eq in E. intros R _; inversion R; subst.
    rewrite length_map, length_combine. lia.
  - destruct a as [|x [|x2 a]]; cbn [length]; intros R L; try lia.
    destruct b as [|y [|y2 b]]; [discriminate| |discriminate].
    inversion R; subst. cbn [length map]. rewrite length_map. reflexivity.
Qed.

Lemma percent_exact (c n : Z) :
  (0 < n)%Z ->
  Session.percent c n = Some (Qround_nd 1 (inject_Z c / inject_Z n * 100)).
Proof.
  intros N. unfold Session.percent.
  rewrite (Qint_div_defined c n) by lia. reflexivity.
Qed.

Lemma percent_ordered (c1 c2 n : Z) :
  (0 < n)%Z -> (0 <= c1 <= c2)%Z -> (c2 <= n)%Z ->
  0 <= Qround_nd 1 (inject_Z c1 / inject_Z n * 100)
  /\ Qround_nd 1 (inject_Z c1 / inject_Z n * 100)
     <= Qround_nd 1 (inject_Z c2 / inject_Z n * 100)
  /\ Qround_nd 1 (inject_Z c2 / inject_Z n * 100) <= 100.
Proof.
  intros N [C0 C12] C2.
  assert (Nq : 0 < inject_Z n) by (change 0 with (inject_Z 0); rewrite <- Zlt_Qlt; exact N).
  assert (Inv : 0 < / inject_Z n) by (apply Qinv_lt_0_compat; exact Nq).
  assert (Q0 : 0 <= inject_Z c1) by (change 0 with (inject_Z 0); rewrite <- Zle_Qle; exact C0).
  assert (Q12 : inject_Z c1 <= inject_Z c2) by (rewrite <- Zle_Qle; exact C12).
  assert (Q2 : inject_Z c2 <= inject_Z n) by (rewrite <- Zle_Qle; exact C2).
  assert (D0 : 0 <= inject_Z c1 / inject_Z n)
    by (unfold Qdiv; apply Qmult_le_0_compat; [exact Q0 | apply Qlt_le_weak, Inv]).
  assert (D12 : inject_Z c1 / inject_Z n <= inject_Z c2 / inject_Z n)
    by (unfold Qdiv; apply Qmult_le_compat_r; [exact Q12 | apply Qlt_le_weak, Inv]).
  assert (D2 : inject_Z c2 / inject_Z n <= 1).
  { apply Qle_shift_div_r; [exact Nq|]. lra. }
  split; [|split].
  - setoid_replace 0 with (Qround_nd 1 0) at 1 by (symmetry; apply Qround_nd_zero; reflexivity).
    apply Qround_nd_1_mono. lra.
  - apply Qround_nd_1_mono. lra.
  - setoid_replace 100 with (Qround_nd 1 100) at 2 by reflexivity.
    apply Qround_nd_1_mono. lra.
Qed.

(** X30.  The statistics of the metronome, when they are computed: there
    are at least three clicks, [total_clicks] is their number, and the two
    consistency percentages are ordered,
    [0 <= tight_percent <= ok_percent <= 100]: a click within 2 ms of the
    fitted grid is within 5 ms of it, and the rounding to one decimal keeps
    the order. *)
Theorem metronome_stats_percentages (p : Session.AudioPipeline Q)
    (n : Z) (interval jitter mean_error max_error drift tight ok : Q) :
  metronome_stats p
  = Some (Session.click_stats n interval jitter mean_error max_error drift tight ok) ->
  n = Z.of_nat (length (Metronome.click_times (Session.metronome_detector p)))
  /\ (3 <= n)%Z
  /\ 0 <= tight /\ tight <= ok /\ ok <= 100.
Proof.
  unfold Session._compute_metronome_stats. cbv zeta.
  destruct (Metronome.period _) as [period|]; [|discriminate].
  destruct (Metronome.reference_time _) as [reference|]; [|discriminate].
  set (clicks := Metronome.click_times (Session.metronome_detector p)).
  destruct (Z.of_nat (length clicks) <? 3)%Z eqn:Few; [discriminate|].
  apply Z.ltb_ge in Few.
  destruct (Session.np_sub clicks _) as [diffs|] eqn:S; cbn [bind]; [|discriminate].
  apply np_sub_length in S; [|lia].
  match goal with |- context [bind ?m _] => destruct m as [dr|] end; cbn [bind];
    [|discriminate].
  rewrite !percent_exact by lia. cbn [bind].
  intros E; inversion E; subst; clear E.
  split; [reflexivity|]. split; [exact Few|].
  apply percent_ordered; [lia| |].
  - unfold Session.count_within. split; [lia|].
    apply Nat2Z.inj_le, filter_length_mono. intros x Hx.
    apply Qfle_true in Hx. apply Qfle_true.
    change (@lit Q Exact 2) with 2 in Hx. change (@lit Q Exact 5) with 5. lra.
  - unfold Session.count_within.
    match goal with |- (Z.of_nat (length (filter ?f ?l)) <= _)%Z =>
      pose proof (filter_length_le f l) as Fl end.
    rewrite !length_map, S in Fl. lia.
Qed.

End MetronomeStatistics.

(** ** The further properties on concrete inputs *)

Lemma short_chunk_adds_samples_only_witness :
  (Z.of_nat (length (ones 511)) < Onset.frame_size)%Z
  /\ Onset.process_chunk rms64 detector0 (ones 511)
     = Some (Onset.set_total_samples detector0
               (Onset.total_samples detector0 + Z.of_nat (length (ones 511))), []).
Proof.
  split; [reflexivity|].
  apply (short_chunk_adds_samples_only rms64 detector0 (ones 511)). reflexivity.
Defined.

Lemma onsets_are_frame_starts_witness :
  exists d' onsets,
    Onset.process_chunks rms64 detector0 [zeros 512; ones 512] = Some (d', onsets)
    /\ Forall (fun t => exists pos fr,
                 In (pos, fr)
                    (Onset.stream_frames (Onset.total_samples detector0)
                       [zeros 512; ones 512])
                 /\ int_div pos (Onset.sample_rate detector0) = Some t) onsets.
Proof.
  destruct (Onset.process_chunks rms64 detector0 [zeros 512; ones 512])
    as [[d' onsets]|] eqn:E; [|vm_compute in E; discriminate].
  exists d', onsets. split; [reflexivity|].
  exact (proj2 (proj2 (onsets_are_frame_starts rms64 detector0 d' _ onsets E))).
Defined.

Lemma onsets_respect_min_interval_witness :
  exists d' first second,
    Onset.process_chunks rms64 detector0 [ones 512; zeros 4096; ones 512]
    = Some (d', [first; second])
    /\ fle (Onset.min_interval_seconds detector0) (fsub second first) = true
    /\ Onset.last_onset_time d' = Some second.
Proof.
  destruct (Onset.process_chunks rms64 detector0 [ones 512; zeros 4096; ones 512])
    as [[d' onsets]|] eqn:E; [|vm_compute in E; discriminate].
  destruct (onsets_respect_min_interval rms64 detector0 d' _ onsets E) as [Sp La].
  assert (Two : exists first second, onsets = [first; second]).
  { vm_compute in E. inversion E. do 2 eexists. reflexivity. }
  destruct Two as (first & second & ->).
  exists d', first, second. split; [reflexivity|].
  split; [exact (proj1 (proj2 Sp)) | exact La].
Defined.

Lemma reset_restores_init_witness :
  exists d' onsets,
    Onset.process_chunks rms64 (Onset.init 44100 (lit (5 # 100))) [ones 600; ones 100]
    = Some (d', onsets)
    /\ Onset.reset d' = Onset.init 44100 (lit (5 # 100)).
Proof.
  destruct (Onset.process_chunks rms64 (Onset.init 44100 (lit (5 # 100)))
              [ones 600; ones 100]) as [[d' onsets]|] eqn:E;
    [|vm_compute in E; discriminate].
  exists d', onsets. split; [reflexivity|].
  exact (proj1 (reset_restores_init rms64 44100 (lit (5 # 100)) _ d' onsets E)).
Defined.

Lemma three_heard_reached : feed ols Metronome.init [1 # 2; 1; 3 # 2] = Some three_heard.
Proof. vm_compute; reflexivity. Qed.

Lemma fourth_click_locks :
  Metronome.add_onset ols three_heard 2 = Returns locked_at_120 true.
Proof. vm_compute; reflexivity. Qed.

Lemma lock_takes_clicks_from_window_witness :
  Metronome.add_onset ols three_heard 2 = Returns locked_at_120 true
  /\ Metronome.locked three_heard = false
  /\ (4 <= Metronome.len (Metronome.click_times locked_at_120)
      <= Metronome.total_onsets locked_at_120)%Z
  /\ Forall (fun c => In c (Metronome.onset_times locked_at_120)
                      /\ fle (fsub 2 Metronome.WINDOW_S) c = true)
            (Metronome.click_times locked_at_120).
Proof.
  split; [exact fourth_click_locks|].
  destruct (lock_takes_clicks_from_window ols three_heard locked_at_120 2
              fourth_click_locks) as (U & _ & _ & N & _ & _ & W & _).
  auto.
Defined.

Lemma lock_is_permanent_witness :
  Metronome.locked locked_at_120 = true
  /\ Metronome.add_onset ols locked_at_120 (5 # 2)
     = Returns (Metronome.set_onset_times locked_at_120
                  (Metronome.onset_times locked_at_120 ++ [5 # 2])) false
  /\ Metronome.locked tracked_once = true.
Proof.
  split; [reflexivity|].
  destruct (lock_is_permanent ols locked_at_120 eq_refl) as (A & T & _).
  split.
  - destruct (Metronome.add_onset ols locked_at_120 (5 # 2)) as [m' b|m'] eqn:E;
      [|vm_compute in E; discriminate].
    destruct (A _ _ _ E) as [-> ->]. reflexivity.
  - apply (T (5 # 2) tracked_once true). vm_compute; reflexivity.
Defined.

Lemma first_tracked_click :
  Metronome.track_onset ols locked_at_120 (5 # 2) = Returns tracked_once true.
Proof. vm_compute; reflexivity. Qed.

Lemma override_without_refit_is_undo_witness :
  (0 <= Metronome._clicks_since_refit locked_at_120 < 3)%Z
  /\ Metronome.track_onset ols locked_at_120 (5 # 2) = Returns tracked_once true
  /\ Pipeline.undo_click tracked_once = Some locked_at_120
  /\ Pipeline.post_lock_decision ols locked_at_120 (5 # 2) (Some "guitar"%string)
     = Some (locked_at_120, false).
Proof.
  assert (C : (0 <= Metronome._clicks_since_refit locked_at_120 < 3)%Z)
    by (cbn; lia).
  split; [exact C|]. split; [exact first_tracked_click|].
  exact (override_without_refit_is_undo ols locked_at_120 tracked_once (5 # 2) C
           first_tracked_click).
Defined.

Lemma locked_at_120_reachable : Pipeline.reachable ols locked_at_120.
Proof.
  apply (feed_reachable ols [1 # 2; 1; 3 # 2; 2] Metronome.init locked_at_120).
  - constructor.
  - exact locked_at_120_reached.
Qed.

Lemma session_fit_invariant_witness :
  Pipeline.reachable ols locked_at_120
  /\ Metronome.locked locked_at_120 = true
  /\ exists p r b,
       Metronome.period locked_at_120 = Some p
       /\ Metronome.reference_time locked_at_120 = Some r
       /\ Metronome.bpm locked_at_120 = Some b
       /\ fle (lit (25 # 100)) p = true
       /\ fle p (lit (15 # 10)) = true
       /\ fdiv (lit 60) p = Some b.
Proof.
  split; [exact locked_at_120_reachable|]. split; [reflexivity|].
  exact (proj2 (session_fit_invariant ols locked_at_120 locked_at_120_reachable) eq_refl).
Defined.

Lemma track_onset_raises_iff_witness :
  click_invariant locked64_at_120
  /\ Metronome.locked locked64_at_120 = true
  /\ Metronome.track_onset ols locked64_at_120 PrimFloat.nan = Raises locked64_at_120
  /\ Metronome.track_onset ols locked64_at_120 PrimFloat.infinity
     = Raises locked64_at_120
  /\ ~ (exists m', Metronome.track_onset ols locked64_at_120 (B64.of_Q (5 # 2))
                   = Raises m').
Proof.
  split; [exact locked64_at_120_invariant|]. split; [reflexivity|].
  split; [|split].
  - apply (track_onset_raises_iff ols locked64_at_120 PrimFloat.nan
             (B64.of_Q (1 # 2)) (B64.of_Q (1 # 2)) locked64_at_120_invariant);
      reflexivity.
  - apply (track_onset_raises_iff ols locked64_at_120 PrimFloat.infinity
             (B64.of_Q (1 # 2)) (B64.of_Q (1 # 2)) locked64_at_120_invariant);
      reflexivity.
  - intros Raised.
    apply (proj1 (track_onset_raises_iff ols locked64_at_120 (B64.of_Q (5 # 2))
                    (B64.of_Q (1 # 2)) (B64.of_Q (1 # 2)) locked64_at_120_invariant
                    eq_refl eq_refl eq_refl)) in Raised.
    vm_compute in Raised. discriminate.
Defined.

Lemma bar_and_beat_locate_index_witness :
  exists dev near bar beat k,
    Grid.compute_deviation grid_at_120 (13 # 10) = Some (dev, near, bar, beat)
    /\ Grid.grid_index grid_at_120 (13 # 10) = Some k
    /\ 1 <= beat /\ beat < 5
    /\ inject_Z k
       == inject_Z (Grid.subdivisions_per_bar grid_at_120) * (inject_Z bar - 1)
          + inject_Z (Grid.subdivisions_per_beat grid_at_120) * (beat - 1).
Proof.
  destruct (Grid.compute_deviation grid_at_120 (13 # 10))
    as [[[[dev near] bar] beat]|] eqn:E; [|vm_compute in E; discriminate].
  destruct (bar_and_beat_locate_index grid_at_120 (13 # 10) dev near bar beat E)
    as (k & K & A & B & C).
  exists dev, near, bar, beat, k. auto.
Defined.

Lemma quiet_input_has_no_onset_witness :
  Onset.sample_rate detectorQ <> 0%Z
  /\ Onset.smoothed_rms detectorQ <= 1 # 1000
  /\ exists d',
       Onset.process_chunks peak_level detectorQ
         [level (1 # 2000) 600; level (1 # 4000) 1100] = Some (d', [])
       /\ Onset.smoothed_rms d' <= 1 # 1000.
Proof.
  assert (Sr : Onset.sample_rate detectorQ <> 0%Z) by discriminate.
  assert (Sm : Onset.smoothed_rms detectorQ <= 1 # 1000) by discriminate.
  split; [exact Sr|]. split; [exact Sm|].
  destruct (quiet_input_has_no_onset peak_level detectorQ
              [level (1 # 2000) 600; level (1 # 4000) 1100] Sr Sm)
    as (d' & E & S & _); [vm_compute; reflexivity|].
  exists d'. auto.
Defined.

Lemma loud_start_is_an_onset_witness :
  (Onset.frame_size <= Z.of_nat (length (ones 600)))%Z
  /\ PrimFloat.ltb (lit (1 # 1000))
       (PrimFloat.mul (lit (3 # 10)) (rms64 (slice (ones 600) 0 Onset.frame_size))) = true
  /\ exists d' rest,
       Onset.process_chunk rms64 (Onset.init 44100 (lit (5 # 100))) (ones 600)
       = Some (d', PrimFloat.zero :: rest).
Proof.
  assert (L : (Onset.frame_size <= Z.of_nat (length (ones 600)))%Z) by discriminate.
  assert (P : PrimFloat.ltb (lit (1 # 1000))
                (PrimFloat.mul (lit (3 # 10))
                   (rms64 (slice (ones 600) 0 Onset.frame_size))) = true)
    by (vm_compute; reflexivity).
  split; [exact L|]. split; [exact P|].
  apply (loud_start_is_an_onset rms64 44100 (lit (5 # 100)) (ones 600));
    [reflexivity | exact L | exact P].
Defined.

Lemma session_invariant_holds_witness :
  exists p events,
    Session.process_stream peak_level ols flat_mfcc_Q flat_centroid_Q peak_level
      sum_sq_Q norm1_Q dot_Q (Session.init "8th" 44100 30 None)
      [level 1 600; level 0 100] = Some (p, events)
    /\ session_invariant ols p
    /\ Session.audio_buffer p = concat [level 1 600; level 0 100].
Proof.
  destruct (Session.process_stream peak_level ols flat_mfcc_Q flat_centroid_Q peak_level
              sum_sq_Q norm1_Q dot_Q (Session.init "8th" 44100 30 None)
              [level 1 600; level 0 100]) as [[p events]|] eqn:E;
    [|vm_compute in E; discriminate].
  exists p, events. split; [reflexivity|].
  destruct (session_invariant_holds peak_level ols flat_mfcc_Q flat_centroid_Q peak_level
              sum_sq_Q norm1_Q dot_Q "8th" 44100 30 None _ p events E) as (I & B & _).
  auto.
Defined.

Lemma established_at_120_invariant : session_invariant ols established_at_120.
Proof.
  unfold session_invariant. split; [exact locked_at_120_reachable|].
  split; [|split; reflexivity].
  change (Metronome.locked (Session.metronome_detector established_at_120)) with true.
  cbv iota. eexists. split; [reflexivity|].
  unfold grid_synced. split; right; vm_compute; reflexivity.
Qed.

Lemma events_of_a_call_witness :
  session_invariant ols established_at_120
  /\ exists p' events,
       Session.process_audio peak_level ols flat_mfcc_Q flat_centroid_Q peak_level
         sum_sq_Q norm1_Q dot_Q established_at_120 (level 1 600) = Some (p', events)
       /\ (1 <= length events)%nat
       /\ Session._total_onset_count p' = 5%Z.
Proof.
  split; [exact established_at_120_invariant|].
  destruct (Session.process_audio peak_level ols flat_mfcc_Q flat_centroid_Q peak_level
              sum_sq_Q norm1_Q dot_Q established_at_120 (level 1 600))
    as [[p' events]|] eqn:E; [|vm_compute in E; discriminate].
  exists p', events. split; [reflexivity|].
  destruct (events_of_a_call peak_level ols flat_mfcc_Q flat_centroid_Q peak_level
              sum_sq_Q norm1_Q dot_Q established_at_120 p' (level 1 600) events
              established_at_120_invariant E) as (d & onsets & Pc & C & Len & _).
  vm_compute in Pc. inversion Pc; subst onsets. cbn in C, Len.
  split; [lia | exact C].
Defined.

Lemma late_onsets_are_scored_as_notes_witness :
  Session.is_grid_established established_at_120 = true
  /\ Session.calibration established_at_120 = Some no_profiles
  /\ exists d onsets p' events,
       Onset.process_chunk peak_level (Session.onset_detector established_at_120)
         (level 1 600) = Some (d, onsets)
       /\ Session.process_audio peak_level ols flat_mfcc_Q flat_centroid_Q peak_level
            sum_sq_Q norm1_Q dot_Q established_at_120 (level 1 600) = Some (p', events)
       /\ Metronome.click_times (Session.metronome_detector p')
          = Metronome.click_times locked_at_120
       /\ forallb is_note_event events = true
       /\ length events = length onsets.
Proof.
  split; [reflexivity|]. split; [reflexivity|].
  destruct (Onset.process_chunk peak_level (Session.onset_detector established_at_120)
              (level 1 600)) as [[d onsets]|] eqn:Pc; [|vm_compute in Pc; discriminate].
  destruct (Session.process_audio peak_level ols flat_mfcc_Q flat_centroid_Q peak_level
              sum_sq_Q norm1_Q dot_Q established_at_120 (level 1 600))
    as [[p' events]|] eqn:E; [|vm_compute in E; discriminate].
  exists d, onsets, p', events. split; [reflexivity|]. split; [reflexivity|].
  destruct (late_onsets_are_scored_as_notes peak_level ols flat_mfcc_Q flat_centroid_Q
              peak_level sum_sq_Q norm1_Q dot_Q established_at_120 p' (level 1 600)
              events no_profiles d onsets eq_refl eq_refl Pc) as (T & _ & N & L & _);
    [|exact E|auto].
  pose proof Pc as Pc'. vm_compute in Pc'. inversion Pc'; subst onsets.
  constructor; [|constructor].
  exists 0%Z. split; [vm_compute; reflexivity | left; vm_compute; reflexivity].
Defined.

Lemma energy_decay_agreement_witness :
  flt (peak_level (level 1 4)) (lit (1 # 1000000)) = false
  /\ ~ sum_sq_Q (slice (level 1 4) 0 (Z.of_nat (length (level 1 4)) / 2))
       == 1 # 10000000000
  /\ option_map (option_map (@Calibration.energy_decay Q))
       (Calibration._extract_window_features flat_mfcc_Q flat_centroid_Q peak_level
          sum_sq_Q (level 1 4) 44100)
     = option_map Some (Classifier.energy_decay_ratio sum_sq_Q (level 1 4)).
Proof.
  assert (L : flt (peak_level (level 1 4)) (lit (1 # 1000000)) = false)
    by (vm_compute; reflexivity).
  assert (N : ~ sum_sq_Q (slice (level 1 4) 0 (Z.of_nat (length (level 1 4)) / 2))
                == 1 # 10000000000) by (vm_compute; discriminate).
  split; [exact L|]. split; [exact N|].
  exact (proj1 (energy_decay_agreement flat_mfcc_Q flat_centroid_Q peak_level sum_sq_Q
                  (level 1 4) 44100 L) N).
Defined.

Lemma extract_profile_counts_witness :
  exists profile,
    Offline.extract_profile onset_at_zero flat_mfcc_Q flat_centroid_Q peak_level
      sum_sq_Q mean_rows_Q mean_Q (level 1 2048) 44100 = Some profile
    /\ (0 <= Calibration.onset_count profile <= 1)%Z
    /\ Calibration.p_energy_decay profile <> None.
Proof.
  destruct (Offline.extract_profile onset_at_zero flat_mfcc_Q flat_centroid_Q peak_level
              sum_sq_Q mean_rows_Q mean_Q (level 1 2048) 44100) as [profile|] eqn:E;
    [|vm_compute in E; discriminate].
  exists profile. split; [reflexivity|].
  destruct (extract_profile_counts onset_at_zero flat_mfcc_Q flat_centroid_Q peak_level
              sum_sq_Q mean_rows_Q mean_Q (level 1 2048) 44100 profile E) as (C & _ & D).
  auto.
Defined.

Lemma profile_of_short_recording_witness :
  (Z.of_nat (length (level 1 2047)) <? 0 + Calibration.WINDOW_SAMPLES)%Z = true
  /\ Offline.extract_profile onset_at_zero flat_mfcc_Q flat_centroid_Q peak_level
       sum_sq_Q mean_rows_Q mean_Q (level 1 2047) 44100 = Some Offline.zero_profile.
Proof.
  split; [reflexivity|].
  apply (profile_of_short_recording onset_at_zero flat_mfcc_Q flat_centroid_Q peak_level
           sum_sq_Q mean_rows_Q mean_Q (level 1 2047) 44100).
  vm_compute; reflexivity.
Defined.

Lemma practice_session_reached :
  Session.process_stream peak_level ols flat_mfcc_Q flat_centroid_Q peak_level
    sum_sq_Q norm1_Q dot_Q (Session.init "8th" 3072 30 None) practice_stream
  = Some (practice_session, practice_events).
Proof. vm_compute; reflexivity. Qed.

Lemma streamed_notes_are_stored_notes_witness :
  Session.process_stream peak_level ols flat_mfcc_Q flat_centroid_Q peak_level
    sum_sq_Q norm1_Q dot_Q (Session.init "8th" 3072 30 None) practice_stream
  = Some (practice_session, practice_events)
  /\ length (Session.note_events practice_session) = 2%nat
  /\ filter is_note_event practice_events
     = map (note_message 30) (Session.note_events practice_session).
Proof.
  split; [exact practice_session_reached|]. split; [reflexivity|].
  exact (proj1 (streamed_notes_are_stored_notes peak_level ols flat_mfcc_Q
                  flat_centroid_Q peak_level sum_sq_Q norm1_Q dot_Q "8th" 3072 30 None
                  practice_stream practice_session practice_events
                  practice_session_reached)).
Defined.

Lemma report_counts_streamed_notes_witness :
  exists b g bars evs clicks stats ms,
    Session.generate_report mean_Q spread_Q median_Q max_Q argmax_Q slope_Q
      practice_session
    = Some (Session.session_report b g bars evs clicks stats ms)
    /\ Session.total_notes stats = 2%Z
    /\ Session.percent (Z.of_nat (length (filter is_on_time_note practice_events)))
         (Session.total_notes stats)
       = Some (Session.accuracy_percent stats).
Proof.
  destruct (Session.generate_report mean_Q spread_Q median_Q max_Q argmax_Q slope_Q
              practice_session)
    as [[| n c | | b g bars evs clicks stats ms]|] eqn:R;
    try (vm_compute in R; discriminate).
  destruct (report_counts_streamed_notes peak_level ols flat_mfcc_Q flat_centroid_Q
              peak_level sum_sq_Q norm1_Q dot_Q mean_Q spread_Q median_Q max_Q argmax_Q
              slope_Q "8th" 3072 30 None practice_stream practice_session practice_events
              b g bars evs clicks stats ms practice_session_reached R)
    as (_ & Tn & _ & Acc & _).
  exists b, g, bars, evs, clicks, stats, ms.
  split; [reflexivity|]. split; [rewrite Tn; reflexivity | exact Acc].
Defined.

Lemma report_errors_witness :
  Session.generate_report mean_Q spread_Q median_Q max_Q argmax_Q slope_Q
    (Session.init "8th" 3072 30 None)
  = Some (@Session.no_audio_recorded Q)
  /\ (exists p events,
        Session.process_stream peak_level ols flat_mfcc_Q flat_centroid_Q peak_level
          sum_sq_Q norm1_Q dot_Q (Session.init "8th" 3072 30 None)
          (firstn 2 practice_stream) = Some (p, events)
        /\ Session.generate_report mean_Q spread_Q median_Q max_Q argmax_Q slope_Q p
           = Some (Session.no_metronome_detected 2 0)
        /\ Session.is_grid_established p = false
        /\ Metronome.total_onsets (Session.metronome_detector p) = 2%Z
        /\ existsb is_note_event events = false)
  /\ (exists p events,
        Session.process_stream peak_level ols flat_mfcc_Q flat_centroid_Q peak_level
          sum_sq_Q norm1_Q dot_Q (Session.init "8th" 3072 30 None)
          (firstn 4 practice_stream) = Some (p, events)
        /\ Session.generate_report mean_Q spread_Q median_Q max_Q argmax_Q slope_Q p
           = Some (@Session.no_guitar_notes Q)
        /\ Session.is_grid_established p = true
        /\ existsb is_note_event events = false).
Proof.
  split; [|split].
  - apply (proj1 (report_errors peak_level ols flat_mfcc_Q flat_centroid_Q peak_level
                    sum_sq_Q norm1_Q dot_Q mean_Q spread_Q median_Q max_Q argmax_Q slope_Q
                    "8th" 3072 30 None [] (Session.init "8th" 3072 30 None) []
                    eq_refl)).
    reflexivity.
  - destruct (Session.process_stream peak_level ols flat_mfcc_Q flat_centroid_Q peak_level
                sum_sq_Q norm1_Q dot_Q (Session.init "8th" 3072 30 None)
                (firstn 2 practice_stream)) as [[p events]|] eqn:E;
      [|vm_compute in E; discriminate].
    assert (R : Session.generate_report mean_Q spread_Q median_Q max_Q argmax_Q slope_Q p
                = Some (Session.no_metronome_detected 2 0)).
    { vm_compute in E. inversion E; subst. vm_compute. reflexivity. }
    exists p, events. split; [reflexivity|]. split; [exact R|].
    destruct (proj1 (proj2 (report_errors peak_level ols flat_mfcc_Q flat_centroid_Q
                              peak_level sum_sq_Q norm1_Q dot_Q mean_Q spread_Q median_Q
                              max_Q argmax_Q slope_Q "8th" 3072 30 None
                              (firstn 2 practice_stream) p events E)) 2%Z 0%Z R)
      as (G & N & _ & Ev).
    split; [exact G|]. split; [symmetry; exact N | exact Ev].
  - destruct (Session.process_stream peak_level ols flat_mfcc_Q flat_centroid_Q peak_level
                sum_sq_Q norm1_Q dot_Q (Session.init "8th" 3072 30 None)
                (firstn 4 practice_stream)) as [[p events]|] eqn:E;
      [|vm_compute in E; discriminate].
    assert (R : Session.generate_report mean_Q spread_Q median_Q max_Q argmax_Q slope_Q p
                = Some (@Session.no_guitar_notes Q)).
    { vm_compute in E. inversion E; subst. vm_compute. reflexivity. }
    exists p, events. split; [reflexivity|]. split; [exact R|].
    exact (proj2 (proj2 (report_errors peak_level ols flat_mfcc_Q flat_centroid_Q
                           peak_level sum_sq_Q norm1_Q dot_Q mean_Q spread_Q median_Q
                           max_Q argmax_Q slope_Q "8th" 3072 30 None
                           (firstn 4 practice_stream) p events E)) R).
Defined.

Lemma metronome_stats_percentages_witness :
  exists n interval jitter mean_error max_error drift tight ok,
    Session._compute_metronome_stats mean_Q spread_Q max_Q slope_Q practice_session
    = Some (Session.click_stats n interval jitter mean_error max_error drift tight ok)
    /\ n = 4%Z
    /\ 0 <= tight /\ tight <= ok /\ ok <= 100.
Proof.
  destruct (Session._compute_metronome_stats mean_Q spread_Q max_Q slope_Q
              practice_session)
    as [[tc | n interval jitter mean_error max_error drift tight ok]|] eqn:M;
    try (vm_compute in M; discriminate).
  destruct (metronome_stats_percentages mean_Q spread_Q max_Q slope_Q practice_session
              n interval jitter mean_error max_error drift tight ok M)
    as (N & _ & A & B & C).
  exists n, interval, jitter, mean_error, max_error, drift, tight, ok.
  split; [reflexivity|]. split; [rewrite N; reflexivity | auto].
Defined.
